(** * Nexus agent gateway: tracing, budget, supervisor, cost analytics

    A shallow embedding of the Go request-turn pipeline
    (tracer, repositories, session budget, LLM configuration, activity
    supervisor, streaming bridge, cost analyzer), of the handlers of
    sessions, traces and cost analysis, of the analysis engine and of the
    replay engine, together with the properties stated about them.

    Conventions.
    - Go [int] is a 64-bit two's complement integer: a [Z] whose arithmetic
      wraps ([Go.wrap]).
    - Go [float64] is Rocq's primitive binary64 [float].
    - [time.Time] is a [Z] (nanoseconds on the wall clock), [time.Duration] a
      64-bit count of nanoseconds; [Time.Sub] saturates as in the Go runtime.
    - A Go function of result type [(T, error)] becomes a computation in the
      monad [M] returning [T * error]; [error] is [option error_value] with
      [None] for [nil]. A run-time panic (nil dereference, index out of
      range) is the [Panicked] outcome of [M].
    - The relational store is a set of tables (lists of rows) inside the
      [World]; a statement issued to it may fail when the environment
      injects a fault ([w_faults]), and the statements of the turn pipeline
      and of the cost analysis are appended to [w_calls]. *)

From Stdlib Require Import ZArith List String Ascii Bool Lia Floats.
From Stdlib Require Import Permutation Sorted DecimalString DecimalNat.
Import ListNotations.
Local Open Scope string_scope.
Local Open Scope list_scope.
Local Open Scope Z_scope.

Set Implicit Arguments.
Set Warnings "-inexact-float".

(** ** Go runtime *)

Module Go.

Definition int_min : Z := - 2 ^ 63.
Definition int_max : Z := 2 ^ 63 - 1.

Definition in_int (z : Z) : Prop := int_min <= z <= int_max.

(** Two's complement wrap-around of 64-bit [int] arithmetic. *)
Definition wrap (z : Z) : Z := (z + 2 ^ 63) mod 2 ^ 64 - 2 ^ 63.

Definition add (a b : Z) : Z := wrap (a + b).

Definition len {A : Type} (l : list A) : Z := Z.of_nat (List.length l).

(** [float64(n)] for an [int] n. *)
Definition float64_of_int (z : Z) : float :=
  if z =? int_min then (-0x1p+63)%float
  else if z <? 0 then PrimFloat.opp (PrimFloat.of_uint63 (Uint63.of_Z (- z)))
  else PrimFloat.of_uint63 (Uint63.of_Z z).

(** [int(f)] for a [float64] f: truncation toward zero; a value that does
    not fit (or NaN) gives the smallest [int], as on amd64. *)
Definition int_of_float64 (f : float) : Z :=
  let z := match Prim2SF f with
           | S754_finite s m e =>
               let a := if 0 <=? e then Z.pos m * 2 ^ e else Z.pos m / 2 ^ (- e) in
               Some (if s then - a else a)
           | S754_zero _ => Some 0
           | _ => None
           end in
  match z with
  | Some z => if (int_min <=? z) && (z <=? int_max) then z else int_min
  | None => int_min
  end.

(** [a > b] and [a < b] on [float64]. *)
Definition fgt (a b : float) : bool := PrimFloat.ltb b a.
Definition flt (a b : float) : bool := PrimFloat.ltb a b.

Definition is_nan (a : float) : bool := PrimFloat.is_nan a.

(** gRPC status codes met on the streaming path. *)
Inductive Code := CodeOK | CodeCanceled | CodeUnknown | CodeDeadlineExceeded
                | CodeUnavailable | CodeInternal.

Definition Code_eqb (a b : Code) : bool :=
  match a, b with
  | CodeOK, CodeOK | CodeCanceled, CodeCanceled | CodeUnknown, CodeUnknown
  | CodeDeadlineExceeded, CodeDeadlineExceeded
  | CodeUnavailable, CodeUnavailable | CodeInternal, CodeInternal => true
  | _, _ => false
  end.

(** Error values: the [context.Canceled] sentinel, [errors.New] /
    [fmt.Errorf] without verb, [fmt.Errorf("<prefix>: %w", inner)], a gRPC
    status error, a driver error of the store, a failed write on the HTTP
    connection. *)
Inductive error_value :=
| context_Canceled
| errors_New (msg : string)
| Errorf_w (prefix : string) (inner : error_value)
| status_Error (code : Code) (desc : string)
| db_Error (desc : string)
| io_Error (desc : string).

Definition error := option error_value.

Fixpoint Error (e : error_value) : string :=
  match e with
  | context_Canceled => "context canceled"
  | errors_New msg => msg
  | Errorf_w prefix inner => prefix ++ ": " ++ Error inner
  | status_Error _ desc => "rpc error: " ++ desc
  | db_Error desc => desc
  | io_Error desc => desc
  end%string.

(** [err == context.Canceled]: identity with the sentinel. *)
Definition is_context_Canceled (e : error_value) : bool :=
  match e with context_Canceled => true | _ => false end.

(** [status.FromError(err)]: the code of a status error. [FromError(nil)]
    is code OK; any other error is reported with [ok = false]. *)
Definition status_FromError (e : error) : option Code :=
  match e with
  | None => Some CodeOK
  | Some (status_Error c _) => Some c
  | Some _ => None
  end.

(** Insertion of [x] in front of the first element that is not [less]
    than it, and the stable insertion sort built from it. Used for SQL
    [ORDER BY] and as one admissible behaviour of [sort.Slice]. *)
Fixpoint insert {A : Type} (less : A -> A -> bool) (x : A) (l : list A) : list A :=
  match l with
  | [] => [x]
  | y :: l' => if less y x then y :: insert less x l' else x :: y :: l'
  end.

Definition insertion_sort {A : Type} (less : A -> A -> bool) (l : list A) : list A :=
  fold_right (insert less) [] l.

End Go.

(** JSON documents ([datatypes.JSON], [map[string]interface{}] after
    [json.Marshal], which writes map keys in sorted order). *)
#[local] Unset Elimination Schemes.
Inductive JSON :=
| JNull
| JStr (s : string)
| JInt (z : Z)
| JFloat (f : float)
| JObj (fields : list (string * JSON))
| JArr (items : list JSON).
#[local] Set Elimination Schemes.

(** [json.Marshal] refuses a float that is NaN or infinite: the first
    such value of a document, in the order in which it is written. *)
Fixpoint json_unsupported (j : JSON) : option float :=
  match j with
  | JFloat f => if PrimFloat.is_nan f || PrimFloat.is_infinity f then Some f else None
  | JObj fields =>
      (fix first (l : list (string * JSON)) : option float :=
         match l with
         | [] => None
         | (_, v) :: l' =>
             match json_unsupported v with
             | Some f => Some f
             | None => first l'
             end
         end) fields
  | JArr items =>
      (fix first (l : list JSON) : option float :=
         match l with
         | [] => None
         | v :: l' =>
             match json_unsupported v with
             | Some f => Some f
             | None => first l'
             end
         end) items
  | _ => None
  end.

(** The error of [json.Marshal(v)]: "json: unsupported value: NaN" (or
    +Inf, -Inf), [None] when the document is written. *)
Definition json_Marshal (j : JSON) : Go.error :=
  match json_unsupported j with
  | Some f =>
      Some (Go.errors_New
              ("json: unsupported value: " ++
               (if PrimFloat.is_nan f then "NaN"
                else if PrimFloat.ltb 0 f then "+Inf" else "-Inf"))%string)
  | None => None
  end.

(** [b, err := json.Marshal(v); if err != nil { b = []byte("{}") }]. *)
Definition json_or_braces (j : JSON) : JSON :=
  match json_Marshal j with
  | Some _ => JObj []
  | None => j
  end.

Definition Time := Z.
Definition Duration := Z.

Module Time.
Definition Second : Duration := 1000000000.
Definition Minute : Duration := 60 * Second.

(** [t.Sub(u)]: the difference, saturated to the range of [Duration]. *)
Definition Sub (t u : Time) : Duration :=
  Z.max Go.int_min (Z.min Go.int_max (t - u)).

Definition Before (t u : Time) : bool := t <? u.
End Time.

(** ** Domain model (internal/domain/model) *)

Module model.

Inductive TraceStatus :=
| TraceStatusRunning | TraceStatusCompleted | TraceStatusFailed | TraceStatusError.

Definition TraceStatus_eqb (a b : TraceStatus) : bool :=
  match a, b with
  | TraceStatusRunning, TraceStatusRunning
  | TraceStatusCompleted, TraceStatusCompleted
  | TraceStatusFailed, TraceStatusFailed
  | TraceStatusError, TraceStatusError => true
  | _, _ => false
  end.

Definition terminal (s : TraceStatus) : bool :=
  negb (TraceStatus_eqb s TraceStatusRunning).

Record Trace := {
  Trace_ID : string;
  Trace_SessionID : string;
  AgentName : string;
  Status : TraceStatus;
  StartedAt : Time;
  EndedAt : option Time;
  Trace_CostTokens : Z;
  Trace_CostAPI : float;
  Metadata : JSON;
  Trace_CreatedAt : Time
}.

Record ExecutionStep := {
  Step_ID : string;
  TraceID : string;
  Sequence : Z;
  StepType : string;
  Input : JSON;
  Output : JSON;
  CostTokens : Z;
  CostAPI : float;
  LatencyMs : Z;
  Snapshot_JSON : JSON;
  CreatedAt : Time;
  UpdatedAt : Time
}.

Record Snapshot := {
  Stage : string;
  Timestamp : Time;
  Snap_Input : JSON;
  Snap_Output : JSON;
  State : JSON;
  Context : JSON
}.

Record Budget := {
  TotalTokens : Z;
  UsedTokens : Z;
  TotalCost : float;
  UsedCost : float
}.

Record Session := {
  Session_ID : string;
  UserID : string;
  Session_Status : string;
  Session_Budget : Budget;
  Session_CreatedAt : Time;
  Session_UpdatedAt : Time
}.

Record Message := {
  Message_ID : string;
  Message_SessionID : string;
  Role : string;
  Content : string;
  Tokens : Z;
  Message_CreatedAt : Time
}.

(** [LLMProvider] is a string type; the constants of the package. *)
Definition LLMProvider := string.
Definition LLMProviderOpenAI : LLMProvider := "openai".
Definition LLMProviderDeepSeek : LLMProvider := "deepseek".
Definition LLMProviderAnthropic : LLMProvider := "anthropic".
Definition LLMProviderQwen : LLMProvider := "qwen".
Definition LLMProviderErnie : LLMProvider := "ernie".
Definition LLMProviderChatGLM : LLMProvider := "chatglm".

Record LLMConfig := {
  Provider : LLMProvider;
  APIKey : string;
  Model : string;
  BaseURL : string;
  Temperature : float;
  MaxTokens : Z
}.

Record LLMRequest := {
  Req_SessionID : string;
  Req_Messages : list Message;
  Req_Config : LLMConfig;
  Req_Provider : string;
  Req_Model : string;
  Req_Temperature : option float;
  Req_MaxTokens : option Z
}.

Record LLMResponse := {
  Resp_SessionID : string;
  Resp_Message : Message;
  Usage : option Z;          (* Usage["total_tokens"]; [None] for a nil map *)
  Cost : float;
  ExecutionTime : float
}.

Definition TraceStatus_JSON (s : TraceStatus) : JSON :=
  JStr match s with
       | TraceStatusRunning => "running"
       | TraceStatusCompleted => "completed"
       | TraceStatusFailed => "failed"
       | TraceStatusError => "error"
       end.

(** [json.Marshal(snapshot)]: the struct's fields in declaration order. *)
Definition Snapshot_Marshal (s : Snapshot) : JSON :=
  JObj [("stage", JStr (Stage s)); ("timestamp", JInt (Timestamp s));
        ("input", Snap_Input s); ("output", Snap_Output s);
        ("state", State s); ("context", Context s)]%string.

End model.

(** ** The world a request runs in *)

(** Statements issued to the store and calls made on the metrics
    calculator, in the order they were made. *)
Inductive Call :=
| CallTraceCreate (t : model.Trace)
| CallTraceGetBySessionID (sessionID : string)
| CallTraceUpdateStatus (traceID : string) (status : model.TraceStatus) (endedAt : Time)
| CallTraceUpdateCost (traceID : string) (tokens : Z) (apiCost : float)
| CallStepCreate (s : model.ExecutionStep)
| CallStepGetByTraceID (traceID : string)
| CallSessionGet (id : string)
| CallSessionUpdateBudget (id : string) (tokensUsed : Z) (costUsed : float)
| CallMessageCreate (m : model.Message)
| CallSum (values : list float)
| CallAvg (values : list float)
| CallMax (values : list float)
| CallMin (values : list float).

Record World := {
  w_traces : list model.Trace;
  w_steps : list model.ExecutionStep;
  w_sessions : list model.Session;
  w_messages : list model.Message;
  w_clock : Time;            (* what [time.Now()] reads *)
  w_uuid : nat;              (* how many UUIDs were drawn *)
  w_faults : list bool;      (* one flag per statement: [true] makes it fail *)
  w_calls : list Call
}.

Inductive Outcome (A : Type) :=
| Returned (a : A)
| Panicked (msg : string).
Arguments Panicked {A} msg.

Definition M (A : Type) : Type := World -> Outcome A * World.

Definition ret {A : Type} (a : A) : M A := fun w => (Returned a, w).

Definition bind {A B : Type} (c : M A) (k : A -> M B) : M B :=
  fun w => match c w with
           | (Returned a, w') => k a w'
           | (Panicked msg, w') => (Panicked msg, w')
           end.

Definition panic {A : Type} (msg : string) : M A := fun w => (Panicked msg, w).

Declare Scope go_scope.
Delimit Scope go_scope with go.
Notation "x <- c ;; k" := (bind c (fun x => k))
  (at level 61, c at next level, right associativity) : go_scope.
Notation "' p <- c ;; k" := (bind c (fun x => match x with p => k end))
  (at level 61, p pattern, c at next level, right associativity) : go_scope.
Notation "c ;;; k" := (bind c (fun _ => k))
  (at level 61, right associativity) : go_scope.
Local Open Scope go_scope.

Definition get : M World := fun w => (Returned w, w).
Definition put (w : World) : M unit := fun _ => (Returned tt, w).
Definition modify (f : World -> World) : M unit := fun w => (Returned tt, f w).

Definition set_traces (l : list model.Trace) (w : World) : World :=
  {| w_traces := l; w_steps := w_steps w; w_sessions := w_sessions w;
     w_messages := w_messages w; w_clock := w_clock w; w_uuid := w_uuid w;
     w_faults := w_faults w; w_calls := w_calls w |}.
Definition set_steps (l : list model.ExecutionStep) (w : World) : World :=
  {| w_traces := w_traces w; w_steps := l; w_sessions := w_sessions w;
     w_messages := w_messages w; w_clock := w_clock w; w_uuid := w_uuid w;
     w_faults := w_faults w; w_calls := w_calls w |}.
Definition set_sessions (l : list model.Session) (w : World) : World :=
  {| w_traces := w_traces w; w_steps := w_steps w; w_sessions := l;
     w_messages := w_messages w; w_clock := w_clock w; w_uuid := w_uuid w;
     w_faults := w_faults w; w_calls := w_calls w |}.
Definition set_messages (l : list model.Message) (w : World) : World :=
  {| w_traces := w_traces w; w_steps := w_steps w; w_sessions := w_sessions w;
     w_messages := l; w_clock := w_clock w; w_uuid := w_uuid w;
     w_faults := w_faults w; w_calls := w_calls w |}.
Definition set_clock (t : Time) (w : World) : World :=
  {| w_traces := w_traces w; w_steps := w_steps w; w_sessions := w_sessions w;
     w_messages := w_messages w; w_clock := t; w_uuid := w_uuid w;
     w_faults := w_faults w; w_calls := w_calls w |}.
Definition set_uuid (n : nat) (w : World) : World :=
  {| w_traces := w_traces w; w_steps := w_steps w; w_sessions := w_sessions w;
     w_messages := w_messages w; w_clock := w_clock w; w_uuid := n;
     w_faults := w_faults w; w_calls := w_calls w |}.
Definition set_faults (l : list bool) (w : World) : World :=
  {| w_traces := w_traces w; w_steps := w_steps w; w_sessions := w_sessions w;
     w_messages := w_messages w; w_clock := w_clock w; w_uuid := w_uuid w;
     w_faults := l; w_calls := w_calls w |}.
Definition set_calls (l : list Call) (w : World) : World :=
  {| w_traces := w_traces w; w_steps := w_steps w; w_sessions := w_sessions w;
     w_messages := w_messages w; w_clock := w_clock w; w_uuid := w_uuid w;
     w_faults := w_faults w; w_calls := l |}.

(** [time.Now()]. *)
Definition time_Now : M Time := fun w => (Returned (w_clock w), w).

(** The n-th identifier handed out by [uuid.New()]. *)
Definition uuid_of (n : nat) : string :=
  ("uuid-" ++ NilEmpty.string_of_uint (Nat.to_uint n))%string.

Definition uuid_New : M string :=
  fun w => (Returned (uuid_of (w_uuid w)), set_uuid (S (w_uuid w)) w).

(** Every statement is logged; the environment decides whether it fails. *)
Definition issue (c : Call) : M bool :=
  fun w => (Returned (hd false (w_faults w)),
            set_faults (tl (w_faults w)) (set_calls (w_calls w ++ [c]) w)).

Definition db_failure : Go.error_value := Go.db_Error "database error".

(** A statement of the read and session paths; the call log keeps the
    statements of the turn pipeline and of the cost analysis only. *)
Definition statement : M bool :=
  fun w => (Returned (hd false (w_faults w)), set_faults (tl (w_faults w)) w).

Definition record_not_found : Go.error_value := Go.errors_New "record not found".

(** ** Repositories (internal/infrastructure/repository) *)

Module TraceRepository.
Import model.

Definition with_status (status : TraceStatus) (endedAt : Time) (t : Trace) : Trace :=
  {| Trace_ID := Trace_ID t; Trace_SessionID := Trace_SessionID t;
     AgentName := AgentName t; Status := status; StartedAt := StartedAt t;
     EndedAt := Some endedAt; Trace_CostTokens := Trace_CostTokens t;
     Trace_CostAPI := Trace_CostAPI t; Metadata := Metadata t;
     Trace_CreatedAt := Trace_CreatedAt t |}.

Definition with_cost (tokens : Z) (apiCost : float) (t : Trace) : Trace :=
  {| Trace_ID := Trace_ID t; Trace_SessionID := Trace_SessionID t;
     AgentName := AgentName t; Status := Status t; StartedAt := StartedAt t;
     EndedAt := EndedAt t; Trace_CostTokens := tokens;
     Trace_CostAPI := apiCost; Metadata := Metadata t;
     Trace_CreatedAt := Trace_CreatedAt t |}.

Definition has_id (traceID : string) (t : Trace) : bool :=
  String.eqb (Trace_ID t) traceID.

(** [db.Create(trace)]: the primary key [id] is unique. *)
Definition Create (trace : Trace) : M Go.error :=
  failed <- issue (CallTraceCreate trace) ;;
  if failed then ret (Some db_failure) else
  w <- get ;;
  if existsb (has_id (Trace_ID trace)) (w_traces w)
  then ret (Some (Go.db_Error "duplicate key value"))
  else modify (set_traces (w_traces w ++ [trace])) ;;; ret None.

(** [Where("session_id = ?").Order("created_at DESC").Find]. *)
Definition GetBySessionID (sessionID : string) : M (list Trace * Go.error) :=
  failed <- issue (CallTraceGetBySessionID sessionID) ;;
  if failed then ret ([], Some db_failure) else
  w <- get ;;
  ret (Go.insertion_sort (fun a b => Trace_CreatedAt b <? Trace_CreatedAt a)
         (filter (fun t => String.eqb (Trace_SessionID t) sessionID) (w_traces w)),
       None).

(** [Model(&Trace{}).Where("id = ?", traceID).Updates({status, ended_at})]:
    every row with that id is overwritten; no row is not an error. *)
Definition UpdateStatus (traceID : string) (status : TraceStatus) (endedAt : Time)
  : M Go.error :=
  failed <- issue (CallTraceUpdateStatus traceID status endedAt) ;;
  if failed then ret (Some db_failure) else
  modify (fun w => set_traces
            (map (fun t => if has_id traceID t then with_status status endedAt t else t)
                 (w_traces w)) w) ;;;
  ret None.

(** [UPDATE traces SET cost_tokens = COALESCE(cost_tokens,0) + ?,
    cost_api = COALESCE(cost_api,0) + ? WHERE id = ?]. The integer column
    is 64 bits wide and the store rejects a sum outside that range. *)
Definition UpdateCost (traceID : string) (tokens : Z) (apiCost : float) : M Go.error :=
  failed <- issue (CallTraceUpdateCost traceID tokens apiCost) ;;
  if failed then ret (Some db_failure) else
  w <- get ;;
  if existsb (fun t => has_id traceID t &&
                negb ((Go.int_min <=? Trace_CostTokens t + tokens) &&
                      (Trace_CostTokens t + tokens <=? Go.int_max)))
             (w_traces w)
  then ret (Some (Go.db_Error "bigint out of range"))
  else
    modify (set_traces
              (map (fun t => if has_id traceID t
                             then with_cost (Trace_CostTokens t + tokens)
                                            (PrimFloat.add (Trace_CostAPI t) apiCost) t
                             else t)
                   (w_traces w))) ;;;
    ret None.

(** [First(&trace, "id = ?", traceID)]. *)
Definition GetByID (traceID : string) : M (option Trace * Go.error) :=
  failed <- statement ;;
  if failed then ret (None, Some db_failure) else
  w <- get ;;
  match find (has_id traceID) (w_traces w) with
  | Some t => ret (Some t, None)
  | None => ret (None, Some record_not_found)
  end.
End TraceRepository.

Module StepRepository.
Import model.

Definition Create (step : ExecutionStep) : M Go.error :=
  failed <- issue (CallStepCreate step) ;;
  if failed then ret (Some db_failure) else
  w <- get ;;
  if existsb (fun s => String.eqb (Step_ID s) (Step_ID step)) (w_steps w)
  then ret (Some (Go.db_Error "duplicate key value"))
  else modify (set_steps (w_steps w ++ [step])) ;;; ret None.

(** [Where("trace_id = ?").Order("sequence ASC").Find]. *)
Definition GetByTraceID (traceID : string) : M (list ExecutionStep * Go.error) :=
  failed <- issue (CallStepGetByTraceID traceID) ;;
  if failed then ret ([], Some db_failure) else
  w <- get ;;
  ret (Go.insertion_sort (fun a b => Sequence a <? Sequence b)
         (filter (fun s => String.eqb (TraceID s) traceID) (w_steps w)),
       None).
End StepRepository.

Module SessionRepository.
Import model.

(** The row after [Updates]: the two counters, and [updated_at], which
    gorm sets on every update of a model that has an [UpdatedAt] field. *)
Definition with_used (tokens : Z) (cost : float) (updatedAt : Time) (s : Session)
  : Session :=
  {| Session_ID := Session_ID s; UserID := UserID s;
     Session_Status := Session_Status s;
     Session_Budget :=
       {| TotalTokens := TotalTokens (Session_Budget s); UsedTokens := tokens;
          TotalCost := TotalCost (Session_Budget s); UsedCost := cost |};
     Session_CreatedAt := Session_CreatedAt s;
     Session_UpdatedAt := updatedAt |}.

Definition has_id (id : string) (s : Session) : bool := String.eqb (Session_ID s) id.

(** [First(&session, "id = ?", id)]. *)
Definition Get (id : string) : M (option Session * Go.error) :=
  failed <- issue (CallSessionGet id) ;;
  if failed then ret (None, Some db_failure) else
  w <- get ;;
  match find (has_id id) (w_sessions w) with
  | Some s => ret (Some s, None)
  | None => ret (None, Some (Go.errors_New "record not found"))
  end.

(** [Model(&model.Session{}).Where("id = ?", id).Updates({
    budget_used_tokens: budget_used_tokens + ?,
    budget_used_cost: budget_used_cost + ?})] on the rows with that id:
    gorm adds [updated_at = now] to the assignments, the time being read
    when the statement is built. The integer column is 64 bits wide and the
    store rejects a sum outside that range. *)
Definition UpdateBudget (id : string) (tokensUsed : Z) (costUsed : float) : M Go.error :=
  now <- time_Now ;;
  failed <- issue (CallSessionUpdateBudget id tokensUsed costUsed) ;;
  if failed then ret (Some db_failure) else
  w <- get ;;
  if existsb (fun s => has_id id s &&
                negb ((Go.int_min <=? UsedTokens (Session_Budget s) + tokensUsed) &&
                      (UsedTokens (Session_Budget s) + tokensUsed <=? Go.int_max)))
             (w_sessions w)
  then ret (Some (Go.db_Error "bigint out of range"))
  else
    modify (set_sessions
              (map (fun s => if has_id id s
                             then with_used (UsedTokens (Session_Budget s) + tokensUsed)
                                            (PrimFloat.add (UsedCost (Session_Budget s)) costUsed)
                                            now s
                             else s)
                   (w_sessions w))) ;;;
    ret None.

(** [db.Create(session)]: the primary key [id] is unique. *)
Definition Create (session : Session) : M Go.error :=
  failed <- statement ;;
  if failed then ret (Some db_failure) else
  w <- get ;;
  if existsb (has_id (Session_ID session)) (w_sessions w)
  then ret (Some (Go.db_Error "duplicate key value"))
  else modify (set_sessions (w_sessions w ++ [session])) ;;; ret None.

(** [Find(&sessions)]: every row. The statement names no order; the rows
    come in the order of the table. *)
Definition GetSessions : M (list Session * Go.error) :=
  failed <- statement ;;
  if failed then ret ([], Some db_failure) else
  w <- get ;;
  ret (w_sessions w, None).

(** [Delete(&model.Session{}, "id = ?", id)]: the rows with that id are
    removed; no row is not an error. *)
Definition Delete (id : string) : M Go.error :=
  failed <- statement ;;
  if failed then ret (Some db_failure) else
  modify (fun w => set_sessions (filter (fun s => negb (has_id id s)) (w_sessions w)) w) ;;;
  ret None.
End SessionRepository.

Module MessageRepository.
Import model.

Definition Create (message : Message) : M Go.error :=
  failed <- issue (CallMessageCreate message) ;;
  if failed then ret (Some db_failure) else
  w <- get ;;
  if existsb (fun m => String.eqb (Message_ID m) (Message_ID message)) (w_messages w)
  then ret (Some (Go.db_Error "duplicate key value"))
  else modify (set_messages (w_messages w ++ [message])) ;;; ret None.

(** [Where("session_id = ?").Order("created_at ASC").Find]. *)
Definition GetBySessionID (sessionID : string) : M (list Message * Go.error) :=
  failed <- statement ;;
  if failed then ret ([], Some db_failure) else
  w <- get ;;
  ret (Go.insertion_sort (fun a b => Message_CreatedAt a <? Message_CreatedAt b)
         (filter (fun m => String.eqb (Message_SessionID m) sessionID) (w_messages w)),
       None).
End MessageRepository.

(** ** Tracer (internal/domain/service/tracer_impl.go) *)

Module Tracer.
Import model.

Definition StartTrace (sessionID agentName : string) : M (option Trace * Go.error) :=
  id <- uuid_New ;;
  startedAt <- time_Now ;;
  createdAt <- time_Now ;;
  let trace := {| Trace_ID := id; Trace_SessionID := sessionID;
                  AgentName := agentName; Status := TraceStatusRunning;
                  StartedAt := startedAt; EndedAt := None;
                  Trace_CostTokens := 0; Trace_CostAPI := 0%float;
                  Metadata := JNull; Trace_CreatedAt := createdAt |} in
  err <- TraceRepository.Create trace ;;
  match err with
  | Some e => ret (None, Some (Go.Errorf_w "failed to create trace" e))
  | None => ret (Some trace, None)
  end.

Definition getNextSequence (traceID : string) : M (Z * Go.error) :=
  '(steps, err) <- StepRepository.GetByTraceID traceID ;;
  match err with
  | Some e => ret (0, Some e)
  | None => ret (Go.add (Go.len steps) 1, None)
  end.

Definition with_ID (id : string) (s : ExecutionStep) : ExecutionStep :=
  {| Step_ID := id; TraceID := TraceID s; Sequence := Sequence s;
     StepType := StepType s; Input := Input s; Output := Output s;
     CostTokens := CostTokens s; CostAPI := CostAPI s; LatencyMs := LatencyMs s;
     Snapshot_JSON := Snapshot_JSON s; CreatedAt := CreatedAt s;
     UpdatedAt := UpdatedAt s |}.

Definition with_times (created updated : Time) (s : ExecutionStep) : ExecutionStep :=
  {| Step_ID := Step_ID s; TraceID := TraceID s; Sequence := Sequence s;
     StepType := StepType s; Input := Input s; Output := Output s;
     CostTokens := CostTokens s; CostAPI := CostAPI s; LatencyMs := LatencyMs s;
     Snapshot_JSON := Snapshot_JSON s; CreatedAt := created;
     UpdatedAt := updated |}.

Definition with_Sequence (n : Z) (s : ExecutionStep) : ExecutionStep :=
  {| Step_ID := Step_ID s; TraceID := TraceID s; Sequence := n;
     StepType := StepType s; Input := Input s; Output := Output s;
     CostTokens := CostTokens s; CostAPI := CostAPI s; LatencyMs := LatencyMs s;
     Snapshot_JSON := Snapshot_JSON s; CreatedAt := CreatedAt s;
     UpdatedAt := UpdatedAt s |}.

(** [RecordStep(ctx, step)]. [step] is a pointer: the first component of
    the result is the caller's struct after the call. *)
Definition RecordStep (step : ExecutionStep) : M (ExecutionStep * Go.error) :=
  step <- (if String.eqb (Step_ID step) ""
           then (id <- uuid_New ;; ret (with_ID id step))
           else ret step) ;;
  if String.eqb (TraceID step) "" then
    ret (step, Some (Go.errors_New "traceID is required"))
  else
    now <- time_Now ;;
    let step := with_times now now step in
    '(step, err) <-
       (if Sequence step =? 0 then
          '(sequence, err) <- getNextSequence (TraceID step) ;;
          match err with
          | Some e => ret (step, Some (Go.Errorf_w "failed to get sequence" e))
          | None => ret (with_Sequence sequence step, None)
          end
        else ret (step, None)) ;;
    match err with
    | Some e => ret (step, Some e)
    | None =>
        err <- StepRepository.Create step ;;
        match err with
        | Some e => ret (step, Some (Go.Errorf_w "failed to record step" e))
        | None =>
            if (CostTokens step >? 0) || Go.fgt (CostAPI step) 0 then
              err <- TraceRepository.UpdateCost (TraceID step) (CostTokens step)
                                                (CostAPI step) ;;
              match err with
              | Some e => ret (step, Some (Go.Errorf_w "failed to update trace cost" e))
              | None => ret (step, None)
              end
            else ret (step, None)
        end
    end.

Definition with_Timestamp (t : Time) (s : Snapshot) : Snapshot :=
  {| Stage := Stage s; Timestamp := t; Snap_Input := Snap_Input s;
     Snap_Output := Snap_Output s; State := State s; Context := Context s |}.

(** [RecordSnapshot(ctx, traceID, snapshot)]; [None] is a nil pointer. *)
Definition RecordSnapshot (traceID : string) (snapshot : option Snapshot) : M Go.error :=
  if String.eqb traceID "" then ret (Some (Go.errors_New "traceID is required")) else
  match snapshot with
  | None => ret (Some (Go.errors_New "snapshot is required"))
  | Some snapshot =>
      ts <- time_Now ;;
      let snapshotJSON := Snapshot_Marshal (with_Timestamp ts snapshot) in
      id <- uuid_New ;;
      created <- time_Now ;;
      updated <- time_Now ;;
      StepRepository.Create
        {| Step_ID := id; TraceID := traceID; Sequence := 0;
           StepType := "snapshot"; Input := JNull; Output := JNull;
           CostTokens := 0; CostAPI := 0%float; LatencyMs := 0;
           Snapshot_JSON := snapshotJSON; CreatedAt := created;
           UpdatedAt := updated |}
  end.

Definition EndTrace (traceID : string) (status : TraceStatus) : M Go.error :=
  endTime <- time_Now ;;
  TraceRepository.UpdateStatus traceID status endTime.

(** [GetTrace(ctx, traceID)]: the trace and its steps. *)
Definition GetTrace (traceID : string)
  : M (option Trace * list ExecutionStep * Go.error) :=
  '(trace, err) <- TraceRepository.GetByID traceID ;;
  match err with
  | Some e => ret (None, [], Some (Go.Errorf_w "failed to get trace" e))
  | None =>
      '(steps, err) <- StepRepository.GetByTraceID traceID ;;
      match err with
      | Some e => ret (None, [], Some (Go.Errorf_w "failed to get steps" e))
      | None => ret (trace, steps, None)
      end
  end.

End Tracer.

(** ** Session service *)

Module SessionService.
Import model.

Definition Get (id : string) : M (option Session * Go.error) :=
  SessionRepository.Get id.

Definition UpdateBudget (id : string) (tokensUsed : Z) (costUsed : float) : M Go.error :=
  SessionRepository.UpdateBudget id tokensUsed costUsed.

(** [CheckBudget(ctx, session, additionalTokens, additionalCost)]; the
    sums are Go arithmetic on [int] and [float64]. *)
Definition CheckBudget (session : Session) (addtionalTokens : Z) (addtionalCost : float)
  : Go.error :=
  let b := Session_Budget session in
  if (TotalTokens b >? 0) && (Go.add (UsedTokens b) addtionalTokens >? TotalTokens b)
  then Some (Go.errors_New "token budget exceeded")
  else if Go.fgt (TotalCost b) 0 &&
          Go.fgt (PrimFloat.add (UsedCost b) addtionalCost) (TotalCost b)
  then Some (Go.errors_New "cost budget exceeded")
  else None.

(** The invariant of the budget counters stated for a session. *)
Definition within_budget (s : Session) : Prop :=
  let b := Session_Budget s in
  (TotalTokens b > 0 -> UsedTokens b <= TotalTokens b) /\
  (Go.fgt (TotalCost b) 0 = true -> Go.fgt (UsedCost b) (TotalCost b) = false).

(** [config.BudgetConfig]. *)
Record BudgetConfig := { DefaultTotalTokens : Z; DefaultTotalCost : float }.

Definition Create (budget : BudgetConfig) (userID : string)
  : M (option Session * Go.error) :=
  id <- uuid_New ;;
  createdAt <- time_Now ;;
  updatedAt <- time_Now ;;
  let session :=
    {| Session_ID := id; UserID := userID; Session_Status := "active";
       Session_Budget := {| TotalTokens := DefaultTotalTokens budget; UsedTokens := 0;
                            TotalCost := DefaultTotalCost budget; UsedCost := 0%float |};
       Session_CreatedAt := createdAt; Session_UpdatedAt := updatedAt |} in
  err <- SessionRepository.Create session ;;
  match err with
  | Some e => ret (None, Some e)
  | None => ret (Some session, None)
  end.

Definition Delete (id : string) : M Go.error := SessionRepository.Delete id.

Definition GetSessions : M (list Session * Go.error) := SessionRepository.GetSessions.

End SessionService.

Module MessageService.
Definition SaveMessage (message : model.Message) : M Go.error :=
  MessageRepository.Create message.

Fixpoint SaveMessages (messages : list model.Message) : M Go.error :=
  match messages with
  | [] => ret None
  | message :: rest =>
      err <- SaveMessage message ;;
      match err with
      | Some e => ret (Some e)
      | None => SaveMessages rest
      end
  end.

Definition GetSessionMessages (sessionID : string) : M (list model.Message * Go.error) :=
  MessageRepository.GetBySessionID sessionID.
End MessageService.

(** ** LLM service: configuration defaulting and validation *)

Module LLMService.
Import model.

(** [config.LLMConfig]: the configured default provider and model, and the
    credentials [(apiKey, baseURL)] the environment holds per provider. *)
Record Config := {
  DefaultProvider : string;
  DefaultModel : string;
  env_credentials : string -> string * string
}.

(** A provider configuration value: its dynamic type (one struct type per
    provider) and its two fields. *)
Definition ProviderConfig : Type := string * (string * string).

Definition GetProviderConfig (c : Config) (provider : string) : option ProviderConfig :=
  if String.eqb provider "openai" || String.eqb provider "deepseek" ||
     String.eqb provider "anthropic" || String.eqb provider "qwen" ||
     String.eqb provider "ernie" || String.eqb provider "chatglm"
  then Some (provider, env_credentials c provider)
  else None.

Definition GetDefaultProviderConfig (c : Config) : option ProviderConfig :=
  GetProviderConfig c (DefaultProvider c).

Definition getProviderFromType (providerType : string) : LLMProvider :=
  if String.eqb providerType "openai" then LLMProviderOpenAI
  else if String.eqb providerType "deepseek" then LLMProviderDeepSeek
  else if String.eqb providerType "anthropic" then LLMProviderAnthropic
  else if String.eqb providerType "qwen" then LLMProviderQwen
  else if String.eqb providerType "ernie" then LLMProviderErnie
  else if String.eqb providerType "chatglm" then LLMProviderChatGLM
  else LLMProviderOpenAI.

(** The type switch of [getProviderCredentials]: the credentials are read
    when the value has the struct type of [providerType]. *)
Definition getProviderCredentials (providerType : string)
           (providerConfig : option ProviderConfig) : string * string :=
  match providerConfig with
  | Some (ty, creds) =>
      if (String.eqb providerType "openai" || String.eqb providerType "deepseek" ||
          String.eqb providerType "anthropic" || String.eqb providerType "qwen" ||
          String.eqb providerType "ernie" || String.eqb providerType "chatglm")
         && String.eqb ty providerType
      then creds else ("", "")
  | None => ("", "")
  end.

Definition getDefaultModelForProvider (c : Config) (providerType : string) : string :=
  if String.eqb providerType "openai" then DefaultModel c
  else if String.eqb providerType "deepseek" then "deepseek-chat"
  else if String.eqb providerType "anthropic" then "claude-3-sonnet-20240229"
  else if String.eqb providerType "qwen" then "qwen-turbo"
  else if String.eqb providerType "ernie" then "ernie-bot-turbo"
  else if String.eqb providerType "chatglm" then "glm-4"
  else DefaultModel c.

Definition GetDefaultConfig (c : Config) : LLMConfig :=
  let providerConfig :=
    match GetDefaultProviderConfig c with
    | Some pc => Some pc
    | None => GetProviderConfig c "openai"
    end in
  let provider := getProviderFromType (DefaultProvider c) in
  let '(apiKey, baseURL) := getProviderCredentials (DefaultProvider c) providerConfig in
  let modelName := getDefaultModelForProvider c (DefaultProvider c) in
  {| Provider := provider; APIKey := apiKey; Model := modelName; BaseURL := baseURL;
     Temperature := 0.7%float; MaxTokens := 2000 |}.

(** [inferProviderFromModel]: a switch on equalities of the model name. *)
Definition inferProviderFromModel (modelName : string) : LLMProvider :=
  if String.eqb modelName "deepseek-chat" || String.eqb modelName "deepseek-reasoner"
  then LLMProviderDeepSeek
  else if String.eqb modelName "claude-3-opus-20240229" ||
          String.eqb modelName "claude-3-sonnet-20240229" ||
          String.eqb modelName "claude-3-haiku-20240307" ||
          String.eqb modelName "claude-3-5-sonnet-20241022"
  then LLMProviderAnthropic
  else if String.eqb modelName "qwen-turbo" || String.eqb modelName "qwen-plus" ||
          String.eqb modelName "qwen-max" || String.eqb modelName "qwen-max-longcontext"
  then LLMProviderQwen
  else if String.eqb modelName "ernie-bot-turbo" || String.eqb modelName "ernie-bot" ||
          String.eqb modelName "ernie-bot-4" || String.eqb modelName "ernie-speed"
  then LLMProviderErnie
  else if String.eqb modelName "glm-4" || String.eqb modelName "glm-4v" ||
          String.eqb modelName "glm-3-turbo"
  then LLMProviderChatGLM
  else LLMProviderOpenAI.

Definition set_Provider (p : LLMProvider) (k : LLMConfig) : LLMConfig :=
  {| Provider := p; APIKey := APIKey k; Model := Model k; BaseURL := BaseURL k;
     Temperature := Temperature k; MaxTokens := MaxTokens k |}.
Definition set_APIKey (a : string) (k : LLMConfig) : LLMConfig :=
  {| Provider := Provider k; APIKey := a; Model := Model k; BaseURL := BaseURL k;
     Temperature := Temperature k; MaxTokens := MaxTokens k |}.
Definition set_Model (m : string) (k : LLMConfig) : LLMConfig :=
  {| Provider := Provider k; APIKey := APIKey k; Model := m; BaseURL := BaseURL k;
     Temperature := Temperature k; MaxTokens := MaxTokens k |}.
Definition set_BaseURL (u : string) (k : LLMConfig) : LLMConfig :=
  {| Provider := Provider k; APIKey := APIKey k; Model := Model k; BaseURL := u;
     Temperature := Temperature k; MaxTokens := MaxTokens k |}.
Definition set_Temperature (t : float) (k : LLMConfig) : LLMConfig :=
  {| Provider := Provider k; APIKey := APIKey k; Model := Model k; BaseURL := BaseURL k;
     Temperature := t; MaxTokens := MaxTokens k |}.
Definition set_MaxTokens (n : Z) (k : LLMConfig) : LLMConfig :=
  {| Provider := Provider k; APIKey := APIKey k; Model := Model k; BaseURL := BaseURL k;
     Temperature := Temperature k; MaxTokens := n |}.

(** [getEffectiveLLMConfig(userConfig)]; [None] is a nil pointer. *)
Definition getEffectiveLLMConfig (c : Config) (userConfig : option LLMConfig) : LLMConfig :=
  let config := GetDefaultConfig c in
  let config :=
    match userConfig with
    | None => config
    | Some u =>
        let config :=
          if negb (String.eqb (Provider u) "") then
            let config := set_Provider (Provider u) config in
            match GetProviderConfig c (Provider u) with
            | Some pc =>
                let '(apiKey, baseURL) := getProviderCredentials (Provider u) (Some pc) in
                let config := set_APIKey apiKey config in
                if negb (String.eqb baseURL "") then set_BaseURL baseURL config else config
            | None => config
            end
          else config in
        let config := if negb (String.eqb (Model u) "") then set_Model (Model u) config
                      else config in
        let config := if negb (String.eqb (BaseURL u) "") then set_BaseURL (BaseURL u) config
                      else config in
        let config := if Go.fgt (Temperature u) 0 then set_Temperature (Temperature u) config
                      else config in
        if MaxTokens u >? 0 then set_MaxTokens (MaxTokens u) config else config
    end in
  let config :=
    if String.eqb (Provider config) ""
    then set_Provider (inferProviderFromModel (Model config)) config
    else config in
  if String.eqb (APIKey config) "" then
    match GetProviderConfig c (Provider config) with
    | Some pc => set_APIKey (fst (getProviderCredentials (Provider config) (Some pc))) config
    | None => config
    end
  else config.

Definition ValidateConfig (config : LLMConfig) : Go.error :=
  if String.eqb (Provider config) "" then Some (Go.errors_New "provider is required")
  else if String.eqb (Model config) "" then Some (Go.errors_New "model is required")
  else if Go.flt (Temperature config) 0 || Go.fgt (Temperature config) 2
  then Some (Go.errors_New "temperature must be between 0 and 2")
  else if (MaxTokens config <=? 0) || (MaxTokens config >? 32000)
  then Some (Go.errors_New "max_tokens must be between 1 and 32000")
  else None.

(** The request [ExecuteChat] and [ExecuteChatStream] hand to the client. *)
Definition buildRequest (c : Config) (sessionID : string) (messages : list Message)
           (llmConfig : option LLMConfig) : LLMRequest :=
  let config := getEffectiveLLMConfig c llmConfig in
  {| Req_SessionID := sessionID; Req_Messages := messages; Req_Config := config;
     Req_Provider := Provider config; Req_Model := Model config;
     Req_Temperature := if Go.fgt (Temperature config) 0 then Some (Temperature config)
                        else None;
     Req_MaxTokens := if MaxTokens config >? 0 then Some (MaxTokens config) else None |}.

End LLMService.

(** ** Activity supervisor (handler package) *)

Module ActivityTracker.

Record StreamTimeoutConfig := {
  InitialTimeout : Duration;
  ActivityTimeout : Duration;
  MaxTotalTimeout : Duration
}.

(** [done] is the state of the tracker's own context. *)
Record t := {
  lastActivity : Time;
  totalStart : Time;
  config : StreamTimeoutConfig;
  done : bool
}.

Definition NewActivityTracker (config : StreamTimeoutConfig) : M t :=
  now <- time_Now ;;
  ret {| lastActivity := now; totalStart := now; config := config; done := false |}.

Definition UpdateActivity (at_ : t) : M t :=
  now <- time_Now ;;
  ret {| lastActivity := now; totalStart := totalStart at_; config := config at_;
         done := done at_ |}.

Definition timeSinceLastActivity (now : Time) (at_ : t) : Duration :=
  Time.Sub now (lastActivity at_).
Definition totalTime (now : Time) (at_ : t) : Duration :=
  Time.Sub now (totalStart at_).

Definition shouldTimeout (at_ : t) : M bool :=
  now <- time_Now ;;
  if timeSinceLastActivity now at_ >? ActivityTimeout (config at_) then ret true
  else if totalTime now at_ >? MaxTotalTimeout (config at_) then ret true
  else ret false.

Definition cancel (at_ : t) : t :=
  {| lastActivity := lastActivity at_; totalStart := totalStart at_;
     config := config at_; done := true |}.

Definition Stop (at_ : t) : t := cancel at_.

Definition getDefaultStreamTimeoutConfig : StreamTimeoutConfig :=
  {| InitialTimeout := 2 * Time.Minute;
     ActivityTimeout := 30 * Time.Second;
     MaxTotalTimeout := 30 * Time.Minute |}.

(** The goroutine started by [StartMonitoring], as a transition system.
    It leaves its loop when the context is done, or after it cancelled.
    When its [select] finds the context done and a tick pending, both
    cases are ready and the runtime picks one of them: the event says
    which.
    [polls] records, for every poll it made, the time of the poll and the
    [lastActivity] it read; [firedAt] the poll at which it cancelled. *)
Record Supervised := {
  tracker : t;
  monitoring : bool;
  polls : list (Time * Time);
  firedAt : option Time
}.

Definition StartMonitoring (at_ : t) : Supervised :=
  {| tracker := at_; monitoring := true; polls := []; firedAt := None |}.

Inductive Event :=
| Elapse (d : Duration)      (* time passes *)
| Activity                   (* a chunk arrived: [UpdateActivity] *)
| Tick (ticker_first : bool) (* the one-second ticker fires; the case the
                                runtime picks when the context is done too *)
| Stopped.                   (* [Stop], by the handler or on client disconnect *)

Definition step (e : Event) (s : Supervised) : M Supervised :=
  match e with
  | Elapse d =>
      modify (fun w => set_clock (w_clock w + Z.max 0 d) w) ;;; ret s
  | Activity =>
      at_ <- UpdateActivity (tracker s) ;;
      ret {| tracker := at_; monitoring := monitoring s; polls := polls s;
             firedAt := firedAt s |}
  | Stopped =>
      ret {| tracker := Stop (tracker s); monitoring := monitoring s; polls := polls s;
             firedAt := firedAt s |}
  | Tick ticker_first =>
      if negb (monitoring s) then ret s
      else if done (tracker s) && negb ticker_first then
        (* [<-at.ctx.Done()] is ready and is the case taken: the goroutine
           returns *)
        ret {| tracker := tracker s; monitoring := false; polls := polls s;
               firedAt := firedAt s |}
      else
        now <- time_Now ;;
        timeout <- shouldTimeout (tracker s) ;;
        let polls' := polls s ++ [(now, lastActivity (tracker s))] in
        if timeout then
          ret {| tracker := cancel (tracker s); monitoring := false; polls := polls';
                 firedAt := Some now |}
        else
          ret {| tracker := tracker s; monitoring := true; polls := polls';
                 firedAt := firedAt s |}
  end.

Fixpoint run (es : list Event) (s : Supervised) : M Supervised :=
  match es with
  | [] => ret s
  | e :: es' => s' <- step e s ;; run es' s'
  end.

End ActivityTracker.

(** ** Metrics calculator (internal/domain/service/metrics_calculator.go) *)

Module MetricsCalculatorImpl.

Definition Sum (values : list float) : float :=
  fold_left (fun sum value => PrimFloat.add sum value) values 0%float.

Definition Avg (values : list float) : float :=
  PrimFloat.div (fold_left (fun sum value => PrimFloat.add sum value) values 0%float)
                (Go.float64_of_int (Go.len values)).

(** [values[0]] panics on an empty slice: [None]. *)
Definition Max (values : list float) : option float :=
  match values with
  | [] => None
  | v0 :: _ => Some (fold_left (fun max value => if Go.fgt value max then value else max)
                               values v0)
  end.

Definition Min (values : list float) : option float :=
  match values with
  | [] => None
  | v0 :: _ => Some (fold_left (fun min value => if Go.flt value min then value else min)
                               values v0)
  end.

End MetricsCalculatorImpl.

(** The calculator as the analyzer reaches it: through the injected
    [MetricsCalculator] interface, each call being recorded. *)
Module calculator.
Definition record (c : Call) : M unit :=
  modify (fun w => set_calls (w_calls w ++ [c]) w).

Definition index_out_of_range : string :=
  "runtime error: index out of range [0] with length 0".

Definition Sum (values : list float) : M float :=
  record (CallSum values) ;;; ret (MetricsCalculatorImpl.Sum values).
Definition Avg (values : list float) : M float :=
  record (CallAvg values) ;;; ret (MetricsCalculatorImpl.Avg values).
Definition Max (values : list float) : M float :=
  record (CallMax values) ;;;
  match MetricsCalculatorImpl.Max values with
  | Some m => ret m
  | None => panic index_out_of_range
  end.
Definition Min (values : list float) : M float :=
  record (CallMin values) ;;;
  match MetricsCalculatorImpl.Min values with
  | Some m => ret m
  | None => panic index_out_of_range
  end.
End calculator.

(** ** Data aggregator and cost analyzer *)

Module DataAggregatorImpl.
Record FilterCriteria := {
  MinCost : float;
  MaxCost : float;
  Status : model.TraceStatus;
  ModelNames : list string;
  StepTypes : list string
}.

(** [FilterTraces] is a stub returning [nil]. *)
Definition FilterTraces (traces : list model.Trace) (criteria : FilterCriteria)
  : list model.Trace := [].
End DataAggregatorImpl.

Module CostAnalyzerImpl.
Import model.

Record TimeRange := { StartTime : string; EndTime : string }.

Record CostAnalysisInput := {
  In_SessionID : string;
  In_TimeRange : option TimeRange;
  GroupBy : list string;
  Filters : option DataAggregatorImpl.FilterCriteria
}.

Record CostSummary := {
  TotalCost : float;
  AvgCost : float;
  MaxCost : float;
  MinCost : float;
  TotalTokens : Z;
  TraceCount : Z;
  CostPerToken : float
}.

(** The zero value [&CostSummary{}]. *)
Definition CostSummary_zero : CostSummary :=
  {| TotalCost := 0%float; AvgCost := 0%float; MaxCost := 0%float; MinCost := 0%float;
     TotalTokens := 0; TraceCount := 0; CostPerToken := 0%float |}.

(** Maps [string -> float64] keep their entries in first-insertion order
    here; [ByTime] is keyed by the calendar day of [StartedAt], kept as the
    number of whole days since the epoch instead of its printed form. *)
Record CostBreakdown := {
  ByModel : list (string * float);
  ByStepType : list (string * float);
  ByTime : list (Z * float)
}.

(** [Timestamp] is kept as the instant instead of its RFC 3339 text. *)
Record CostDataPoint := { Timestamp : Time; Cost : float }.

Record CostTrend := {
  DataPoints : list CostDataPoint;
  GrowthRate : float;
  IsIncreasing : bool
}.

Record CostHotspot := {
  Hot_TraceID : string;
  Hot_Cost : float;
  Hot_Tokens : Z;
  Reason : string;
  Impact : string
}.

Record CostAnalysisResult := {
  SessionID : string;
  Summary : option CostSummary;
  Breakdown : option CostBreakdown;
  Trends : option CostTrend;
  Hotspots : list CostHotspot;
  Suggestions : list string
}.

(** [m[k] += v] on a map with zero default. *)
Fixpoint map_add {K : Type} (eqb : K -> K -> bool) (k : K) (v : float)
         (m : list (K * float)) : list (K * float) :=
  match m with
  | [] => [(k, PrimFloat.add 0%float v)]
  | (k', x) :: m' => if eqb k' k then (k', PrimFloat.add x v) :: m'
                     else (k', x) :: map_add eqb k v m'
  end.

Definition extractModelFromMetadata (trace : Trace) : string :=
  if negb (String.eqb (AgentName trace) "") then AgentName trace else "unknown".

Definition estimateStepCost (step : ExecutionStep) : float :=
  PrimFloat.mul (Go.float64_of_int (CostTokens step)) 0.00002%float.

Definition calculateSummary (traces : list Trace) : M CostSummary :=
  let costs := map Trace_CostAPI traces in
  let totalTokens := fold_left (fun acc trace => Go.add acc (Trace_CostTokens trace))
                               traces 0 in
  totalCost <- calculator.Sum costs ;;
  avgCost <- calculator.Avg costs ;;
  maxCost <- calculator.Max costs ;;
  minCost <- calculator.Min costs ;;
  let costPerToken :=
    if totalTokens >? 0 then PrimFloat.div totalCost (Go.float64_of_int totalTokens)
    else 0%float in
  ret {| TotalCost := totalCost; AvgCost := avgCost; MaxCost := maxCost;
         MinCost := minCost; TotalTokens := totalTokens;
         TraceCount := Go.len traces; CostPerToken := costPerToken |}.

Definition day_of (t : Time) : Z := t / (24 * 60 * Time.Minute).

Fixpoint stepTypeCosts (traces : list Trace) (acc : list (string * float))
  : M (list (string * float)) :=
  match traces with
  | [] => ret acc
  | trace :: rest =>
      '(steps, err) <- StepRepository.GetByTraceID (Trace_ID trace) ;;
      match err with
      | Some _ => stepTypeCosts rest acc
      | None =>
          stepTypeCosts rest
            (fold_left (fun m step => map_add String.eqb (StepType step)
                                              (estimateStepCost step) m) steps acc)
      end
  end.

Definition calculateBreakdown (traces : list Trace) (groupBy : list string)
  : M CostBreakdown :=
  let byModel := fold_left (fun m trace => map_add String.eqb
                              (extractModelFromMetadata trace) (Trace_CostAPI trace) m)
                           traces [] in
  byStepType <- stepTypeCosts traces [] ;;
  let byTime := fold_left (fun m trace => map_add Z.eqb (day_of (StartedAt trace))
                                                  (Trace_CostAPI trace) m)
                          traces [] in
  ret {| ByModel := byModel; ByStepType := byStepType; ByTime := byTime |}.

Section WithSort.
(** [sort.Slice(x, less)] of the Go library, on the elements. *)
Variable sortSlice : forall A : Type, (A -> A -> bool) -> list A -> list A.

(** The running totals appended by the loop of [analyzeTrends]. *)
Fixpoint cumulative (traces : list Trace) (cumulativeCost : float)
  : list CostDataPoint :=
  match traces with
  | [] => []
  | trace :: rest =>
      let cumulativeCost := PrimFloat.add cumulativeCost (Trace_CostAPI trace) in
      {| Timestamp := StartedAt trace; Cost := cumulativeCost |}
        :: cumulative rest cumulativeCost
  end.

(** [analyzeTrends] sorts the caller's slice in place: the second
    component is the slice afterwards. *)
Definition analyzeTrends (traces : list Trace) : CostTrend * list Trace :=
  let traces := sortSlice (fun a b => Time.Before (StartedAt a) (StartedAt b)) traces in
  let dataPoints := cumulative traces 0%float in
  let '(growthRate, isIncreasing) :=
    if Go.len traces >? 1 then
      match traces, rev traces with
      | first :: _, last :: _ =>
          let firstCost := Trace_CostAPI first in
          let lastCost := Trace_CostAPI last in
          if Go.fgt firstCost 0
          then (PrimFloat.div (PrimFloat.sub lastCost firstCost) firstCost,
                Go.fgt lastCost firstCost)
          else (0%float, false)
      | _, _ => (0%float, false)
      end
    else (0%float, false) in
  ({| DataPoints := dataPoints; GrowthRate := growthRate;
      IsIncreasing := isIncreasing |}, traces).

Definition impact_of (costAPI : float) : string :=
  if Go.fgt costAPI 1.0 then "high"
  else if Go.fgt costAPI 0.1 then "medium"
  else "low".

Definition hotspot_of (trace : Trace) : CostHotspot :=
  {| Hot_TraceID := Trace_ID trace; Hot_Cost := Trace_CostAPI trace;
     Hot_Tokens := Trace_CostTokens trace;
     Reason := "使用了" ++ extractModelFromMetadata trace ++ "模型";
     Impact := impact_of (Trace_CostAPI trace) |}.

(** [IdentifyHotspots] also sorts the caller's slice in place. *)
Definition IdentifyHotspots (traces : list Trace) (topN : Z)
  : list CostHotspot * list Trace :=
  let traces := sortSlice (fun a b => Go.fgt (Trace_CostAPI a) (Trace_CostAPI b))
                          traces in
  (map hotspot_of (firstn (Z.to_nat topN) traces), traces).

Definition Analyze (input : CostAnalysisInput)
  : M (option CostAnalysisResult * Go.error) :=
  '(traces, err) <- TraceRepository.GetBySessionID (In_SessionID input) ;;
  match err with
  | Some e => ret (None, Some (Go.Errorf_w "failed to get traces" e))
  | None =>
      if Go.len traces =? 0 then
        ret (Some {| SessionID := In_SessionID input;
                     Summary := Some CostSummary_zero; Breakdown := None;
                     Trends := None; Hotspots := []; Suggestions := [] |}, None)
      else
        let traces :=
          match Filters input with
          | Some criteria => DataAggregatorImpl.FilterTraces traces criteria
          | None => traces
          end in
        summary <- calculateSummary traces ;;
        breakdown <- calculateBreakdown traces (GroupBy input) ;;
        let '(trends, traces) := analyzeTrends traces in
        let '(hotspots, traces) := IdentifyHotspots traces 5 in
        ret (Some {| SessionID := In_SessionID input; Summary := Some summary;
                     Breakdown := Some breakdown; Trends := Some trends;
                     Hotspots := hotspots; Suggestions := [] |}, None)
  end.
End WithSort.

End CostAnalyzerImpl.

(** The analysis input built by the [AnalyzeCost] handler of
    GET /analysis/cost (internal/interface/handler/analysis_handler.go). *)
Module AnalysisHandler.
Import CostAnalyzerImpl.

Definition analysisInput (sessionID startTime endTime : string) : CostAnalysisInput :=
  let timeRange :=
    if negb (String.eqb startTime "") && negb (String.eqb endTime "")
    then Some {| StartTime := startTime; EndTime := endTime |}
    else None in
  {| In_SessionID := sessionID; In_TimeRange := timeRange;
     GroupBy := ["model"; "step_type"; "time"]; Filters := None |}.

(** [AnalyzeCost]: the status code and, on success, the result. *)
Definition AnalyzeCost (sortSlice : forall A : Type, (A -> A -> bool) -> list A -> list A)
           (sessionID startTime endTime : string)
  : M (Z * option CostAnalysisResult) :=
  if String.eqb sessionID "" then ret (400, None)
  else
    '(result, err) <- Analyze sortSlice (analysisInput sessionID startTime endTime) ;;
    match err with
    | Some _ => ret (500, None)
    | None => ret (200, result)
    end.
End AnalysisHandler.

(** ** Analysis engine: [AnalyzeCost] of [AnalysisEngineImpl] *)

Module AnalysisEngineImpl.
Import model.

(** The maps [string -> float64] keep their entries in first-insertion
    order, a nil map and an empty map are both the empty list; the
    timestamps of the trend are instants. *)
Record CostAnalysis := {
  SessionID : string;
  TimeRange : option CostAnalyzerImpl.TimeRange;
  TotalCost : float;
  AvgCost : float;
  MaxCost : float;
  CostByStep : list (string * float);
  CostByModel : list (string * float);
  CostTrend : list CostAnalyzerImpl.CostDataPoint
}.

Record costMetrics := { total : float; average : float; maximum : float }.

(** [var total, max float64] start at zero. *)
Definition calculateCostMetrics (traces : list Trace) : costMetrics :=
  let '(total, max) :=
    fold_left (fun '(total, max) trace =>
                 (PrimFloat.add total (Trace_CostAPI trace),
                  if Go.fgt (Trace_CostAPI trace) max then Trace_CostAPI trace else max))
              traces (0%float, 0%float) in
  {| total := total;
     average := PrimFloat.div total (Go.float64_of_int (Go.len traces));
     maximum := max |}.

Definition estimateStepCost (step : ExecutionStep) : float :=
  PrimFloat.mul (Go.float64_of_int (CostTokens step)) 0.00002%float.

Definition extractModelFromTrace (trace : Trace) : string :=
  if negb (String.eqb (AgentName trace) "") then AgentName trace else "unknown".

(** The loop of [calculateCostByStepType]: a trace whose steps cannot be
    read is skipped. *)
Fixpoint costByStepLoop (traces : list Trace) (costByStep : list (string * float))
  : M (list (string * float)) :=
  match traces with
  | [] => ret costByStep
  | trace :: rest =>
      '(steps, err) <- StepRepository.GetByTraceID (Trace_ID trace) ;;
      match err with
      | Some _ => costByStepLoop rest costByStep
      | None =>
          costByStepLoop rest
            (fold_left (fun m step => CostAnalyzerImpl.map_add String.eqb (StepType step)
                                        (estimateStepCost step) m) steps costByStep)
      end
  end.

Definition calculateCostByStepType (traces : list Trace)
  : M (list (string * float) * Go.error) :=
  costByStep <- costByStepLoop traces [] ;;
  ret (costByStep, None).

Definition calculateCostByModel (traces : list Trace) : list (string * float) :=
  fold_left (fun m trace => CostAnalyzerImpl.map_add String.eqb
                              (extractModelFromTrace trace) (Trace_CostAPI trace) m)
            traces [].

Section WithSort.
(** [sort.Slice(x, less)] of the Go library, on the elements. *)
Variable sortSlice : forall A : Type, (A -> A -> bool) -> list A -> list A.

(** [generateCostTrend] sorts the caller's slice in place: the second
    component is the slice afterwards. *)
Definition generateCostTrend (traces : list Trace)
  : list CostAnalyzerImpl.CostDataPoint * list Trace :=
  let traces := sortSlice (fun a b => Time.Before (StartedAt a) (StartedAt b)) traces in
  (CostAnalyzerImpl.cumulative traces 0%float, traces).

Definition AnalyzeCost (sessionID : string) (timeRange : option CostAnalyzerImpl.TimeRange)
  : M (option CostAnalysis * Go.error) :=
  '(traces, err) <- TraceRepository.GetBySessionID sessionID ;;
  match err with
  | Some e => ret (None, Some (Go.Errorf_w "failed to get traces" e))
  | None =>
      if Go.len traces =? 0 then
        ret (Some {| SessionID := sessionID; TimeRange := timeRange;
                     TotalCost := 0%float; AvgCost := 0%float; MaxCost := 0%float;
                     CostByStep := []; CostByModel := []; CostTrend := [] |}, None)
      else
        let costMetrics := calculateCostMetrics traces in
        '(costByStep, err) <- calculateCostByStepType traces ;;
        match err with
        | Some e => ret (None, Some (Go.Errorf_w "failed to calculate cost by step" e))
        | None =>
            let costByModel := calculateCostByModel traces in
            let '(costTrend, traces) := generateCostTrend traces in
            ret (Some {| SessionID := sessionID; TimeRange := timeRange;
                         TotalCost := total costMetrics; AvgCost := average costMetrics;
                         MaxCost := maximum costMetrics;
                         CostByStep := costByStep; CostByModel := costByModel;
                         CostTrend := costTrend |}, None)
        end
  end.

End WithSort.
End AnalysisEngineImpl.

(** ** Upstream client (internal/infrastructure/client/grpc_llm_client.go) *)

Module client.

Inductive ResponseType :=
| CONTENT_DELTA | TOOL_CALL | USAGE_UPDATE | FINAL_RESPONSE | ERROR | UNSPECIFIED.

Record pbUsage := { PromptTokens : Z; CompletionTokens : Z; TotalTokens : Z }.

Record pbFunction := { Name : string; Arguments : string }.
Record pbToolCall := { Id : string; Tool_Type : string; Function : option pbFunction }.

(** The protobuf message [ExecuteAgentStreamResponse]. *)
Record ExecuteAgentStreamResponse := {
  pb_Type : ResponseType;
  pb_SessionId : string;
  pb_ContentDelta : string;
  pb_ToolCall : option pbToolCall;
  pb_Usage : option pbUsage;
  pb_Cost : float;
  pb_ExecutionTime : float;
  pb_ErrorMessage : string
}.

(** [Usage] is the map with the three token counters, or nil. *)
Record StreamChunk := {
  Chunk_Type : string;
  SessionID : string;
  ContentDelta : string;
  ToolCall : option JSON;
  Usage : option pbUsage;
  Cost : float;
  ExecTime : float;
  Error : string
}.


Definition Usage_JSON (u : option pbUsage) : JSON :=
  match u with
  | Some u => JObj [("completion_tokens", JInt (CompletionTokens u));
                    ("prompt_tokens", JInt (PromptTokens u));
                    ("total_tokens", JInt (TotalTokens u))]
  | None => JNull
  end.

(** What [stream.Recv()] returns: a message, after some time has passed;
    [io.EOF]; or an error (a cancelled context surfaces as a status error
    of code [Canceled]). *)
Inductive Recv :=
| RecvMsg (after : Duration) (m : ExecuteAgentStreamResponse)
| RecvEOF
| RecvErr (after : Duration) (e : Go.error_value).

(** The client and the peer behind it during one call. *)
Record Upstream := {
  closed : bool;                         (* [c.closed.Load()] *)
  conn_nil : bool;                       (* [c.conn == nil] *)
  unary : Duration * (model.LLMResponse + Go.error_value);
  stream_open : Go.error;                (* error of [client.ExecuteAgentStream] *)
  script : list Recv
}.

Definition getConnection (up : Upstream) : Go.error :=
  if closed up then Some (Go.errors_New "gRPC client is closed")
  else if conn_nil up then Some (Go.errors_New "gRPC connection is nil")
  else None.

(** The protobuf request, with the client's defaults. *)
Record ExecuteAgentRequest := {
  R_SessionId : string;
  R_Messages : list (string * string);
  R_Provider : string;
  R_Model : string;
  R_Temperature : float;
  R_MaxTokens : Z
}.

Definition int32 (z : Z) : Z := (z + 2 ^ 31) mod 2 ^ 32 - 2 ^ 31.

Definition toProto (req : model.LLMRequest) : ExecuteAgentRequest :=
  {| R_SessionId := model.Req_SessionID req;
     R_Messages := map (fun m => (model.Role m, model.Content m)) (model.Req_Messages req);
     R_Provider := model.Req_Provider req;
     R_Model := model.Req_Model req;
     R_Temperature := match model.Req_Temperature req with
                      | Some t => t | None => 0.7%float end;
     R_MaxTokens := match model.Req_MaxTokens req with
                    | Some n => int32 n | None => 2000 end |}.

Definition elapse (d : Duration) : M unit :=
  modify (fun w => set_clock (w_clock w + Z.max 0 d) w).

Definition ExecuteAgent (up : Upstream) (req : model.LLMRequest)
  : M (option model.LLMResponse * Go.error) :=
  match getConnection up with
  | Some e => ret (None, Some e)
  | None =>
      elapse (fst (unary up)) ;;;
      match snd (unary up) with
      | inr e => ret (None, Some (Go.Errorf_w "failed to execute agent via gRPC" e))
      | inl response => ret (Some response, None)
      end
  end.

Definition ToolCall_JSON (tc : pbToolCall) : JSON :=
  JObj ([("id", JStr (Id tc)); ("type", JStr (Tool_Type tc))] ++
        match Function tc with
        | Some f => [("function", JObj [("name", JStr (Name f));
                                        ("arguments", JStr (Arguments f))])]
        | None => []
        end).

(** The conversion of a received message to a [StreamChunk]. *)
Definition toChunk (m : ExecuteAgentStreamResponse) : StreamChunk :=
  let chunk ty delta tool usage cost exec err :=
    {| Chunk_Type := ty; SessionID := pb_SessionId m; ContentDelta := delta; ToolCall := tool;
       Usage := usage; Cost := cost; ExecTime := exec; Error := err |} in
  match pb_Type m with
  | CONTENT_DELTA => chunk "content_delta" (pb_ContentDelta m) None None 0%float 0%float ""
  | TOOL_CALL => chunk "tool_call" "" (option_map ToolCall_JSON (pb_ToolCall m)) None
                       0%float 0%float ""
  | USAGE_UPDATE => chunk "usage_update" "" None (pb_Usage m) 0%float 0%float ""
  | FINAL_RESPONSE => chunk "final_response" "" None (pb_Usage m) (pb_Cost m)
                            (pb_ExecutionTime m) ""
  | ERROR => chunk "error" "" None None 0%float 0%float (pb_ErrorMessage m)
  | UNSPECIFIED => chunk "" "" None None 0%float 0%float ""
  end.

Section Stream.
(** [S] is the state the callback closes over. *)
Variable S : Type.
Variable callback : StreamChunk -> S -> M (S * Go.error).

(** The receive loop. A script that is used up is a stream that has
    ended ([io.EOF]). *)
Fixpoint recvLoop (script : list Recv) (s : S) : M (S * Go.error) :=
  match script with
  | [] => ret (s, None)
  | RecvEOF :: _ => ret (s, None)
  | RecvErr after e :: _ =>
      elapse after ;;;
      match Go.status_FromError (Some e) with
      | Some Go.CodeCanceled => ret (s, None)
      | _ => ret (s, Some (Go.Errorf_w "stream error" e))
      end
  | RecvMsg after m :: rest =>
      elapse after ;;;
      let chunk := toChunk m in
      '(s, err) <- callback chunk s ;;
      match err with
      | Some e => ret (s, Some (Go.Errorf_w "callback error" e))
      | None =>
          if String.eqb (Chunk_Type chunk) "error" ||
             String.eqb (Chunk_Type chunk) "final_response"
          then ret (s, None)
          else recvLoop rest s
      end
  end.

Definition ExecuteAgentStream (up : Upstream) (req : model.LLMRequest) (s : S)
  : M (S * Go.error) :=
  match getConnection up with
  | Some e => ret (s, Some e)
  | None =>
      match stream_open up with
      | Some e => ret (s, Some (Go.Errorf_w "failed to start stream" e))
      | None => recvLoop (script up) s
      end
  end.
End Stream.

End client.

(** ** The connection of the gRPC client *)

Module GRPCLLMClient.

(** The client's own state: [conn] ([false]: nil), the atomic flag
    [closed], whether [closeOnce] has run, and the [target]. *)
Record t := {
  conn : bool;
  closed : bool;
  closeOnce_done : bool;
  target : string
}.

(** The client [NewGRPCLLMClient(target)] returns when the dial succeeds. *)
Definition NewGRPCLLMClient (target : string) : t :=
  {| conn := true; closed := false; closeOnce_done := false; target := target |}.

Definition getConnection (c : t) : Go.error :=
  if closed c then Some (Go.errors_New "gRPC client is closed")
  else if negb (conn c) then Some (Go.errors_New "gRPC connection is nil")
  else None.

(** [Close()]; [conn_Close] is what [c.conn.Close()] returns. *)
Definition Close (conn_Close : Go.error) (c : t) : t * Go.error :=
  if closeOnce_done c then (c, None)
  else
    let c' := {| conn := false; closed := true; closeOnce_done := true;
                 target := target c |} in
    if conn c then
      (c', match conn_Close with
           | Some e => Some (Go.Errorf_w ("failed to close gRPC connection to " ++ target c) e)
           | None => None
           end)
    else (c', None).

Definition IsClosed (c : t) : bool := closed c.

Definition GetTarget (c : t) : string := target c.

(** The client in front of a peer, as [ExecuteAgent] and
    [ExecuteAgentStream] meet it. *)
Definition facing (c : t) (peer : client.Upstream) : client.Upstream :=
  {| client.closed := closed c; client.conn_nil := negb (conn c);
     client.unary := client.unary peer; client.stream_open := client.stream_open peer;
     client.script := client.script peer |}.

End GRPCLLMClient.

(** ** Turn orchestrator: the [Chat] and [ChatStream] handlers *)

Module LLMHandler.
Import model.

Record MessageRequest := { MR_Role : string; MR_Content : string }.

Record ChatRequest := {
  CR_Messages : list MessageRequest;
  CR_Provider : string;
  CR_Model : string;
  CR_Temperature : float;
  CR_MaxTokens : Z
}.

(** The request as the handler meets it: the outcome of
    [uuid.Parse(c.Param("id"))] and of [c.ShouldBindJSON(&req)] ([None]: an
    error); after how many writes the connection breaks ([None]: never);
    and, for the [select] of the error branch, which contexts are done when
    it runs and which ready case the runtime picks. *)
Record Request := {
  param_id : option string;
  body : option ChatRequest;
  writes_before_failure : option nat;
  tracker_ctx_done : bool;
  request_ctx_done : bool;
  select_tracker_first : bool
}.

Record ResponseWriter := {
  status : option Z;
  json_body : option JSON;
  headers : list (string * string);
  events : list JSON;              (* the SSE records written, in order *)
  writes_left : option nat
}.

Definition newWriter (r : Request) : ResponseWriter :=
  {| status := None; json_body := None; headers := []; events := [];
     writes_left := writes_before_failure r |}.

(** [c.JSON(code, obj)]. *)
Definition c_JSON (code : Z) (obj : JSON) (rw : ResponseWriter) : ResponseWriter :=
  {| status := Some code; json_body := Some obj; headers := headers rw;
     events := events rw; writes_left := writes_left rw |}.

Definition c_Header (k v : string) (rw : ResponseWriter) : ResponseWriter :=
  {| status := status rw; json_body := json_body rw; headers := headers rw ++ [(k, v)];
     events := events rw; writes_left := writes_left rw |}.

(** [fmt.Fprintf(c.Writer, "data: %s\n\n", jsonData)]. *)
Definition writeEvent (jsonData : JSON) (rw : ResponseWriter) : ResponseWriter * Go.error :=
  match writes_left rw with
  | Some O => (rw, Some (Go.io_Error "write: broken pipe"))
  | Some (S n) =>
      ({| status := status rw; json_body := json_body rw; headers := headers rw;
          events := events rw ++ [jsonData]; writes_left := Some n |}, None)
  | None =>
      ({| status := status rw; json_body := json_body rw; headers := headers rw;
          events := events rw ++ [jsonData]; writes_left := None |}, None)
  end.

Definition gin_H_error (code : string) : JSON := JObj [("error", JStr code)].
Definition gin_H_error_message (code message : string) : JSON :=
  JObj [("error", JStr code); ("message", JStr message)].

(** The value of the ["type"] field of an SSE record. *)
Definition event_type (j : JSON) : option string :=
  match j with
  | JObj fields =>
      match find (fun kv => String.eqb (fst kv) "type") fields with
      | Some (_, JStr s) => Some s
      | _ => None
      end
  | _ => None
  end.

Definition nil_dereference : string :=
  "runtime error: invalid memory address or nil pointer dereference".

Definition Message_Marshal (m : Message) : JSON :=
  JObj [("id", JStr (Message_ID m)); ("session_id", JStr (Message_SessionID m));
        ("role", JStr (Role m)); ("content", JStr (Content m));
        ("tokens", JInt (Tokens m)); ("created_at", JInt (Message_CreatedAt m))].

(** [json.Marshal] of a [*LLMConfig]; a nil pointer is [null]. *)
Definition LLMConfig_Marshal (k : option LLMConfig) : JSON :=
  match k with
  | None => JNull
  | Some k =>
      JObj ([("provider", JStr (Provider k))] ++
            (if String.eqb (APIKey k) "" then [] else [("api_key", JStr (APIKey k))]) ++
            [("model", JStr (Model k))] ++
            (if String.eqb (BaseURL k) "" then [] else [("base_url", JStr (BaseURL k))]) ++
            [("temperature", JFloat (Temperature k)); ("max_tokens", JInt (MaxTokens k))])
  end.

(** The loop converting the request's messages. *)
Fixpoint convertMessages (sessionID : string) (msgs : list MessageRequest)
  : M (list Message) :=
  match msgs with
  | [] => ret []
  | msg :: rest =>
      id <- uuid_New ;;
      tl <- convertMessages sessionID rest ;;
      ret ({| Message_ID := id; Message_SessionID := sessionID; Role := MR_Role msg;
              Content := MR_Content msg; Tokens := 0; Message_CreatedAt := 0 |} :: tl)
  end.

(** "Build LLM config from request": a nil pointer unless the request
    names a provider or a model; then validated. *)
Definition buildConfig (req : ChatRequest) : option LLMConfig * Go.error :=
  if negb (String.eqb (CR_Provider req) "") || negb (String.eqb (CR_Model req) "") then
    let llmConfig := {| Provider := CR_Provider req; APIKey := ""; Model := CR_Model req;
                        BaseURL := ""; Temperature := CR_Temperature req;
                        MaxTokens := CR_MaxTokens req |} in
    (Some llmConfig, LLMService.ValidateConfig llmConfig)
  else (None, None).

(** "Hook 2": the pre_llm snapshot. [llmConfig.Model] and
    [llmConfig.Provider] are read through the pointer. The snapshot is
    left out when its state cannot be written as JSON; an input or a
    context that cannot be written is replaced by "{}". *)
Definition recordPreSnapshot (trace : option Trace) (llmConfig : option LLMConfig)
           (sessionID : string) (messages : list Message) : M unit :=
  match trace with
  | None => ret tt
  | Some trace =>
      match llmConfig with
      | None => panic nil_dereference
      | Some k =>
          let stateJSON := JObj [("messages_count", JInt (Go.len messages));
                                 ("model", JStr (Model k));
                                 ("provider", JStr (Provider k))] in
          match json_Marshal stateJSON with
          | Some _ => ret tt
          | None =>
              let inputJSON := json_or_braces (JArr (map Message_Marshal messages)) in
              let contextJSON :=
                json_or_braces (JObj [("llm_config", LLMConfig_Marshal llmConfig);
                                      ("session_id", JStr sessionID)]) in
              Tracer.RecordSnapshot (Trace_ID trace)
                (Some {| Stage := "pre_llm"; Timestamp := 0; Snap_Input := inputJSON;
                         Snap_Output := JNull; State := stateJSON;
                         Context := contextJSON |}) ;;;
              ret tt
          end
      end
  end.

(** "Hook 5": the post_llm snapshot and the closing of the trace.
    [outputJSON] is the output as the caller wrote it (or "{}"). The
    snapshot is left out when its state -- which holds the cost -- cannot
    be written as JSON; the trace is closed in either case. *)
Definition recordPostSnapshot (trace : Trace) (llmConfig : option LLMConfig)
           (sessionID : string) (messages : list Message) (outputJSON : JSON)
           (totalTokens : Z) (cost : float) (latencyMs : Z) : M unit :=
  match llmConfig with
  | None => panic nil_dereference
  | Some k =>
      let inputJSON := json_or_braces (JArr (map Message_Marshal messages)) in
      let stateJSON := JObj [("cost", JFloat cost);
                             ("messages_count", JInt (Go.add (Go.len messages) 1));
                             ("model", JStr (Model k));
                             ("provider", JStr (Provider k));
                             ("total_tokens", JInt totalTokens)] in
      match json_Marshal stateJSON with
      | Some _ => ret tt
      | None =>
          let contextJSON :=
            json_or_braces (JObj [("latency_ms", JInt latencyMs);
                                  ("llm_config", LLMConfig_Marshal llmConfig);
                                  ("session_id", JStr sessionID)]) in
          Tracer.RecordSnapshot (Trace_ID trace)
            (Some {| Stage := "post_llm"; Timestamp := 0; Snap_Input := inputJSON;
                     Snap_Output := outputJSON; State := stateJSON;
                     Context := contextJSON |}) ;;;
          ret tt
      end ;;;
      Tracer.EndTrace (Trace_ID trace) TraceStatusCompleted ;;;
      ret tt
  end.

Definition Usage_total (u : option Z) : Z := match u with Some n => n | None => 0 end.

Definition LLMResponse_Marshal (r : LLMResponse) : JSON :=
  JObj [("session_id", JStr (Resp_SessionID r)); ("message", Message_Marshal (Resp_Message r));
        ("usage", match Usage r with Some n => JObj [("total_tokens", JInt n)]
                                | None => JNull end);
        ("cost", JFloat (Cost r)); ("execution_time", JFloat (ExecutionTime r))].

Fixpoint saveUserMessages (messages : list Message) : M unit :=
  match messages with
  | [] => ret tt
  | m :: rest =>
      now <- time_Now ;;
      MessageService.SaveMessage
        {| Message_ID := Message_ID m; Message_SessionID := Message_SessionID m;
           Role := Role m; Content := Content m; Tokens := Tokens m;
           Message_CreatedAt := now |} ;;;
      saveUserMessages rest
  end.

(** The variables the streaming callback closes over, the response
    writer and the supervisor of the turn. *)
Record Locals := {
  totalCost : float;
  totalTokens : Z;
  fullContent : string;
  rw : ResponseWriter;
  activityTracker : ActivityTracker.t
}.

Definition set_rw (w : ResponseWriter) (s : Locals) : Locals :=
  {| totalCost := totalCost s; totalTokens := totalTokens s;
     fullContent := fullContent s; rw := w; activityTracker := activityTracker s |}.
Definition set_tracker (a : ActivityTracker.t) (s : Locals) : Locals :=
  {| totalCost := totalCost s; totalTokens := totalTokens s;
     fullContent := fullContent s; rw := rw s; activityTracker := a |}.
Definition set_totals (cost : float) (tokens : Z) (s : Locals) : Locals :=
  {| totalCost := cost; totalTokens := tokens;
     fullContent := fullContent s; rw := rw s; activityTracker := activityTracker s |}.
Definition set_fullContent (c : string) (s : Locals) : Locals :=
  {| totalCost := totalCost s; totalTokens := totalTokens s;
     fullContent := c; rw := rw s; activityTracker := activityTracker s |}.

Definition decimal (z : Z) : string := NilEmpty.string_of_int (Z.to_int z).

(** The callback handed to [ExecuteChatStream]. It returns the error
    of [json.Marshal(eventData)] without writing anything when the record
    cannot be written as JSON (a cost or an execution time that is NaN or
    infinite). *)
Definition callback (trace : option Trace) (messages : list Message)
           (chunk : client.StreamChunk) (s : Locals) : M (Locals * Go.error) :=
  at_ <- ActivityTracker.UpdateActivity (activityTracker s) ;;
  let s := set_tracker at_ s in
  let ty := client.Chunk_Type chunk in
  '(s, eventData) <-
    (if String.eqb ty "content_delta" then
       ret (set_fullContent (fullContent s ++ client.ContentDelta chunk) s,
            JObj [("content", JStr (client.ContentDelta chunk));
                  ("type", JStr "content_delta")])
     else if String.eqb ty "tool_call" then
       ret (s, JObj [("tool_call", match client.ToolCall chunk with
                                   | Some j => j | None => JNull end);
                     ("type", JStr "tool_call")])
     else if String.eqb ty "usage_update" then
       ret (match client.Usage chunk with
            | Some u => set_totals (totalCost s) (client.TotalTokens u) s
            | None => s
            end,
            JObj [("type", JStr "usage_update");
                  ("usage", client.Usage_JSON (client.Usage chunk))])
     else if String.eqb ty "final_response" then
       let s := set_totals (client.Cost chunk)
                           (match client.Usage chunk with
                            | Some u => client.TotalTokens u
                            | None => totalTokens s
                            end) s in
       match trace with
       | Some trace =>
           id <- uuid_New ;;
           Tracer.RecordStep
             {| Step_ID := id; TraceID := Trace_ID trace; Sequence := 1;
                StepType := "llm_call_stream";
                Input := json_or_braces (JArr (map Message_Marshal messages));
                Output :=
                  json_or_braces
                    (JObj [("cost", JFloat (client.Cost chunk));
                           ("execution_time", JFloat (client.ExecTime chunk));
                           ("message", JObj [("content", JStr (fullContent s));
                                             ("role", JStr "assistant")]);
                           ("usage", client.Usage_JSON (client.Usage chunk))]);
                CostTokens := totalTokens s; CostAPI := totalCost s;
                LatencyMs := Go.int_of_float64
                               (PrimFloat.mul (client.ExecTime chunk) 1000%float);
                Snapshot_JSON := JNull; CreatedAt := 0; UpdatedAt := 0 |} ;;;
           ret tt
       | None => ret tt
       end ;;;
       ret (s, JObj [("cost", JFloat (client.Cost chunk));
                     ("execution_time", JFloat (client.ExecTime chunk));
                     ("type", JStr "final_response");
                     ("usage", client.Usage_JSON (client.Usage chunk))])
     else if String.eqb ty "error" then
       ret (s, JObj [("error", JStr (client.Error chunk)); ("type", JStr "error")])
     else ret (s, JNull)) ;;
  match json_Marshal eventData with
  | Some e => ret (s, Some e)
  | None =>
      let '(w, err) := writeEvent eventData (rw s) in
      ret (set_rw w s, err)
  end.

(** The message of the error branch of [ChatStream]. The seconds and
    minutes printed are the whole seconds and minutes of the duration. *)
Definition errorMessageOf (r : Request) (at_ : ActivityTracker.t) (e : Go.error_value)
  : M string :=
  if Go.is_context_Canceled e then
    let tracker_case :=
      timeout <- ActivityTracker.shouldTimeout at_ ;;
      if timeout then
        now1 <- time_Now ;;
        now2 <- time_Now ;;
        let timeSinceLastActivity := Time.Sub now1 (ActivityTracker.lastActivity at_) in
        let totalTime := Time.Sub now2 (ActivityTracker.totalStart at_) in
        if timeSinceLastActivity >?
           ActivityTracker.ActivityTimeout (ActivityTracker.config at_) then
          ret ("流式响应活动超时：" ++ decimal (Z.quot timeSinceLastActivity Time.Second)
               ++ " 秒无数据传输")%string
        else if totalTime >?
                ActivityTracker.MaxTotalTimeout (ActivityTracker.config at_) then
          ret ("流式响应总时长超时：已运行 " ++ decimal (Z.quot totalTime Time.Minute)
               ++ " 分钟")%string
        else ret "流式响应超时"
      else ret "客户端断开连接" in
    match tracker_ctx_done r, request_ctx_done r with
    | true, true => if select_tracker_first r then tracker_case
                    else ret "客户端断开连接"
    | true, false => tracker_case
    | false, true => ret "客户端断开连接"
    | false, false => ret (Go.Error e)
    end
  else ret (Go.Error e).

Section Handlers.
Variable cfg : LLMService.Config.
Variable up : client.Upstream.

(** [Chat]: the unary turn. *)
Definition Chat (r : Request) : M ResponseWriter :=
  let rw := newWriter r in
  match param_id r with
  | None => ret (c_JSON 400 (gin_H_error "INVALID_SESSION_ID") rw)
  | Some sessionID =>
  activityTracker <-
    ActivityTracker.NewActivityTracker ActivityTracker.getDefaultStreamTimeoutConfig ;;
  '(trace, err) <- Tracer.StartTrace sessionID "simple_chat" ;;
  let trace := match err with Some _ => None | None => trace end in
  '(_, err) <- SessionService.Get sessionID ;;
  match err with
  | Some _ => ret (c_JSON 404 (gin_H_error "SESSION_NOT_FOUND") rw)
  | None =>
  match body r with
  | None => ret (c_JSON 400 (gin_H_error "INVALID_INPUT") rw)
  | Some req =>
  messages <- convertMessages sessionID (CR_Messages req) ;;
  let '(llmConfig, err) := buildConfig req in
  match err with
  | Some e => ret (c_JSON 400 (gin_H_error_message "INVALID_CONFIG" (Go.Error e)) rw)
  | None =>
  recordPreSnapshot trace llmConfig sessionID messages ;;;
  startTime <- time_Now ;;
  '(response, err) <-
    client.ExecuteAgent up (LLMService.buildRequest cfg sessionID messages llmConfig) ;;
  endTime <- time_Now ;;
  let latency := Time.Sub endTime startTime in
  match err, response with
  | Some e, _ =>
      match trace with
      | Some trace => Tracer.EndTrace (Trace_ID trace) TraceStatusFailed ;;; ret tt
      | None => ret tt
      end ;;;
      ret (c_JSON 500 (gin_H_error_message "CHAT_EXECUTION_FAILED" (Go.Error e)) rw)
  | None, None => panic nil_dereference
  | None, Some response =>
      match trace with
      | Some trace =>
          id <- uuid_New ;;
          Tracer.RecordStep
            {| Step_ID := id; TraceID := Trace_ID trace; Sequence := 1;
               StepType := "llm_call";
               Input := json_or_braces (JArr (map Message_Marshal messages));
               Output := json_or_braces (LLMResponse_Marshal response);
               CostTokens := Usage_total (Usage response); CostAPI := Cost response;
               LatencyMs := latency / 1000000; Snapshot_JSON := JNull;
               CreatedAt := 0; UpdatedAt := 0 |} ;;;
          recordPostSnapshot trace llmConfig sessionID messages
            (json_or_braces (LLMResponse_Marshal response))
            (Usage_total (Usage response)) (Cost response) (latency / 1000000)
      | None => ret tt
      end ;;;
      saveUserMessages messages ;;;
      id <- uuid_New ;;
      now <- time_Now ;;
      MessageService.SaveMessage
        {| Message_ID := id; Message_SessionID := sessionID;
           Role := Role (Resp_Message response);
           Content := Content (Resp_Message response);
           Tokens := Usage_total (Usage response); Message_CreatedAt := now |} ;;;
      SessionService.UpdateBudget sessionID (Usage_total (Usage response))
                                  (Cost response) ;;;
      ret (c_JSON 200
             (JObj ([("message", JObj [("role", JStr (Role (Resp_Message response)));
                                       ("content", JStr (Content (Resp_Message response)))]);
                     ("usage", match Usage response with
                               | Some n => JObj [("total_tokens", JInt n)]
                               | None => JNull end);
                     ("cost", JFloat (Cost response));
                     ("execution_time", JFloat (ExecutionTime response))] ++
                    match trace with
                    | Some trace => [("trace_id", JStr (Trace_ID trace))]
                    | None => []
                    end)) rw)
  end end end end end.

(** [ChatStream]: the streaming turn. The monitor goroutine and the
    goroutine watching the request context act on the turn only by
    cancelling the context of the upstream call; what that does to the
    stream is part of the upstream's script (a [RecvErr] of code
    [Canceled]), and what the error branch then observes of the two
    contexts is part of the request. *)
Definition ChatStream (r : Request) : M ResponseWriter :=
  let rw0 := newWriter r in
  match param_id r with
  | None => ret (c_JSON 400 (gin_H_error "INVALID_SESSION_ID") rw0)
  | Some sessionID =>
  '(trace, err) <- Tracer.StartTrace sessionID "stream_chat" ;;
  let trace := match err with Some _ => None | None => trace end in
  '(_, err) <- SessionService.Get sessionID ;;
  match err with
  | Some _ => ret (c_JSON 404 (gin_H_error "SESSION_NOT_FOUND") rw0)
  | None =>
  match body r with
  | None => ret (c_JSON 400 (gin_H_error "INVALID_INPUT") rw0)
  | Some req =>
  messages <- convertMessages sessionID (CR_Messages req) ;;
  let '(llmConfig, err) := buildConfig req in
  match err with
  | Some e => ret (c_JSON 400 (gin_H_error_message "INVALID_CONFIG" (Go.Error e)) rw0)
  | None =>
  recordPreSnapshot trace llmConfig sessionID messages ;;;
  let rw0 := c_Header "Access-Control-Allow-Headers" "Cache-Control"
               (c_Header "Access-Control-Allow-Origin" "*"
                  (c_Header "Connection" "keep-alive"
                     (c_Header "Cache-Control" "no-cache"
                        (c_Header "Content-Type" "text/event-stream" rw0)))) in
  tracker <-
    ActivityTracker.NewActivityTracker ActivityTracker.getDefaultStreamTimeoutConfig ;;
  let locals := {| totalCost := 0%float; totalTokens := 0; fullContent := "";
                   rw := rw0; activityTracker := tracker |} in
  startTime <- time_Now ;;
  '(locals, err) <-
    client.ExecuteAgentStream (callback trace messages) up
      (LLMService.buildRequest cfg sessionID messages llmConfig) locals ;;
  endTime <- time_Now ;;
  let latency := Time.Sub endTime startTime in
  match err with
  | Some e =>
      errorMessage <- errorMessageOf r (activityTracker locals) e ;;
      let errorData := JObj [("error", JStr errorMessage); ("type", JStr "error")] in
      ret (fst (writeEvent errorData (rw locals)))
  | None =>
      id <- uuid_New ;;
      now <- time_Now ;;
      MessageService.SaveMessage
        {| Message_ID := id; Message_SessionID := sessionID; Role := "assistant";
           Content := fullContent locals; Tokens := totalTokens locals;
           Message_CreatedAt := now |} ;;;
      SessionService.UpdateBudget sessionID (totalTokens locals) (totalCost locals) ;;;
      match trace with
      | Some trace =>
          recordPostSnapshot trace llmConfig sessionID messages
            (json_or_braces (JStr (fullContent locals)))
            (totalTokens locals) (totalCost locals) (latency / 1000000)
      | None => ret tt
      end ;;;
      ret (fst (writeEvent (JObj [("type", JStr "done")]) (rw locals)))
  end end end end end.

End Handlers.
End LLMHandler.

(** ** Session handler (internal/interface/handler/session_handler.go) *)

Module SessionHandler.
Import model.

Record BudgetResponse := {
  B_TotalTokens : Z;
  B_UsedTokens : Z;
  B_TotalCost : float;
  B_UsedCost : float
}.

(** [CreatedAt] and [UpdatedAt] are kept as instants instead of their RFC
    3339 text. *)
Record SessionResponse := {
  R_ID : string;
  R_UserID : string;
  R_Status : string;
  R_Budget : BudgetResponse;
  R_CreatedAt : Time;
  R_UpdatedAt : Time
}.

(** What [c.JSON] is given: a [gin.H] with an error code, with an error
    code and a message, with a message; a session; a list of sessions. *)
Inductive Body :=
| H_error (code : string)
| H_error_message (code message : string)
| H_message (message : string)
| OneSession (s : SessionResponse)
| Sessions (l : list SessionResponse).

(** The request: the outcome of [uuid.Parse(c.Param("id"))] ([None]: an
    error), the [user_id] of the body when the body decodes, and the text
    of the error of [ShouldBindJSON] when it fails. *)
Record Request := {
  param_id : option string;
  user_id : option string;
  bind_error : string
}.

(** [c.ShouldBindJSON(&req)] for [CreateSessionRequest]: [UserID] is
    [binding:"required"], an empty one is refused. *)
Definition ShouldBindJSON (r : Request) : option string :=
  match user_id r with
  | Some u => if String.eqb u "" then None else Some u
  | None => None
  end.

Definition toSessionResponse (s : Session) : SessionResponse :=
  {| R_ID := Session_ID s; R_UserID := UserID s; R_Status := Session_Status s;
     R_Budget := {| B_TotalTokens := TotalTokens (Session_Budget s);
                    B_UsedTokens := UsedTokens (Session_Budget s);
                    B_TotalCost := TotalCost (Session_Budget s);
                    B_UsedCost := UsedCost (Session_Budget s) |};
     R_CreatedAt := Session_CreatedAt s; R_UpdatedAt := Session_UpdatedAt s |}.

Definition toSessionResponses (sessions : list Session) : list SessionResponse :=
  if Go.len sessions =? 0 then [] else map toSessionResponse sessions.

Section Handlers.
Variable budget : SessionService.BudgetConfig.

Definition Create (r : Request) : M (Z * Body) :=
  match ShouldBindJSON r with
  | None => ret (400, H_error_message "INVALID_INPUT" (bind_error r))
  | Some userID =>
      '(session, err) <- SessionService.Create budget userID ;;
      match err, session with
      | Some e, _ => ret (500, H_error_message "CREATE_SESSION_FAILED" (Go.Error e))
      | None, None => panic LLMHandler.nil_dereference
      | None, Some session => ret (201, OneSession (toSessionResponse session))
      end
  end.

Definition Get (r : Request) : M (Z * Body) :=
  match param_id r with
  | None => ret (400, H_error "INVALID_SESSION_ID")
  | Some id =>
      '(session, err) <- SessionService.Get id ;;
      match err, session with
      | Some _, _ => ret (404, H_error "SESSION_NOT_FOUND")
      | None, None => panic LLMHandler.nil_dereference
      | None, Some session => ret (200, OneSession (toSessionResponse session))
      end
  end.

Definition Delete (r : Request) : M (Z * Body) :=
  match param_id r with
  | None => ret (400, H_error "INVALID_SESSION_ID")
  | Some id =>
      err <- SessionService.Delete id ;;
      match err with
      | Some e => ret (500, H_error_message "DELETE_SESSION_FAILED" (Go.Error e))
      | None => ret (200, H_message "Session deleted")
      end
  end.

Definition GetList : M (Z * Body) :=
  '(sessions, err) <- SessionService.GetSessions ;;
  match err with
  | Some e => ret (500, H_error_message "GET_SESSIONS_FAILED" (Go.Error e))
  | None => ret (200, Sessions (toSessionResponses sessions))
  end.

End Handlers.
End SessionHandler.

(** ** Trace handler *)

Module TraceHandler.
Import model.

(** The times are kept as instants instead of their RFC 3339 text;
    [EndedAt] is [None] where the response has the empty string. *)
Record TraceResponse := {
  R_ID : string;
  R_SessionID : string;
  R_AgentName : string;
  R_Status : string;
  R_StartedAt : Time;
  R_EndedAt : option Time;
  R_CostTokens : Z;
  R_CostAPI : float;
  R_Metadata : option (list (string * JSON));
  R_CreatedAt : Time
}.

Record TraceDetailResponse := {
  D_Trace : TraceResponse;
  D_Steps : list ExecutionStep
}.

Record CostSummary := { Tokens : Z; APICost : float }.

Record TraceListResponse := {
  L_Traces : list TraceResponse;
  L_Total : Z;
  L_TotalTokens : Z;
  L_TotalCost : CostSummary
}.

(** [string(trace.Status)]. *)
Definition status_string (s : TraceStatus) : string :=
  match s with
  | TraceStatusRunning => "running"
  | TraceStatusCompleted => "completed"
  | TraceStatusFailed => "failed"
  | TraceStatusError => "error"
  end.

(** [json.Unmarshal(trace.Metadata, &metadataMap)]: an object fills the
    map, [null] leaves it nil, any other document is an error and the
    handler takes an empty map. *)
Definition metadataMap (j : JSON) : option (list (string * JSON)) :=
  match j with
  | JObj fields => Some fields
  | JNull => None
  | _ => Some []
  end.

Definition toTraceResponse (trace : Trace) : TraceResponse :=
  {| R_ID := Trace_ID trace; R_SessionID := Trace_SessionID trace;
     R_AgentName := AgentName trace; R_Status := status_string (Status trace);
     R_StartedAt := StartedAt trace; R_EndedAt := EndedAt trace;
     R_CostTokens := Trace_CostTokens trace; R_CostAPI := Trace_CostAPI trace;
     R_Metadata := metadataMap (Metadata trace);
     R_CreatedAt := Trace_CreatedAt trace |}.

(** [Get]: GET /trace/:id. The answer is an error code or the detail. *)
Definition Get (traceID : string) : M (Z * (string + TraceDetailResponse)) :=
  '(trace, err) <- TraceRepository.GetByID traceID ;;
  match err, trace with
  | Some _, _ => ret (404, inl "TRACE_NOT_FOUND")
  | None, None => panic LLMHandler.nil_dereference
  | None, Some trace =>
      '(steps, err) <- StepRepository.GetByTraceID traceID ;;
      match err with
      | Some _ => ret (500, inl "FAILED_TO_GET_STEPS")
      | None => ret (200, inr {| D_Trace := toTraceResponse trace; D_Steps := steps |})
      end
  end.

(** [GetSessionTraces]: GET /sessions/:id/traces. *)
Definition GetSessionTraces (sessionID : string) : M (Z * (string + TraceListResponse)) :=
  if String.eqb sessionID "" then ret (400, inl "SESSION_ID_REQUIRED") else
  '(traces, err) <- TraceRepository.GetBySessionID sessionID ;;
  match err with
  | Some _ => ret (500, inl "FAILED_TO_LIST_TRACES")
  | None =>
      let '(totalTokens, totalCost) :=
        fold_left (fun '(totalTokens, totalCost) trace =>
                     (Go.add totalTokens (Trace_CostTokens trace),
                      PrimFloat.add totalCost (Trace_CostAPI trace)))
                  traces (0, 0%float) in
      ret (200, inr {| L_Traces := map toTraceResponse traces;
                       L_Total := Go.len traces;
                       L_TotalTokens := 0;
                       L_TotalCost := {| Tokens := totalTokens; APICost := totalCost |} |})
  end.

End TraceHandler.

(** ** Replay engine *)

Module ReplayEngineImpl.
Import model.

Record ReplayResult := {
  OriginalTraceID : string;
  ReplayTraceID : string;
  Replay_Status : string
}.

Definition slice_bounds_out_of_range : string :=
  "runtime error: slice bounds out of range".

Definition replayLLMCall (step : ExecutionStep) : Go.error := None.

Definition replayToolCall (step : ExecutionStep) : Go.error := None.

Definition replayStep (originalStep : ExecutionStep) : Go.error :=
  if String.eqb (StepType originalStep) "llm_call" then replayLLMCall originalStep
  else if String.eqb (StepType originalStep) "tool_call" then replayToolCall originalStep
  else None.

(** The loop over [remainingSteps]. *)
Fixpoint replayRemaining (remainingSteps : list ExecutionStep) : Go.error :=
  match remainingSteps with
  | [] => None
  | step :: rest =>
      match replayStep step with
      | Some e => Some (Go.Errorf_w "replay step failed" e)
      | None => replayRemaining rest
      end
  end.

Section Replay.
(** [json.Unmarshal] of a stored snapshot into a [model.Snapshot], and of
    the state of a snapshot into a map: the library's decoder, [inr] and
    [Some] being its error. *)
Variable Unmarshal_Snapshot : JSON -> Snapshot + Go.error_value.
Variable Unmarshal_State : JSON -> Go.error.

(** The loop looking for the snapshot: the first step of type "snapshot"
    whose sequence number is [snapshotIndex]. *)
Fixpoint findSnapshot (steps : list ExecutionStep) (snapshotIndex : Z)
  : option Snapshot * Go.error :=
  match steps with
  | [] => (None, None)
  | step :: rest =>
      if String.eqb (StepType step) "snapshot" && (Sequence step =? snapshotIndex) then
        match Unmarshal_Snapshot (Snapshot_JSON step) with
        | inr e => (None, Some (Go.Errorf_w "failed to unmarshal snapshot" e))
        | inl snapshot => (Some snapshot, None)
        end
      else findSnapshot rest snapshotIndex
  end.

Definition ReplayFromSnapshot (traceID : string) (snapshotIndex : Z)
  : M (option ReplayResult * Go.error) :=
  '(originalTrace, steps, err) <- Tracer.GetTrace traceID ;;
  match err, originalTrace with
  | Some e, _ => ret (None, Some (Go.Errorf_w "failed to load trace" e))
  | None, None => panic LLMHandler.nil_dereference
  | None, Some originalTrace =>
      match findSnapshot steps snapshotIndex with
      | (_, Some e) => ret (None, Some e)
      | (None, None) =>
          ret (None, Some (Go.errors_New ("snapshot " ++ LLMHandler.decimal snapshotIndex
                                          ++ " not found")%string))
      | (Some targetSnapshot, None) =>
          '(newTrace, err) <- Tracer.StartTrace (Trace_SessionID originalTrace)
                                (AgentName originalTrace ++ "_replay")%string ;;
          match err, newTrace with
          | Some e, _ => ret (None, Some e)
          | None, None => panic LLMHandler.nil_dereference
          | None, Some newTrace =>
              match Unmarshal_State (State targetSnapshot) with
              | Some e =>
                  ret (None, Some (Go.Errorf_w "failed to unmarshal snapshot state" e))
              | None =>
                  (* steps[snapshotIndex+1:] *)
                  let low := Go.add snapshotIndex 1 in
                  if (low <? 0) || (low >? Go.len steps)
                  then panic slice_bounds_out_of_range
                  else
                    match replayRemaining (skipn (Z.to_nat low) steps) with
                    | Some e => ret (None, Some e)
                    | None =>
                        Tracer.EndTrace (Trace_ID newTrace) TraceStatusCompleted ;;;
                        ret (Some {| OriginalTraceID := traceID;
                                     ReplayTraceID := Trace_ID newTrace;
                                     Replay_Status := "success" |}, None)
                    end
              end
          end
      end
  end.

End Replay.
End ReplayEngineImpl.

(** ** What is stated about the pipeline *)

Module Spec.
Import model.

(** The sequence numbers stored for a trace, in insertion order. *)
Definition sequences_of (traceID : string) (w : World) : list Z :=
  map Sequence (filter (fun s => String.eqb (TraceID s) traceID) (w_steps w)).

(** "The set of sequence numbers is exactly {1, ..., n}". *)
Definition dense_from_one (seqs : list Z) : Prop :=
  Permutation seqs (map Z.of_nat (seq 1 (List.length seqs))).

(** "Idempotent terminal transition": after a first [EndTrace] with a
    terminal status, a second one with the same status leaves the stored
    traces as they are, and one with another terminal status fails and
    leaves them as they are. *)
Definition terminal_transition_idempotent : Prop :=
  forall (w : World) (traceID : string) (s1 s2 : TraceStatus) (t1 t2 : Time),
    terminal s1 = true -> terminal s2 = true -> t1 <= t2 -> w_faults w = [] ->
    (exists t, In t (w_traces w) /\ Trace_ID t = traceID /\ Status t = TraceStatusRunning) ->
    let w1 := snd (Tracer.EndTrace traceID s1 (set_clock t1 w)) in
    let r2 := Tracer.EndTrace traceID s2 (set_clock t2 w1) in
    (s1 = s2 -> w_traces (snd r2) = w_traces w1) /\
    (s1 <> s2 -> (exists e, fst r2 = Returned (Some e)) /\ w_traces (snd r2) = w_traces w1).

(** "No successful turn drives the used counters past the quota": a
    unary turn answered with status 200 keeps every session within its
    budget. *)
Definition turn_keeps_budget : Prop :=
  forall cfg up r w rw w',
    (forall s, In s (w_sessions w) -> SessionService.within_budget s) ->
    LLMHandler.Chat cfg up r w = (Returned rw, w') ->
    LLMHandler.status rw = Some 200 ->
    forall s, In s (w_sessions w') -> SessionService.within_budget s.

(** "Every model name matching claude-3-* maps to anthropic". *)
Definition claude_prefix_maps_to_anthropic : Prop :=
  forall modelName : string,
    String.prefix "claude-3-" modelName = true ->
    LLMService.inferProviderFromModel modelName = LLMProviderAnthropic.

(** The inference table with the Anthropic row spelled out name by name;
    a name that is in no row is an OpenAI model. *)
Definition provider_table : list (list string * LLMProvider) :=
  [ (["deepseek-chat"; "deepseek-reasoner"], LLMProviderDeepSeek);
    (["claude-3-opus-20240229"; "claude-3-sonnet-20240229";
      "claude-3-haiku-20240307"; "claude-3-5-sonnet-20241022"], LLMProviderAnthropic);
    (["qwen-turbo"; "qwen-plus"; "qwen-max"; "qwen-max-longcontext"], LLMProviderQwen);
    (["ernie-bot"; "ernie-bot-turbo"; "ernie-bot-4"; "ernie-speed"], LLMProviderErnie);
    (["glm-4"; "glm-4v"; "glm-3-turbo"], LLMProviderChatGLM) ].

Fixpoint table_lookup (rows : list (list string * LLMProvider)) (modelName : string)
  : LLMProvider :=
  match rows with
  | [] => LLMProviderOpenAI
  | (names, provider) :: rest =>
      if existsb (String.eqb modelName) names then provider
      else table_lookup rest modelName
  end.

(** Sum of a list of [float64] taken from left to right, starting at 0. *)
Fixpoint sum_from (acc : float) (values : list float) : float :=
  match values with
  | [] => acc
  | v :: rest => sum_from (PrimFloat.add acc v) rest
  end.
Definition float_sum (values : list float) : float := sum_from 0%float values.

(** Sum of a list of integers. *)
Definition int_sum (values : list Z) : Z := fold_right Z.add 0 values.

(** [less] is an ordering as [sort.Slice] needs it on the elements of
    [l]: irreflexive, transitive, and with a transitive "neither is less". *)
Definition ordering_on {A : Type} (less : A -> A -> bool) (l : list A) : Prop :=
  (forall a, In a l -> less a a = false) /\
  (forall a b c, In a l -> In b l -> In c l ->
                 less a b = true -> less b c = true -> less a c = true) /\
  (forall a b c, In a l -> In b l -> In c l ->
                 less a b = false -> less b c = false -> less a c = false).

(** The contract of [sort.Slice]: the slice is permuted, and sorted when
    [less] is an ordering on its elements. *)
Definition sorts_slices
           (sortSlice : forall A : Type, (A -> A -> bool) -> list A -> list A) : Prop :=
  forall (A : Type) (less : A -> A -> bool) (l : list A),
    Permutation l (sortSlice A less l) /\
    (ordering_on less l ->
     StronglySorted (fun a b => less b a = false) (sortSlice A less l)).

(** An SSE stream, as the client sees it. *)
Definition has_event (ty : string) (events : list JSON) : Prop :=
  exists ev, In ev events /\ LLMHandler.event_type ev = Some ty.

(** The status stored for a trace. *)
Definition trace_status (traceID : string) (w : World) : option TraceStatus :=
  option_map Status (find (TraceRepository.has_id traceID) (w_traces w)).

(** "An abnormal end of the upstream is reported and the trace fails":
    an [error] event, no [done] event, the trace closed as [failed]. *)
Definition abnormal_end_reported (traceID : string) (events : list JSON) (w : World)
  : Prop :=
  has_event "error" events /\ ~ has_event "done" events /\
  trace_status traceID w = Some TraceStatusFailed.

End Spec.

(** ** Concrete turns *)

Module Scenario.
Import model.

Definition cfg : LLMService.Config :=
  {| LLMService.DefaultProvider := "deepseek";
     LLMService.DefaultModel := "deepseek-chat";
     LLMService.env_credentials := fun _ => ("", "") |}.

(** A session with a quota of 5 tokens and no cost quota. *)
Definition session : Session :=
  {| Session_ID := "sid"; UserID := "u1"; Session_Status := "active";
     Session_Budget := {| TotalTokens := 5; UsedTokens := 0;
                          TotalCost := 0%float; UsedCost := 0%float |};
     Session_CreatedAt := 0; Session_UpdatedAt := 0 |}.

Definition world : World :=
  {| w_traces := []; w_steps := []; w_sessions := [session]; w_messages := [];
     w_clock := 1000; w_uuid := 0; w_faults := []; w_calls := [] |}.

Definition hi : LLMHandler.MessageRequest :=
  {| LLMHandler.MR_Role := "user"; LLMHandler.MR_Content := "hi" |}.

(** {"messages":[{"role":"user","content":"hi"}],"provider":"openai",
    "model":"gpt-3.5-turbo","temperature":0.7,"max_tokens":2000} *)
Definition request : LLMHandler.Request :=
  {| LLMHandler.param_id := Some "sid";
     LLMHandler.body :=
       Some {| LLMHandler.CR_Messages := [hi]; LLMHandler.CR_Provider := "openai";
               LLMHandler.CR_Model := "gpt-3.5-turbo";
               LLMHandler.CR_Temperature := 0.7%float;
               LLMHandler.CR_MaxTokens := 2000 |};
     LLMHandler.writes_before_failure := None;
     LLMHandler.tracker_ctx_done := false;
     LLMHandler.request_ctx_done := false;
     LLMHandler.select_tracker_first := false |}.

(** {"messages":[{"role":"user","content":"hi"}]}: neither provider nor
    model. *)
Definition request_without_config : LLMHandler.Request :=
  {| LLMHandler.param_id := Some "sid";
     LLMHandler.body :=
       Some {| LLMHandler.CR_Messages := [hi]; LLMHandler.CR_Provider := "";
               LLMHandler.CR_Model := ""; LLMHandler.CR_Temperature := 0%float;
               LLMHandler.CR_MaxTokens := 0 |};
     LLMHandler.writes_before_failure := None;
     LLMHandler.tracker_ctx_done := false;
     LLMHandler.request_ctx_done := false;
     LLMHandler.select_tracker_first := false |}.

Definition hello : LLMResponse :=
  {| Resp_SessionID := "sid";
     Resp_Message := {| Message_ID := ""; Message_SessionID := ""; Role := "assistant";
                        Content := "hello"; Tokens := 0; Message_CreatedAt := 0 |};
     Usage := Some 10; Cost := 0.0002%float; ExecutionTime := 1.5%float |}.

Definition chunk (ty : client.ResponseType) (delta err : string)
  : client.ExecuteAgentStreamResponse :=
  {| client.pb_Type := ty; client.pb_SessionId := "sid";
     client.pb_ContentDelta := delta; client.pb_ToolCall := None;
     client.pb_Usage := None; client.pb_Cost := 0%float;
     client.pb_ExecutionTime := 0%float; client.pb_ErrorMessage := err |}.

Definition upstream (script : list client.Recv) : client.Upstream :=
  {| client.closed := false; client.conn_nil := false;
     client.unary := (2000000, inl hello); client.stream_open := None;
     client.script := script |}.

(** One delta, then an [error] chunk. *)
Definition error_chunk_script : list client.Recv :=
  [client.RecvMsg 100 (chunk client.CONTENT_DELTA "He" "");
   client.RecvMsg 100 (chunk client.ERROR "" "boom")].

(** One delta, then 31 s of silence ended by the supervisor's
    cancellation, which [Recv] reports with code [Canceled]. *)
Definition cancelled_script : list client.Recv :=
  [client.RecvMsg 100 (chunk client.CONTENT_DELTA "He" "");
   client.RecvErr (31 * Time.Second) (Go.status_Error Go.CodeCanceled "context canceled")].

(** One delta, then the connection to the back-end is lost. *)
Definition broken_script : list client.Recv :=
  [client.RecvMsg 100 (chunk client.CONTENT_DELTA "He" "");
   client.RecvErr 100 (Go.status_Error Go.CodeUnavailable "transport is closing")].

Definition trace_with_cost (id : string) (startedAt : Time) (tokens : Z) (cost : float)
  : Trace :=
  {| Trace_ID := id; Trace_SessionID := "sid"; AgentName := "simple_chat";
     Status := TraceStatusCompleted; StartedAt := startedAt; EndedAt := Some startedAt;
     Trace_CostTokens := tokens; Trace_CostAPI := cost; Metadata := JNull;
     Trace_CreatedAt := startedAt |}.

Definition three_traces : list Trace :=
  [trace_with_cost "a" 1 100 0.05%float; trace_with_cost "b" 2 200 0.20%float;
   trace_with_cost "c" 3 300 1.50%float].

Definition world_with_traces : World :=
  {| w_traces := three_traces; w_steps := []; w_sessions := [session];
     w_messages := []; w_clock := 1000; w_uuid := 0; w_faults := []; w_calls := [] |}.

Definition running_trace : Trace :=
  {| Trace_ID := "t"; Trace_SessionID := "sid"; AgentName := "stream_chat";
     Status := TraceStatusRunning; StartedAt := 0; EndedAt := None;
     Trace_CostTokens := 0; Trace_CostAPI := 0%float; Metadata := JNull;
     Trace_CreatedAt := 0 |}.

Definition world_with_running_trace : World :=
  {| w_traces := [running_trace]; w_steps := []; w_sessions := [session];
     w_messages := []; w_clock := 0; w_uuid := 0; w_faults := []; w_calls := [] |}.

Definition costly_step : ExecutionStep :=
  {| Step_ID := ""; TraceID := "t"; Sequence := 0; StepType := "llm_call";
     Input := JNull; Output := JNull; CostTokens := 10; CostAPI := 0.0002%float;
     LatencyMs := 3; Snapshot_JSON := JNull; CreatedAt := 0; UpdatedAt := 0 |}.

(** A step as a caller that numbers its steps hands it over: with its
    identifier and its sequence number. *)
Definition numbered_step : ExecutionStep :=
  {| Step_ID := "step-1"; TraceID := "t"; Sequence := 7; StepType := "llm_call";
     Input := JNull; Output := JNull; CostTokens := 10; CostAPI := 0.0002%float;
     LatencyMs := 3; Snapshot_JSON := JNull; CreatedAt := 0; UpdatedAt := 0 |}.

(** Some filter criteria, as a caller other than the HTTP handler could
    pass them. *)
Definition some_filters : DataAggregatorImpl.FilterCriteria :=
  {| DataAggregatorImpl.MinCost := 0%float; DataAggregatorImpl.MaxCost := 1%float;
     DataAggregatorImpl.Status := TraceStatusCompleted;
     DataAggregatorImpl.ModelNames := []; DataAggregatorImpl.StepTypes := [] |}.

(** A tracker created at the time of [world] with the default limits. *)
Definition tracker : ActivityTracker.t :=
  {| ActivityTracker.lastActivity := 1000; ActivityTracker.totalStart := 1000;
     ActivityTracker.config := ActivityTracker.getDefaultStreamTimeoutConfig;
     ActivityTracker.done := false |}.

(** 91 rounds of: 20 s pass, a chunk arrives, the ticker fires. *)
Definition steady_stream : list ActivityTracker.Event :=
  List.concat (repeat [ActivityTracker.Elapse (20 * Time.Second);
                  ActivityTracker.Activity; ActivityTracker.Tick false] 91).

End Scenario.

(** ** Further concrete values *)

Module Examples.
Import model.

(** A configuration whose environment holds a key and a base URL for
    DeepSeek and for OpenAI. *)
Definition cfg_with_keys : LLMService.Config :=
  {| LLMService.DefaultProvider := "deepseek";
     LLMService.DefaultModel := "deepseek-chat";
     LLMService.env_credentials :=
       fun p => if String.eqb p "deepseek" then ("sk-deepseek", "https://api.deepseek.com")
                else if String.eqb p "openai" then ("sk-openai", "")
                else ("", "") |}.

(** What the handler builds from {"provider":"openai","model":"gpt-4",
    "max_tokens":100}: the temperature is absent, that is 0. *)
Definition cold_config : LLMConfig :=
  {| Provider := "openai"; APIKey := ""; Model := "gpt-4"; BaseURL := "";
     Temperature := 0%float; MaxTokens := 100 |}.

(** A provider that is not one of the six. *)
Definition mistral_config : LLMConfig :=
  {| Provider := "mistral"; APIKey := ""; Model := "mistral-large"; BaseURL := "";
     Temperature := 0.5%float; MaxTokens := 100 |}.

(** Two messages of session "sid" and one of another session, in the
    order in which they are saved; the second was written first. *)
Definition three_messages : list model.Message :=
  [ {| model.Message_ID := "m1"; model.Message_SessionID := "sid"; model.Role := "user";
       model.Content := "hi"; model.Tokens := 0; model.Message_CreatedAt := 30 |};
    {| model.Message_ID := "m2"; model.Message_SessionID := "sid";
       model.Role := "assistant"; model.Content := "hello"; model.Tokens := 10;
       model.Message_CreatedAt := 20 |};
    {| model.Message_ID := "m3"; model.Message_SessionID := "other";
       model.Role := "user"; model.Content := "hey"; model.Tokens := 0;
       model.Message_CreatedAt := 10 |} ].


(** A final response whose cost is not a number. *)
Definition unwritable_final : client.ExecuteAgentStreamResponse :=
  {| client.pb_Type := client.FINAL_RESPONSE; client.pb_SessionId := "sid";
     client.pb_ContentDelta := ""; client.pb_ToolCall := None;
     client.pb_Usage := Some {| client.PromptTokens := 4; client.CompletionTokens := 6;
                                client.TotalTokens := 10 |};
     client.pb_Cost := PrimFloat.nan; client.pb_ExecutionTime := 1.5%float;
     client.pb_ErrorMessage := "" |}.

(** Two deltas, 100 ns apart. *)
Definition two_deltas : list (Duration * client.ExecuteAgentStreamResponse) :=
  [(100, Scenario.chunk client.CONTENT_DELTA "He" "");
   (100, Scenario.chunk client.CONTENT_DELTA "llo" "")].

End Examples.

(** ** Vocabulary of the statements below *)

(** A step declares a cost. *)
Definition declares_cost (s : model.ExecutionStep) : Prop :=
  model.CostTokens s > 0 \/ Go.fgt (model.CostAPI s) 0 = true.

Definition is_UpdateCost (c : Call) : bool :=
  match c with CallTraceUpdateCost _ _ _ => true | _ => false end.

Definition is_step_read (c : Call) : Prop :=
  match c with CallStepGetByTraceID _ => True | _ => False end.

(** The traces [GetBySessionID] returns for a session. *)
Definition fetched (sessionID : string) (w : World) : list model.Trace :=
  Go.insertion_sort (fun a b => model.Trace_CreatedAt b <? model.Trace_CreatedAt a)
    (filter (fun t => String.eqb (model.Trace_SessionID t) sessionID) (w_traces w)).

(** The comparison [IdentifyHotspots] sorts with, and the slice as it
    leaves it when called after [analyzeTrends]. *)
Definition by_cost_desc (a b : model.Trace) : bool :=
  Go.fgt (model.Trace_CostAPI a) (model.Trace_CostAPI b).

Definition ranked (sortSlice : forall A : Type, (A -> A -> bool) -> list A -> list A)
           (traces : list model.Trace) : list model.Trace :=
  sortSlice model.Trace by_cost_desc
    (sortSlice model.Trace
       (fun a b => Time.Before (model.StartedAt a) (model.StartedAt b)) traces).

(** One of the two predicates of [shouldTimeout], at a poll made at time
    [now] that read [last] as the last activity of the tracker [at0]. *)
Definition predicate_holds (at0 : ActivityTracker.t) (now last : Time) : Prop :=
  Time.Sub now last > ActivityTracker.ActivityTimeout (ActivityTracker.config at0) \/
  Time.Sub now (ActivityTracker.totalStart at0)
  > ActivityTracker.MaxTotalTimeout (ActivityTracker.config at0).

(** What holds of a monitor started on [at0] at every moment of its run. *)
Definition supervised_inv (at0 : ActivityTracker.t) (s : ActivityTracker.Supervised)
  : Prop :=
  ActivityTracker.config (ActivityTracker.tracker s) = ActivityTracker.config at0 /\
  ActivityTracker.totalStart (ActivityTracker.tracker s) = ActivityTracker.totalStart at0 /\
  (ActivityTracker.monitoring s = true -> ActivityTracker.firedAt s = None) /\
  (forall now, ActivityTracker.firedAt s = Some now ->
               exists last, In (now, last) (ActivityTracker.polls s) /\
                            predicate_holds at0 now last).

(** A computation adds to the call log only calls that satisfy [P]. *)
Definition emits (P : Call -> Prop) {A : Type} (c : M A) : Prop :=
  forall w, exists calls, w_calls (snd (c w)) = w_calls w ++ calls /\ Forall P calls.

(** A call that is not the closing of a trace as failed. *)
Definition not_a_failure (c : Call) : Prop :=
  match c with
  | CallTraceUpdateStatus _ model.TraceStatusFailed _ => False
  | _ => True
  end.

(** A key that orders the non-NaN binary64 values as [SFcompare] does:
    sign class, then exponent, then mantissa. *)
Definition sf_key (f : spec_float) : option (Z * Z * Z) :=
  match f with
  | S754_nan => None
  | S754_infinity s => Some (if s then -2 else 2, 0, 0)
  | S754_zero _ => Some (0, 0, 0)
  | S754_finite s m e => Some (if s then (-1, - e, - Z.pos m) else (1, e, Z.pos m))
  end.

Definition key_lt (a b : Z * Z * Z) : Prop :=
  let '(a1, a2, a3) := a in
  let '(b1, b2, b3) := b in
  a1 < b1 \/ (a1 = b1 /\ (a2 < b2 \/ (a2 = b2 /\ a3 < b3))).

(** No predicate of [shouldTimeout] holds at a poll. *)
Definition within_limits (at0 : ActivityTracker.t) (poll : Time * Time) : Prop :=
  ~ predicate_holds at0 (fst poll) (snd poll).

(** What holds of a monitor started on [at0] about the polls it made: as
    long as it has not cancelled, every poll was within the limits; when
    it cancelled, it did so at its last poll, at which a predicate held,
    every earlier poll having been within the limits. *)
Definition polls_inv (at0 : ActivityTracker.t) (s : ActivityTracker.Supervised) : Prop :=
  ActivityTracker.config (ActivityTracker.tracker s) = ActivityTracker.config at0 /\
  ActivityTracker.totalStart (ActivityTracker.tracker s) = ActivityTracker.totalStart at0 /\
  (ActivityTracker.monitoring s = true -> ActivityTracker.firedAt s = None) /\
  (ActivityTracker.firedAt s = None ->
     Forall (within_limits at0) (ActivityTracker.polls s)) /\
  (forall now, ActivityTracker.firedAt s = Some now ->
     exists ps last, ActivityTracker.polls s = ps ++ [(now, last)] /\
                     predicate_holds at0 now last /\ Forall (within_limits at0) ps).




(** Calling [Close] again and again, [results] being what
    [c.conn.Close()] would return each time. *)
Definition close_all (results : list Go.error) (c : GRPCLLMClient.t) : GRPCLLMClient.t :=
  fold_left (fun c result => fst (GRPCLLMClient.Close result c)) results c.

(** The caller's loop: recording the steps of a list one after the
    other, whatever each call returns. *)
Fixpoint recordAll (steps : list model.ExecutionStep) : M (list Go.error) :=
  match steps with
  | [] => ret []
  | step :: rest =>
      '(_, err) <- Tracer.RecordStep step ;;
      errs <- recordAll rest ;;
      ret (err :: errs)
  end.

(** No identifier that [uuid.New()] has yet to hand out is the identifier
    of a stored step. *)
Definition step_ids_fresh (w : World) : Prop :=
  forall s n, In s (w_steps w) -> (w_uuid w <= n)%nat -> model.Step_ID s <> uuid_of n.

(** A step left to [RecordStep] for its identifier and its number. *)
Definition unnumbered (traceID : string) (s : model.ExecutionStep) : Prop :=
  model.TraceID s = traceID /\ model.Sequence s = 0 /\ model.Step_ID s = "".

Definition has_cost (s : model.ExecutionStep) : bool :=
  (model.CostTokens s >? 0) || Go.fgt (model.CostAPI s) 0.

(** A step whose tokens, added to the tokens of a trace with the given
    identifier, leave the range of the column. *)
Definition overflows (traceID : string) (step : model.ExecutionStep)
           (traces : list model.Trace) : bool :=
  existsb (fun t => TraceRepository.has_id traceID t &&
             negb ((Go.int_min <=? model.Trace_CostTokens t + model.CostTokens step) &&
                   (model.Trace_CostTokens t + model.CostTokens step <=? Go.int_max)))
          traces.

(** The traces after the cost of a step was booked on them: as they were
    when the step declares no cost or the store refuses the sum. *)
Definition booked (traceID : string) (step : model.ExecutionStep)
           (traces : list model.Trace) : list model.Trace :=
  if has_cost step then
    if overflows traceID step traces then traces
    else map (fun t => if TraceRepository.has_id traceID t
                       then TraceRepository.with_cost
                              (model.Trace_CostTokens t + model.CostTokens step)
                              (PrimFloat.add (model.Trace_CostAPI t) (model.CostAPI step)) t
                       else t) traces
  else traces.

(** The trace with the sum [tokens] added to its tokens and the costs
    [costs] added, one after the other, to its cost. *)
Definition with_added (traceID : string) (tokens : Z) (costs : list float)
           (t : model.Trace) : model.Trace :=
  if TraceRepository.has_id traceID t
  then TraceRepository.with_cost (model.Trace_CostTokens t + tokens)
                                 (Spec.sum_from (model.Trace_CostAPI t) costs) t
  else t.

(** The store gained one trace of the session, open: status running and
    no end time. *)
Definition opens_running_trace (sessionID agentName : string) (w w' : World) : Prop :=
  exists t, w_traces w' = w_traces w ++ [t] /\
            model.Trace_SessionID t = sessionID /\ model.AgentName t = agentName /\
            model.Status t = model.TraceStatusRunning /\ model.EndedAt t = None.

(** Apart from its traces the store holds what it held. *)
Definition nothing_else_stored (w w' : World) : Prop :=
  w_steps w' = w_steps w /\ w_messages w' = w_messages w /\
  w_sessions w' = w_sessions w.

(** The messages [convertMessages] builds when the next identifier to be
    drawn is the [a]-th. *)
Fixpoint converted (sessionID : string) (a : nat) (msgs : list LLMHandler.MessageRequest)
  : list model.Message :=
  match msgs with
  | [] => []
  | msg :: rest =>
      {| model.Message_ID := uuid_of a; model.Message_SessionID := sessionID;
         model.Role := LLMHandler.MR_Role msg; model.Content := LLMHandler.MR_Content msg;
         model.Tokens := 0; model.Message_CreatedAt := 0 |}
        :: converted sessionID (S a) rest
  end.

Definition stamped (now : Time) (m : model.Message) : model.Message :=
  {| model.Message_ID := model.Message_ID m;
     model.Message_SessionID := model.Message_SessionID m;
     model.Role := model.Role m; model.Content := model.Content m;
     model.Tokens := model.Tokens m; model.Message_CreatedAt := now |}.

(** No identifier that [uuid.New()] has yet to hand out is the identifier
    of a stored trace, step or message. *)
Definition ids_fresh (w : World) : Prop :=
  forall n, (w_uuid w <= n)%nat ->
    existsb (TraceRepository.has_id (uuid_of n)) (w_traces w) = false /\
    existsb (fun s => String.eqb (model.Step_ID s) (uuid_of n)) (w_steps w) = false /\
    existsb (fun m => String.eqb (model.Message_ID m) (uuid_of n)) (w_messages w) = false.

(** What a message says, to which session. *)
Definition said (m : model.Message) : string * string * string :=
  (model.Message_SessionID m, model.Role m, model.Content m).

(** The budget of a session after a turn was charged to the session
    [sessionID]. *)
Definition charged (sessionID : string) (tokens : Z) (cost : float) (s : model.Session)
  : model.Budget :=
  if SessionRepository.has_id sessionID s
  then {| model.TotalTokens := model.TotalTokens (model.Session_Budget s);
          model.UsedTokens := model.UsedTokens (model.Session_Budget s) + tokens;
          model.TotalCost := model.TotalCost (model.Session_Budget s);
          model.UsedCost := PrimFloat.add (model.UsedCost (model.Session_Budget s)) cost |}
  else model.Session_Budget s.

(** A computation leaves the stored messages in place and appends only
    messages that satisfy [P]. *)
Definition stores_only (P : model.Message -> Prop) {A : Type} (c : M A) : Prop :=
  forall w, exists new, w_messages (snd (c w)) = w_messages w ++ new /\ Forall P new.

Definition from_assistant (m : model.Message) : Prop := model.Role m = "assistant".


(** A stream of content deltas, each after some time. *)
Definition delta_script (deltas : list (Duration * client.ExecuteAgentStreamResponse))
  : list client.Recv :=
  map (fun p => client.RecvMsg (fst p) (snd p)) deltas.

(** The identifier under which [RecordStep] inserts a step: the step's
    own, or the UUID drawn for it when it comes without one. *)
Definition inserted_id (next : nat) (s : model.ExecutionStep) : string :=
  if String.eqb (model.Step_ID s) "" then uuid_of next else model.Step_ID s.

(** Steps recorded one after the other, each under an identifier that the
    store does not hold when its turn comes: [stored] are the identifiers
    of the stored steps and [next] counts the UUIDs drawn so far. *)
Fixpoint ids_new (steps : list model.ExecutionStep) (stored : list string) (next : nat)
  : bool :=
  match steps with
  | [] => true
  | s :: rest =>
      negb (existsb (fun i => String.eqb i (inserted_id next s)) stored) &&
      ids_new rest (stored ++ [inserted_id next s])
              (if String.eqb (model.Step_ID s) "" then S next else next)
  end.

(** The statements [RecordStep] issues up to the insert of a step: the
    lookup of the stored steps, for a step without sequence number, and the
    insert. *)
Definition statements_to_insert (s : model.ExecutionStep) : nat :=
  if model.Sequence s =? 0 then 2 else 1.


(** * Properties *)

(** ** Integers, floats and sorting *)

Lemma wrap_in_int (z : Z) : Go.in_int z -> Go.wrap z = z.
Proof.
  unfold Go.in_int, Go.int_min, Go.int_max, Go.wrap. intros H.
  rewrite Z.mod_small; lia.
Qed.

Lemma wrap_add_wrap (a b : Z) : Go.wrap (Go.wrap a + b) = Go.wrap (a + b).
Proof.
  unfold Go.wrap.
  replace ((a + 2 ^ 63) mod 2 ^ 64 - 2 ^ 63 + b + 2 ^ 63)
    with ((a + 2 ^ 63) mod 2 ^ 64 + b) by lia.
  rewrite Zplus_mod_idemp_l. f_equal. f_equal. lia.
Qed.

Lemma Sub_gt (t u d : Z) : Go.in_int d -> Time.Sub t u > d -> t - u > d.
Proof. unfold Time.Sub, Go.in_int. lia. Qed.

Section FloatOrder.

Ltac key_cases :=
  try (split; [discriminate
              | intros (ka & kb & H1 & H2 & H3); try discriminate;
                inversion H1; inversion H2; subst; cbn in H3; lia]);
  try (split; [intros _; do 2 eexists; repeat split; cbn; lia | reflexivity]).

Lemma SFltb_key (a b : spec_float) :
  SFltb a b = true <->
  exists ka kb, sf_key a = Some ka /\ sf_key b = Some kb /\ key_lt ka kb.
Proof.
  unfold SFltb.
  destruct a as [sa|sa| |sa ma ea], b as [sb|sb| |sb mb eb]; cbn;
    try destruct sa; try destruct sb; cbn; key_cases.
  all: change (PosDef.Pos.compare_cont Eq ma mb) with (Pos.compare ma mb).
  all: destruct (Z.compare_spec ea eb); [destruct (Pos.compare_spec ma mb) | |]; cbn.
  all: key_cases.
Qed.

Lemma key_lt_trans a b c : key_lt a b -> key_lt b c -> key_lt a c.
Proof. destruct a as [[? ?] ?], b as [[? ?] ?], c as [[? ?] ?]; cbn; lia. Qed.

Lemma key_lt_irrefl a : ~ key_lt a a.
Proof. destruct a as [[? ?] ?]; cbn; lia. Qed.

Lemma key_lt_negtrans a b c : ~ key_lt a b -> ~ key_lt b c -> ~ key_lt a c.
Proof. destruct a as [[? ?] ?], b as [[? ?] ?], c as [[? ?] ?]; cbn; lia. Qed.

Lemma ltb_key (x y : float) :
  PrimFloat.ltb x y = true <->
  exists kx ky, sf_key (Prim2SF x) = Some kx /\ sf_key (Prim2SF y) = Some ky /\
                key_lt kx ky.
Proof. rewrite FloatAxioms.ltb_spec. apply SFltb_key. Qed.

Lemma not_nan_key (x : float) :
  Go.is_nan x = false -> exists k, sf_key (Prim2SF x) = Some k.
Proof.
  unfold Go.is_nan, PrimFloat.is_nan. rewrite FloatAxioms.eqb_spec. unfold SFeqb.
  destruct (Prim2SF x); cbn; try discriminate; eauto.
Qed.

Lemma ltb_trans x y z :
  PrimFloat.ltb x y = true -> PrimFloat.ltb y z = true -> PrimFloat.ltb x z = true.
Proof.
  rewrite !ltb_key. intros (kx & ky & Hx & Hy & H1) (ky' & kz & Hy' & Hz & H2).
  rewrite Hy in Hy'. inversion Hy'; subst. exists kx, kz. eauto using key_lt_trans.
Qed.

Lemma ltb_irrefl x : PrimFloat.ltb x x = false.
Proof.
  destruct (PrimFloat.ltb x x) eqn:E; [|reflexivity].
  apply ltb_key in E. destruct E as (k & k' & H & H' & Hlt).
  rewrite H in H'. inversion H'; subst. exfalso. eapply key_lt_irrefl; eauto.
Qed.

Lemma ltb_negtrans x y z :
  Go.is_nan x = false -> Go.is_nan y = false -> Go.is_nan z = false ->
  PrimFloat.ltb x y = false -> PrimFloat.ltb y z = false -> PrimFloat.ltb x z = false.
Proof.
  intros Nx Ny Nz Hxy Hyz.
  destruct (not_nan_key _ Nx) as [kx Kx], (not_nan_key _ Ny) as [ky Ky],
           (not_nan_key _ Nz) as [kz Kz].
  destruct (PrimFloat.ltb x z) eqn:E; [|reflexivity]. exfalso.
  apply ltb_key in E. destruct E as (a & c & Ha & Hc & Hlt).
  rewrite Kx in Ha. rewrite Kz in Hc. inversion Ha; inversion Hc; subst.
  revert Hlt. apply (@key_lt_negtrans a ky c).
  - intros H. assert (PrimFloat.ltb x y = true) by (apply ltb_key; eauto). congruence.
  - intros H. assert (PrimFloat.ltb y z = true) by (apply ltb_key; eauto). congruence.
Qed.

End FloatOrder.

Section InsertionSort.
Variable A : Type.
Variable less : A -> A -> bool.

Lemma insert_perm (x : A) (l : list A) : Permutation (x :: l) (Go.insert less x l).
Proof.
  induction l as [|y l IH]; cbn; [reflexivity|].
  destruct (less y x); [|reflexivity].
  rewrite perm_swap. now constructor.
Qed.

Lemma insertion_sort_perm (l : list A) : Permutation l (Go.insertion_sort less l).
Proof.
  induction l as [|x l IH]; cbn; [constructor|].
  etransitivity; [|apply insert_perm]. now constructor.
Qed.

Lemma insert_sorted (dom : list A) (x : A) (l : list A) :
  Spec.ordering_on less dom -> In x dom -> incl l dom ->
  StronglySorted (fun a b => less b a = false) l ->
  StronglySorted (fun a b => less b a = false) (Go.insert less x l).
Proof.
  intros (Hirr & Htr & Hneg) Hx Hl Hs.
  induction Hs as [|y l Hs IH Hy]; cbn.
  - repeat constructor.
  - assert (Iy : In y dom) by (apply Hl; now left).
    assert (Il : incl l dom) by (intros z Hz; apply Hl; now right).
    rewrite Forall_forall in Hy.
    destruct (less y x) eqn:E.
    + constructor; [now apply IH|].
      apply Forall_forall. intros z Hz.
      apply Permutation_in with (l' := x :: l) in Hz;
        [|symmetry; apply insert_perm].
      destruct Hz as [<-|Hz]; [|now apply Hy].
      destruct (less x y) eqn:E'; [|reflexivity].
      pose proof (Htr y x y Iy Hx Iy E E') as Hyy.
      rewrite (Hirr y Iy) in Hyy. discriminate.
    + constructor; [now constructor; [|apply Forall_forall]|].
      constructor; [exact E|].
      apply Forall_forall. intros z Hz.
      apply (Hneg z y x); auto.
Qed.

Lemma insertion_sort_sorted (l : list A) :
  Spec.ordering_on less l ->
  StronglySorted (fun a b => less b a = false) (Go.insertion_sort less l).
Proof.
  intros Hord.
  assert (H : forall l', incl l' l ->
              StronglySorted (fun a b => less b a = false) (Go.insertion_sort less l')).
  { induction l' as [|x l' IH]; intros Hincl; cbn; [constructor|].
    apply insert_sorted with (dom := l); auto.
    - apply Hincl. now left.
    - intros z Hz. apply Hincl. right.
      eapply Permutation_in; [symmetry; apply insertion_sort_perm | exact Hz].
    - apply IH. intros z Hz. apply Hincl. now right. }
  apply H, incl_refl.
Qed.

End InsertionSort.

(** The stable insertion sort meets the contract of [sort.Slice]. *)
Lemma insertion_sort_sorts_slices : Spec.sorts_slices (@Go.insertion_sort).
Proof.
  intros A less l. split.
  - apply insertion_sort_perm.
  - apply insertion_sort_sorted.
Qed.

(** ** Running the monad *)

Ltac break_if :=
  match goal with
  | |- context [if ?b then _ else _] =>
      match type of b with bool => destruct b eqn:? end
  end.

Ltac world_cbn :=
  cbn [w_traces w_steps w_sessions w_messages w_clock w_uuid w_faults w_calls
       set_uuid set_calls set_faults set_steps set_traces set_sessions set_messages
       set_clock Tracer.with_ID Tracer.with_times Tracer.with_Sequence
       model.Step_ID model.TraceID model.Sequence model.CostTokens model.CostAPI
       model.CreatedAt model.UpdatedAt fst snd].

Ltac run_M :=
  cbv beta iota zeta delta
    [bind ret get put modify panic issue time_Now uuid_New
     Tracer.RecordStep Tracer.getNextSequence Tracer.RecordSnapshot Tracer.EndTrace
     Tracer.StartTrace StepRepository.Create StepRepository.GetByTraceID
     TraceRepository.Create TraceRepository.UpdateStatus TraceRepository.UpdateCost
     TraceRepository.GetBySessionID
     SessionService.UpdateBudget SessionRepository.UpdateBudget].

Ltac eqb_to_prop :=
  repeat match goal with
         | H : String.eqb _ _ = true |- _ => apply String.eqb_eq in H
         | H : String.eqb _ _ = false |- _ => apply String.eqb_neq in H
         end.

(** ** Tracer: recording a step *)

Section RecordStep.
Import model.

Lemma declares_cost_b (s : ExecutionStep) :
  declares_cost s <-> (CostTokens s >? 0) || Go.fgt (CostAPI s) 0 = true.
Proof.
  unfold declares_cost. rewrite orb_true_iff, Z.gtb_lt. intuition lia.
Qed.

Lemma not_self_app {A : Type} (l : list A) (x : A) : l = l ++ [x] -> False.
Proof.
  intros H. apply (f_equal (@List.length A)) in H.
  rewrite length_app in H. cbn in H. lia.
Qed.

(** Two draws of [uuid.New()] give different identifiers. *)
Lemma uuid_of_inj (n m : nat) : uuid_of n = uuid_of m -> n = m.
Proof.
  unfold uuid_of. cbn. intros H. inversion H as [H'].
  apply (f_equal NilEmpty.uint_of_string) in H'.
  rewrite !NilEmpty.usu in H'. inversion H' as [H''].
  apply (f_equal Nat.of_uint) in H''.
  now rewrite !DecimalNat.Unsigned.of_to in H''.
Qed.

(** C9. [RecordStep] on any step, in any world: it returns (no panic);
    the identifier of the caller's struct is a UUID drawn for it when it
    was empty and is kept otherwise; a step without trace identifier is
    refused with "traceID is required" and then no statement reaches the
    store; a step handed to the insert carries the current time in
    [CreatedAt] and [UpdatedAt]; and, for a step that was inserted, the
    cost accumulator of its trace is called with the step's cost exactly
    when the step declares [CostTokens > 0] or [CostAPI > 0] -- it is
    called in no other situation. The store gains the step or nothing.
    A step is inserted whenever it names a trace, the store executes the
    statements up to the insert (the lookup of the stored steps, made only
    for a step without sequence number, and the insert) and holds no step
    of its identifier: the step inserted is the caller's, with its
    identifier, the current time in both time fields and its sequence
    number -- the one it came with, or one more than the count of the steps
    stored for its trace when it came with none; the accumulator is then
    called exactly when the step declares a cost, and a step that declares
    none is recorded without error and leaves the traces as they were. *)
Theorem RecordStep_contract (step : ExecutionStep) (w : World) :
  exists step' err w' calls,
    Tracer.RecordStep step w = (Returned (step', err), w') /\
    w_calls w' = w_calls w ++ calls /\
    Step_ID step' = (if String.eqb (Step_ID step) "" then uuid_of (w_uuid w)
                     else Step_ID step) /\
    (TraceID step = "" ->
       err = Some (Go.errors_New "traceID is required") /\ calls = [] /\
       w_steps w' = w_steps w /\ w_traces w' = w_traces w) /\
    (forall s, In (CallStepCreate s) calls ->
       s = step' /\ CreatedAt s = w_clock w /\ UpdatedAt s = w_clock w) /\
    (w_steps w' = w_steps w ++ [step'] ->
       (In (CallTraceUpdateCost (TraceID step) (CostTokens step) (CostAPI step)) calls
        <-> declares_cost step)) /\
    (forall c, In c calls -> is_UpdateCost c = true ->
       w_steps w' = w_steps w ++ [step'] /\ declares_cost step) /\
    (w_steps w' = w_steps w \/ w_steps w' = w_steps w ++ [step']) /\
    (TraceID step <> "" ->
     hd false (w_faults w) = false ->
     (Sequence step = 0 -> hd false (tl (w_faults w)) = false) ->
     existsb (fun s => String.eqb (Step_ID s) (Step_ID step')) (w_steps w) = false ->
     step' = Tracer.with_Sequence
               (if Sequence step =? 0
                then Go.add (Go.len (Spec.sequences_of (TraceID step) w)) 1
                else Sequence step)
               (Tracer.with_times (w_clock w) (w_clock w)
                  (Tracer.with_ID (if String.eqb (Step_ID step) ""
                                   then uuid_of (w_uuid w) else Step_ID step) step)) /\
     w_steps w' = w_steps w ++ [step'] /\
     In (CallStepCreate step') calls /\
     (In (CallTraceUpdateCost (TraceID step) (CostTokens step) (CostAPI step)) calls
      <-> declares_cost step) /\
     (~ declares_cost step -> err = None /\ w_traces w' = w_traces w)).
Proof.
  assert (Hlen : Go.len (Go.insertion_sort (fun a b => Sequence a <? Sequence b)
                   (filter (fun s => String.eqb (TraceID s) (TraceID step)) (w_steps w)))
                 = Go.len (Spec.sequences_of (TraceID step) w)).
  { unfold Go.len, Spec.sequences_of. rewrite length_map. f_equal.
    symmetry. apply Permutation_length, insertion_sort_perm. }
  destruct w as [tr st se ms ck uu fl cl]. revert Hlen.
  run_M.
  repeat (world_cbn; try break_if).
  all: intros Hlen.
  all: do 4 eexists; (split; [reflexivity|]).
  all: world_cbn.
  all: (split; [first [reflexivity | rewrite <- !app_assoc; reflexivity
                      | symmetry; apply app_nil_r]|]).
  all: (split; [reflexivity|]).
  all: eqb_to_prop.
  all: (split; [first [intros _; repeat split; reflexivity | intros; congruence]|]).
  all: (split; [intros s Hin; cbn in Hin; intuition (try discriminate);
                match goal with
                | H : CallStepCreate _ = CallStepCreate _ |- _ =>
                    inversion H; subst; reflexivity
                end |]).
  all: rewrite declares_cost_b.
  all: (split;
        [first [ intros Hins; exfalso; revert Hins; apply not_self_app
               | intros _; split; [intros _; assumption | intros _; cbn; tauto]
               | intros _; split; [cbn; intuition discriminate | congruence] ] |]).
  all: (split;
        [first [ intros c Hin Hc; cbn in Hin; intuition (subst; try discriminate); fail
               | intros c Hin Hc; split; [reflexivity | apply declares_cost_b; assumption] ]
        |]).
  all: (split; [first [left; reflexivity | right; reflexivity]|]).
  all: intros Hname Hf1 Hf2 Hnew.
  all: try congruence.
  all: try match goal with
            | H : (Sequence ?s =? 0) = true, Hf : Sequence ?s = 0 -> true = false |- _ =>
                apply Z.eqb_eq in H; discriminate (Hf H)
            end.
  all: rewrite ?Hlen.
  all: (split; [reflexivity|]).
  all: (split; [reflexivity|]).
  all: (split; [cbn; tauto|]).
  all: split.
  all: try (split; [intros _; assumption | intros _; cbn; tauto]).
  all: try (split; [cbn; intuition discriminate | congruence]).
  all: try (intros Hno; congruence).
  all: try (intros _; split; reflexivity).
Qed.

(** A step with a trace identifier, no identifier of its own and a cost,
    recorded in a store that works: it is inserted under a drawn UUID
    with the time of the call, and the accumulator is called. A step that
    comes with its identifier and its sequence number, as the handlers
    record it, is inserted with both and its cost is accumulated too. *)
Lemma RecordStep_contract_witness :
  (exists step' w',
     Tracer.RecordStep Scenario.costly_step Scenario.world_with_running_trace
     = (Returned (step', None), w') /\
     Step_ID step' = uuid_of 0 /\ CreatedAt step' = 0 /\ Sequence step' = 1 /\
     In (CallTraceUpdateCost "t" 10 0.0002%float) (w_calls w')) /\
  (exists step' err w',
     Tracer.RecordStep Scenario.numbered_step Scenario.world_with_running_trace
     = (Returned (step', err), w') /\
     w_steps w' = [step'] /\
     Step_ID step' = "step-1" /\ Sequence step' = 7 /\ CreatedAt step' = 0 /\
     In (CallStepCreate step') (w_calls w') /\
     In (CallTraceUpdateCost "t" 10 0.0002%float) (w_calls w')).
Proof.
  split.
  - destruct (@RecordStep_contract Scenario.costly_step Scenario.world_with_running_trace)
      as (step' & err & w' & calls & Hrun & Hcalls & Hid & _ & Hts & Hcost & _).
    assert (Hr : fst (Tracer.RecordStep Scenario.costly_step
                                        Scenario.world_with_running_trace)
                 = Returned (Tracer.with_Sequence 1 (Tracer.with_times 0 0
                               (Tracer.with_ID (uuid_of 0) Scenario.costly_step)), None))
      by (vm_compute; reflexivity).
    assert (Hs : w_steps (snd (Tracer.RecordStep Scenario.costly_step
                                                 Scenario.world_with_running_trace))
                 = w_steps Scenario.world_with_running_trace
                   ++ [Tracer.with_Sequence 1 (Tracer.with_times 0 0
                         (Tracer.with_ID (uuid_of 0) Scenario.costly_step))])
      by (vm_compute; reflexivity).
    rewrite Hrun in Hr, Hs. cbn [fst snd] in Hr, Hs.
    inversion Hr; subst step' err.
    exists (Tracer.with_Sequence 1 (Tracer.with_times 0 0
              (Tracer.with_ID (uuid_of 0) Scenario.costly_step))), w'.
    split; [exact Hrun|].
    split; [reflexivity|]. split; [reflexivity|]. split; [reflexivity|].
    rewrite Hcalls. apply in_or_app. right.
    apply Hcost; [exact Hs | left; reflexivity].
  - destruct (@RecordStep_contract Scenario.numbered_step
                                   Scenario.world_with_running_trace)
      as (step' & err & w' & calls & Hrun & Hcalls & Hid & _ & _ & _ & _ & _ & Hins).
    destruct Hins as (Hstep & Hsteps & Hcreate & Hcost & _);
      [discriminate | reflexivity | discriminate | reflexivity |].
    exists step', err, w'. split; [exact Hrun|].
    split; [exact Hsteps|]. split; [exact Hid|].
    split; [rewrite Hstep; reflexivity|]. split; [rewrite Hstep; reflexivity|].
    rewrite Hcalls. split; apply in_or_app; right; [exact Hcreate|].
    apply Hcost. left. reflexivity.
Defined.

End RecordStep.

(** ** Tracer: sequence numbers *)

Section Sequences.
Import model.

(** [RecordStep] numbers a step that comes without a sequence: the
    number is one more than the count of the steps stored for the trace. *)
Lemma RecordStep_assigns_next (step : ExecutionStep) (w : World) (s : ExecutionStep) :
  Sequence step = 0 ->
  In (CallStepCreate s) (w_calls (snd (Tracer.RecordStep step w))) ->
  ~ In (CallStepCreate s) (w_calls w) ->
  Sequence s = Go.add (Go.len (Spec.sequences_of (TraceID step) w)) 1.
Proof.
  intros Hseq Hin Hnew.
  assert (Hlen : Go.len (Go.insertion_sort (fun a b => Sequence a <? Sequence b)
                   (filter (fun s => String.eqb (TraceID s) (TraceID step)) (w_steps w)))
                 = Go.len (Spec.sequences_of (TraceID step) w)).
  { unfold Go.len, Spec.sequences_of. rewrite length_map. f_equal.
    symmetry. apply Permutation_length, insertion_sort_perm. }
  destruct w as [tr st se ms ck uu fl cl]. revert Hin Hlen.
  run_M.
  repeat (world_cbn; rewrite ?Hseq; cbn [Z.eqb]; try break_if).
  all: world_cbn; intros Hin Hlen.
  all: repeat (apply in_app_or in Hin; destruct Hin as [Hin|Hin]); try contradiction.
  all: cbn in Hin; intuition (try discriminate).
  all: match goal with
       | H : CallStepCreate _ = CallStepCreate _ |- _ => inversion H; subst; clear H
       end.
  all: world_cbn; cbn [Tracer.with_Sequence Sequence]; try exact Hlen.
  all: eqb_to_prop; rewrite <- Hlen; reflexivity.
Qed.

(** [RecordSnapshot] never numbers the step it stores: every snapshot is
    inserted with sequence 0. *)
Lemma RecordSnapshot_sequence_zero (traceID : string) (snapshot : option Snapshot)
      (w : World) (s : ExecutionStep) :
  In (CallStepCreate s) (w_calls (snd (Tracer.RecordSnapshot traceID snapshot w))) ->
  ~ In (CallStepCreate s) (w_calls w) ->
  Sequence s = 0.
Proof.
  destruct w as [tr st se ms ck uu fl cl].
  unfold Tracer.RecordSnapshot.
  destruct (String.eqb traceID ""); [cbn; tauto|].
  destruct snapshot as [snapshot|]; [|cbn; tauto].
  run_M. repeat (world_cbn; try break_if).
  all: world_cbn; intros Hin Hnew.
  all: apply in_app_or in Hin; destruct Hin as [Hin|Hin]; [contradiction|].
  all: cbn in Hin; intuition (try discriminate).
  all: match goal with
       | H : CallStepCreate _ = CallStepCreate _ |- _ => inversion H; subst; clear H
       end.
  all: reflexivity.
Qed.

(** C2. The unary turn of S1 (one user message, provider and model
    given, the back-end answering "hello" with 10 tokens) on a working
    store records three steps for its trace: the pre_llm snapshot, the
    llm_call step, the post_llm snapshot. Their stored sequence numbers
    are 0, 1, 0 -- not the set {1, 2, 3}, the two snapshots share a number,
    and the llm_call step has the number 1 the handler gave it. *)
Theorem unary_turn_sequences :
  let w := snd (LLMHandler.Chat Scenario.cfg (Scenario.upstream [])
                                Scenario.request Scenario.world) in
  map StepType (w_steps w) = ["snapshot"; "llm_call"; "snapshot"] /\
  Spec.sequences_of (uuid_of 0) w = [0; 1; 0] /\
  ~ Spec.dense_from_one (Spec.sequences_of (uuid_of 0) w).
Proof.
  cbv zeta.
  assert (E : Spec.sequences_of (uuid_of 0)
                (snd (LLMHandler.Chat Scenario.cfg (Scenario.upstream [])
                                      Scenario.request Scenario.world)) = [0; 1; 0])
    by (vm_compute; reflexivity).
  split; [vm_compute; reflexivity|]. split; [exact E|].
  rewrite E. unfold Spec.dense_from_one. cbn. intros H.
  apply (Permutation_in 0) in H; [|now left].
  cbn in H. intuition discriminate.
Qed.

End Sequences.

(** ** Tracer: closing a trace *)

Section EndTrace.
Import model.

(** C3 (as stated) fails: on a running trace, a second
    [EndTrace(completed)] at a later time changes the stored [endedAt]. *)
Lemma EndTrace_not_idempotent : ~ Spec.terminal_transition_idempotent.
Proof.
  intros H.
  specialize (H Scenario.world_with_running_trace "t"
                TraceStatusCompleted TraceStatusCompleted 10 20
                eq_refl eq_refl ltac:(lia) eq_refl).
  destruct H as [H _].
  - exists Scenario.running_trace. repeat split. now left.
  - specialize (H eq_refl). vm_compute in H. discriminate.
Qed.

(** C3 (amended). When the store executes the statement, [EndTrace]
    returns no error and overwrites, on every trace with the given
    identifier, the status with the given one and [endedAt] with the time
    of the call, whatever the trace held before; other traces are left as
    they are. *)
Theorem EndTrace_overwrites (traceID : string) (status : TraceStatus) (w : World) :
  hd false (w_faults w) = false ->
  exists w',
    Tracer.EndTrace traceID status w = (Returned None, w') /\
    w_traces w' = map (fun t => if TraceRepository.has_id traceID t
                                then TraceRepository.with_status status (w_clock w) t
                                else t) (w_traces w) /\
    (forall t, In t (w_traces w') -> Trace_ID t = traceID ->
               Status t = status /\ EndedAt t = Some (w_clock w)) /\
    (forall t, In t (w_traces w') -> Trace_ID t <> traceID -> In t (w_traces w)).
Proof.
  intros Hf. destruct w as [tr st se ms ck uu fl cl]. cbn in Hf.
  run_M. world_cbn. rewrite Hf.
  eexists. split; [reflexivity|]. world_cbn. split; [reflexivity|].
  split; intros t Hin Hid; apply in_map_iff in Hin; destruct Hin as (t0 & <- & Hin);
    revert Hid; unfold TraceRepository.has_id;
    destruct (String.eqb_spec (Trace_ID t0) traceID) as [E|E]; cbn; intros Hid.
  - split; reflexivity.
  - contradiction.
  - contradiction.
  - exact Hin.
Qed.

(** On the completed trace "t" a later [EndTrace(failed)] goes through:
    it returns no error and the trace is stored as failed, ended at the
    later time. *)
Lemma EndTrace_overwrites_witness :
  let w1 := snd (Tracer.EndTrace "t" TraceStatusCompleted
                   (set_clock 10 Scenario.world_with_running_trace)) in
  exists w2,
    Tracer.EndTrace "t" TraceStatusFailed (set_clock 20 w1) = (Returned None, w2) /\
    map Status (w_traces w1) = [TraceStatusCompleted] /\
    forall t, In t (w_traces w2) -> Trace_ID t = "t" ->
              Status t = TraceStatusFailed /\ EndedAt t = Some 20.
Proof.
  cbv zeta.
  destruct (@EndTrace_overwrites "t" TraceStatusFailed
              (set_clock 20 (snd (Tracer.EndTrace "t" TraceStatusCompleted
                                    (set_clock 10 Scenario.world_with_running_trace))))
              eq_refl) as (w2 & Hrun & _ & Hall & _).
  exists w2. split; [exact Hrun|]. split; [vm_compute; reflexivity|]. exact Hall.
Defined.

End EndTrace.

(** ** Session budget *)

Section Budget.
Import model.

(** C4 (as stated) fails: the unary turn of S5 -- a session with a quota
    of 5 tokens, a turn that accounts 10 -- is answered with status 200 and
    leaves [usedTokens = 10] on the session. *)
Lemma turn_exceeds_budget : ~ Spec.turn_keeps_budget.
Proof.
  intros H.
  pose (run := LLMHandler.Chat Scenario.cfg (Scenario.upstream [])
                               Scenario.request Scenario.world).
  pose (rw := match fst run with
              | Returned rw => rw
              | Panicked _ => LLMHandler.newWriter Scenario.request
              end).
  specialize (H Scenario.cfg (Scenario.upstream []) Scenario.request Scenario.world
                rw (snd run)).
  assert (Hin : In (SessionRepository.with_used 10 0.0002%float (w_clock (snd run))
                                                Scenario.session)
                   (w_sessions (snd run))) by (vm_compute; left; reflexivity).
  apply H in Hin.
  - destruct Hin as [Htok _]. cbn in Htok. lia.
  - intros s [<-|[]]. split; cbn; [lia | discriminate].
  - vm_compute. reflexivity.
  - vm_compute. reflexivity.
Qed.

(** C4 (amended). When the store executes the statement and the sums fit
    the 64-bit column, [UpdateBudget] returns no error and adds the
    turn's tokens and cost to the used counters of the session, without
    looking at the quota; the row's [updated_at] becomes the time of the
    call and nothing else of it, and no other row, changes. The session
    is within its budget afterwards whenever [CheckBudget] accepts the
    session with these amounts. *)
Theorem UpdateBudget_adds (id : string) (tokens : Z) (cost : float) (w : World) :
  hd false (w_faults w) = false ->
  (forall s, In s (w_sessions w) -> Session_ID s = id ->
             Go.in_int (UsedTokens (Session_Budget s) + tokens)) ->
  exists w',
    SessionService.UpdateBudget id tokens cost w = (Returned None, w') /\
    w_sessions w' =
      map (fun s => if SessionRepository.has_id id s
                    then SessionRepository.with_used
                           (UsedTokens (Session_Budget s) + tokens)
                           (PrimFloat.add (UsedCost (Session_Budget s)) cost)
                           (w_clock w) s
                    else s) (w_sessions w) /\
    (forall s, In s (w_sessions w) -> Session_ID s = id ->
               SessionService.CheckBudget s tokens cost = None ->
               SessionService.within_budget
                 (SessionRepository.with_used
                    (UsedTokens (Session_Budget s) + tokens)
                    (PrimFloat.add (UsedCost (Session_Budget s)) cost)
                    (w_clock w) s)).
Proof.
  intros Hf Hfit. destruct w as [tr st se ms ck uu fl cl]. cbn in Hf, Hfit.
  assert (Hex : existsb
                  (fun s => SessionRepository.has_id id s &&
                     negb ((Go.int_min <=? UsedTokens (Session_Budget s) + tokens) &&
                           (UsedTokens (Session_Budget s) + tokens <=? Go.int_max)))
                  se = false).
  { apply not_true_is_false. intros Hex. apply existsb_exists in Hex.
    destruct Hex as (s & Hin & Hs). apply andb_true_iff in Hs. destruct Hs as [Hid Hs].
    apply String.eqb_eq in Hid. specialize (Hfit s Hin Hid).
    unfold Go.in_int in Hfit. apply negb_true_iff, andb_false_iff in Hs.
    destruct Hs as [Hs|Hs]; [apply Z.leb_gt in Hs | apply Z.leb_gt in Hs]; lia. }
  run_M. world_cbn. rewrite Hf. world_cbn. rewrite Hex.
  eexists. split; [reflexivity|]. world_cbn. split; [reflexivity|].
  intros s Hin Hid Hcheck. specialize (Hfit s Hin Hid).
  unfold SessionService.CheckBudget in Hcheck.
  unfold Go.add in Hcheck. rewrite (@wrap_in_int _ Hfit) in Hcheck.
  unfold SessionService.within_budget.
  unfold Go.fgt in *.
  cbn [Session_Budget SessionRepository.with_used TotalTokens UsedTokens TotalCost
       UsedCost].
  destruct (TotalTokens (Session_Budget s) >? 0) eqn:Et;
    destruct (UsedTokens (Session_Budget s) + tokens >? TotalTokens (Session_Budget s))
             eqn:Eu; cbn in Hcheck; try discriminate.
  all: destruct (PrimFloat.ltb 0 (TotalCost (Session_Budget s))) eqn:Ec;
    destruct (PrimFloat.ltb (TotalCost (Session_Budget s))
                            (PrimFloat.add (UsedCost (Session_Budget s)) cost)) eqn:Ef;
    cbn in Hcheck; try discriminate.
  all: split; [intros; lia | intros; congruence].
Qed.

(** The session of S5 after a turn of 3 tokens: [CheckBudget] accepts,
    the counter is 3 and the session is within its quota of 5. *)
Lemma UpdateBudget_adds_witness :
  exists w',
    SessionService.UpdateBudget "sid" 3 0.0001%float Scenario.world = (Returned None, w') /\
    map (fun s => UsedTokens (Session_Budget s)) (w_sessions w') = [3] /\
    map Session_UpdatedAt (w_sessions w') = [w_clock Scenario.world] /\
    SessionService.within_budget
      (SessionRepository.with_used 3 (PrimFloat.add 0%float 0.0001%float)
                                   (w_clock Scenario.world) Scenario.session).
Proof.
  destruct (@UpdateBudget_adds "sid" 3 0.0001%float Scenario.world eq_refl)
    as (w' & Hrun & Hs & Hok).
  - intros s [<-|[]] _. vm_compute. split; discriminate.
  - exists w'. split; [exact Hrun|]. split; [rewrite Hs; reflexivity|].
    split; [rewrite Hs; reflexivity|].
    apply (Hok Scenario.session); [now left | reflexivity | reflexivity].
Defined.

End Budget.

(** ** Provider inference *)

Section ProviderInference.
Import model.

(** C6 (as stated) fails: "claude-3-opus" matches claude-3-* and is
    inferred to be an OpenAI model. *)
Lemma claude_prefix_not_anthropic : ~ Spec.claude_prefix_maps_to_anthropic.
Proof.
  intros H. specialize (H "claude-3-opus" eq_refl). vm_compute in H. discriminate.
Qed.

(** C6 (amended). [inferProviderFromModel] is the lookup in the table
    whose Anthropic row holds the four names claude-3-opus-20240229,
    claude-3-sonnet-20240229, claude-3-haiku-20240307 and
    claude-3-5-sonnet-20241022: a name of a row maps to the provider of the
    row, any other name to openai. *)
Theorem inferProviderFromModel_table (modelName : string) :
  LLMService.inferProviderFromModel modelName
  = Spec.table_lookup Spec.provider_table modelName.
Proof.
  unfold LLMService.inferProviderFromModel, Spec.provider_table.
  cbn [Spec.table_lookup existsb].
  repeat match goal with
         | |- context [String.eqb modelName ?s] =>
             destruct (String.eqb modelName s); cbn [orb]; try reflexivity
         end.
Qed.

(** Rows of the table, and a name outside of it. *)
Lemma inferProviderFromModel_rows :
  map LLMService.inferProviderFromModel
      ["claude-3-opus-20240229"; "claude-3-5-sonnet-20241022"; "deepseek-reasoner";
       "qwen-max-longcontext"; "ernie-speed"; "glm-3-turbo"; "gpt-4"; "claude-3-opus"]
  = ["anthropic"; "anthropic"; "deepseek"; "qwen"; "ernie"; "chatglm"; "openai"; "openai"].
Proof. reflexivity. Qed.

End ProviderInference.

(** ** Activity supervisor *)

Section Supervisor.
Import ActivityTracker.

Variable at0 : ActivityTracker.t.

Lemma step_inv (e : Event) (s : Supervised) (w : World) :
  supervised_inv at0 s ->
  exists s' w',
    step e s w = (Returned s', w') /\ supervised_inv at0 s' /\
    (done (tracker s') = true ->
     done (tracker s) = true \/ firedAt s' <> None \/ e = Stopped).
Proof.
  intros (Hc & Hs & Hm & Hf).
  destruct e; cbn [step].
  - (* Elapse *)
    do 2 eexists. split; [reflexivity|]. split; [repeat split; auto|]. auto.
  - (* Activity *)
    do 2 eexists. split; [reflexivity|]. split; [repeat split; auto|]. cbn. auto.
  - (* Tick *)
    destruct (monitoring s) eqn:Em; cbn [negb].
    2:{ do 2 eexists. split; [reflexivity|]. split; [repeat split; auto; congruence|].
        auto. }
    destruct (done (tracker s) && negb ticker_first) eqn:Ed.
    { do 2 eexists. split; [reflexivity|]. cbn. split; [repeat split; auto; congruence|].
      auto. }
    cbv beta iota zeta delta [bind ret time_Now shouldTimeout timeSinceLastActivity
                              totalTime].
    destruct (Time.Sub (w_clock w) (lastActivity (tracker s))
              >? ActivityTimeout (config (tracker s))) eqn:E1;
      [|destruct (Time.Sub (w_clock w) (totalStart (tracker s))
                  >? MaxTotalTimeout (config (tracker s))) eqn:E2];
      do 2 eexists; (split; [reflexivity|]); cbn.
    + split; [|right; left; discriminate].
      repeat split; auto; try discriminate.
      intros now Hn. inversion Hn; subst. eexists. split.
      * apply in_or_app. right. left. reflexivity.
      * left. rewrite <- Hc. lia.
    + split; [|right; left; discriminate].
      repeat split; auto; try discriminate.
      intros now Hn. inversion Hn; subst. eexists. split.
      * apply in_or_app. right. left. reflexivity.
      * right. rewrite <- Hc, <- Hs. lia.
    + split; [|auto].
      repeat split; auto.
      intros now Hn. rewrite (Hm eq_refl) in Hn. discriminate.
  - (* Stopped *)
    do 2 eexists. split; [reflexivity|]. cbn. split; [repeat split; auto|]. auto.
Qed.

Lemma step_fired (e : Event) (s s' : Supervised) (w w' : World) (now : Time) :
  supervised_inv at0 s -> step e s w = (Returned s', w') ->
  firedAt s = Some now -> firedAt s' = Some now.
Proof.
  intros (_ & _ & Hm & _) Hstep Hfired.
  assert (Em : monitoring s = false).
  { destruct (monitoring s); [|reflexivity]. rewrite (Hm eq_refl) in Hfired.
    discriminate. }
  destruct e; cbn [step] in Hstep; try rewrite Em in Hstep; cbn in Hstep;
    inversion Hstep; subst; cbn; auto.
Qed.

Lemma run_fired (es : list Event) (s s' : Supervised) (w w' : World) (now : Time) :
  supervised_inv at0 s -> run es s w = (Returned s', w') ->
  firedAt s = Some now -> firedAt s' = Some now.
Proof.
  revert s w. induction es as [|e es IH]; intros s w Hinv Hrun Hfired; cbn [run] in Hrun.
  - inversion Hrun; subst. exact Hfired.
  - destruct (step_inv e w Hinv) as (s1 & w1 & Hstep & Hinv1 & _).
    unfold bind in Hrun. rewrite Hstep in Hrun.
    apply (IH s1 w1 Hinv1 Hrun).
    eapply step_fired; [exact Hinv | exact Hstep | exact Hfired].
Qed.

Lemma run_inv (es : list Event) (s : Supervised) (w : World) :
  supervised_inv at0 s ->
  exists s' w',
    run es s w = (Returned s', w') /\ supervised_inv at0 s' /\
    (done (tracker s') = true ->
     done (tracker s) = true \/ firedAt s' <> None \/ In Stopped es).
Proof.
  revert s w. induction es as [|e es IH]; intros s w Hinv; cbn [run].
  - do 2 eexists. split; [reflexivity|]. split; [exact Hinv|]. auto.
  - destruct (step_inv e w Hinv) as (s1 & w1 & Hstep & Hinv1 & Hd1).
    destruct (IH s1 w1 Hinv1) as (s2 & w2 & Hrun & Hinv2 & Hd2).
    exists s2, w2. unfold bind. rewrite Hstep, Hrun.
    split; [reflexivity|]. split; [exact Hinv2|].
    intros Hdone. destruct (Hd2 Hdone) as [H|[H|H]].
    + destruct (Hd1 H) as [H'|[H'|H']].
      * now left.
      * right. left. destruct (firedAt s1) as [now|] eqn:Ef; [|congruence].
        erewrite run_fired; [discriminate | exact Hinv1 | exact Hrun | exact Ef].
      * right. right. left. auto.
    + now (right; left).
    + right. right. right. exact H.
Qed.

(** C8. A monitor started on a tracker whose [MaxTotalTimeout] is a
    [Duration], driven by any sequence of passing time, activity, ticks
    and stops: it cancels only at a poll at which one of its two
    predicates held (the idle time, or the total time, measured by
    [Time.Sub], exceeded its limit); if at every poll it made the idle
    time was at most [ActivityTimeout], then a poll at which it cancelled
    lies after [totalStart + MaxTotalTimeout]; and the context is done
    only if it was done from the start, the monitor cancelled, or [Stop]
    was called. *)
Theorem supervisor_boundary (es : list Event) (w : World) :
  Go.in_int (MaxTotalTimeout (config at0)) ->
  exists s w',
    run es (StartMonitoring at0) w = (Returned s, w') /\
    (forall now, firedAt s = Some now ->
                 exists last, In (now, last) (polls s) /\ predicate_holds at0 now last) /\
    ((forall now last, In (now, last) (polls s) ->
                       Time.Sub now last <= ActivityTimeout (config at0)) ->
     forall now, firedAt s = Some now ->
                 now > totalStart at0 + MaxTotalTimeout (config at0)) /\
    (done (tracker s) = true ->
     done at0 = true \/ firedAt s <> None \/ In Stopped es).
Proof.
  intros Hmax.
  assert (Hinv : supervised_inv at0 (StartMonitoring at0)).
  { repeat split; auto. cbn. discriminate. }
  destruct (run_inv es w Hinv) as (s & w' & Hrun & (Hc & Hs & Hm & Hf) & Hd).
  exists s, w'. split; [exact Hrun|]. split; [exact Hf|]. split; [|exact Hd].
  intros Hfresh now Hn. destruct (Hf now Hn) as (last & Hin & [Hidle|Htotal]).
  - specialize (Hfresh now last Hin). lia.
  - pose proof (@Sub_gt _ _ _ Hmax Htotal). lia.
Qed.

End Supervisor.

(** ** Cost analysis *)

Section MetricsFacts.

Lemma Sum_is_float_sum (values : list float) :
  MetricsCalculatorImpl.Sum values = Spec.float_sum values.
Proof.
  unfold MetricsCalculatorImpl.Sum, Spec.float_sum. generalize 0%float.
  induction values as [|v values IH]; intros acc; cbn; [reflexivity | apply IH].
Qed.

(** The loop shared by [Max] and [Min]: keep the running extremum [m],
    replace it by a value that beats it. *)
Lemma fold_extremum (beats : float -> float -> bool) (values seen : list float)
      (m0 : float) :
  (forall a, beats a a = false) ->
  (forall a b c, beats b a = true -> beats c b = true -> beats c a = true) ->
  In m0 seen -> (forall v, In v seen -> beats v m0 = false) ->
  let m := fold_left (fun m value => if beats value m then value else m) values m0 in
  In m (seen ++ values) /\ forall v, In v (seen ++ values) -> beats v m = false.
Proof.
  intros Hirr Htr. revert m0 seen.
  induction values as [|x values IH]; intros m0 seen Hin Hle; cbn.
  - rewrite app_nil_r. auto.
  - replace (seen ++ x :: values) with ((seen ++ [x]) ++ values)
      by (rewrite <- app_assoc; reflexivity).
    destruct (beats x m0) eqn:E; apply IH.
    + apply in_or_app. right. now left.
    + intros v Hv. apply in_app_or in Hv. destruct Hv as [Hv|[<-|[]]]; [|apply Hirr].
      destruct (beats v x) eqn:E'; [|reflexivity].
      pose proof (Htr _ _ _ E E') as C. rewrite (Hle v Hv) in C. discriminate.
    + apply in_or_app. now left.
    + intros v Hv. apply in_app_or in Hv. destruct Hv as [Hv|[<-|[]]]; auto.
Qed.

Lemma Max_spec (values : list float) :
  values <> [] ->
  exists m, MetricsCalculatorImpl.Max values = Some m /\ In m values /\
            forall v, In v values -> Go.fgt v m = false.
Proof.
  destruct values as [|v0 values]; [congruence|]. intros _.
  eexists. split; [reflexivity|]. cbn [fold_left].
  replace (if Go.fgt v0 v0 then v0 else v0) with v0 by (destruct (Go.fgt v0 v0); reflexivity).
  apply (@fold_extremum (fun value max => Go.fgt value max) values [v0] v0).
  - intros a. apply ltb_irrefl.
  - unfold Go.fgt. intros a b c Hab Hbc. exact (ltb_trans Hab Hbc).
  - now left.
  - intros v [<-|[]]. apply ltb_irrefl.
Qed.

Lemma Min_spec (values : list float) :
  values <> [] ->
  exists m, MetricsCalculatorImpl.Min values = Some m /\ In m values /\
            forall v, In v values -> Go.flt v m = false.
Proof.
  destruct values as [|v0 values]; [congruence|]. intros _.
  eexists. split; [reflexivity|]. cbn [fold_left].
  replace (if Go.flt v0 v0 then v0 else v0) with v0 by (destruct (Go.flt v0 v0); reflexivity).
  apply (@fold_extremum (fun value min => Go.flt value min) values [v0] v0).
  - intros a. apply ltb_irrefl.
  - unfold Go.flt. intros a b c Hab Hbc. exact (ltb_trans Hbc Hab).
  - now left.
  - intros v [<-|[]]. apply ltb_irrefl.
Qed.

Lemma totalTokens_is_wrapped_sum (traces : list model.Trace) :
  fold_left (fun acc trace => Go.add acc (model.Trace_CostTokens trace)) traces 0
  = Go.wrap (Spec.int_sum (map model.Trace_CostTokens traces)).
Proof.
  assert (H : forall a,
             fold_left (fun acc trace => Go.add acc (model.Trace_CostTokens trace))
                       traces (Go.wrap a)
             = Go.wrap (a + Spec.int_sum (map model.Trace_CostTokens traces))).
  { unfold Spec.int_sum.
    induction traces as [|t traces IH]; intros a; cbn [fold_left map fold_right].
    - now rewrite Z.add_0_r.
    - unfold Go.add at 2. rewrite wrap_add_wrap, IH. now rewrite Z.add_assoc. }
  exact (H 0).
Qed.

Lemma sorted_app {A : Type} (R : A -> A -> Prop) (l1 l2 : list A) :
  StronglySorted R (l1 ++ l2) ->
  StronglySorted R l1 /\ forall a b, In a l1 -> In b l2 -> R a b.
Proof.
  induction l1 as [|x l1 IH]; cbn; intros Hs.
  - split; [constructor | contradiction].
  - inversion Hs as [|? ? Hs' Hall]; subst. destruct (IH Hs') as [H1 H2].
    rewrite Forall_forall in Hall. split.
    + constructor; [exact H1|]. apply Forall_forall. intros y Hy.
      apply Hall, in_or_app. now left.
    + intros a b [<-|Ha] Hb; [apply Hall, in_or_app; now right | now apply H2].
Qed.

End MetricsFacts.

Section AnalyzeFacts.
Import model CostAnalyzerImpl.

Variable sortSlice : forall A : Type, (A -> A -> bool) -> list A -> list A.

Lemma analyzeTrends_snd (traces : list Trace) :
  snd (analyzeTrends sortSlice traces)
  = sortSlice (fun a b => Time.Before (StartedAt a) (StartedAt b)) traces.
Proof.
  unfold analyzeTrends.
  match goal with |- context [let '(_, _) := ?e in _] => destruct e end.
  reflexivity.
Qed.

Lemma IdentifyHotspots_fst (traces : list Trace) (topN : Z) :
  fst (IdentifyHotspots sortSlice traces topN)
  = map hotspot_of (firstn (Z.to_nat topN) (sortSlice by_cost_desc traces)).
Proof. reflexivity. Qed.

Lemma stepTypeCosts_run (traces : list Trace) (acc : list (string * float)) (w : World) :
  exists r w' calls,
    stepTypeCosts traces acc w = (Returned r, w') /\
    w_calls w' = w_calls w ++ calls /\ Forall is_step_read calls.
Proof.
  revert acc w. induction traces as [|t traces IH]; intros acc w; cbn [stepTypeCosts].
  - exists acc, w, []. rewrite app_nil_r. repeat split. constructor.
  - destruct w as [tr st se ms ck uu fl cl].
    run_M. world_cbn.
    destruct (hd false fl); world_cbn.
    + match goal with |- context [stepTypeCosts traces acc ?w0] =>
        destruct (IH acc w0) as (r & w' & calls & Hrun & Hcalls & Hall) end.
      exists r, w', (CallStepGetByTraceID (Trace_ID t) :: calls).
      split; [exact Hrun|]. cbn in Hcalls. rewrite Hcalls, <- app_assoc.
      split; [reflexivity|]. constructor; [exact I | exact Hall].
    + match goal with |- context [stepTypeCosts traces ?a ?w0] =>
        destruct (IH a w0) as (r & w' & calls & Hrun & Hcalls & Hall) end.
      exists r, w', (CallStepGetByTraceID (Trace_ID t) :: calls).
      split; [exact Hrun|]. cbn in Hcalls. rewrite Hcalls, <- app_assoc.
      split; [reflexivity|]. constructor; [exact I | exact Hall].
Qed.

(** [Analyze] on a session that has traces, without filters, when the
    store answers the first query. *)
Lemma Analyze_run (input : CostAnalysisInput) (w : World) :
  hd false (w_faults w) = false ->
  fetched (In_SessionID input) w <> [] ->
  Filters input = None ->
  let traces := fetched (In_SessionID input) w in
  let costs := map Trace_CostAPI traces in
  let totalTokens := fold_left (fun acc trace => Go.add acc (Trace_CostTokens trace))
                               traces 0 in
  exists mx mn breakdown w' calls,
    MetricsCalculatorImpl.Max costs = Some mx /\
    MetricsCalculatorImpl.Min costs = Some mn /\
    Analyze sortSlice input w
    = (Returned
         (Some {| SessionID := In_SessionID input;
                  Summary :=
                    Some {| TotalCost := MetricsCalculatorImpl.Sum costs;
                            AvgCost := MetricsCalculatorImpl.Avg costs;
                            MaxCost := mx; MinCost := mn;
                            TotalTokens := totalTokens;
                            TraceCount := Go.len traces;
                            CostPerToken :=
                              if totalTokens >? 0
                              then PrimFloat.div (MetricsCalculatorImpl.Sum costs)
                                                 (Go.float64_of_int totalTokens)
                              else 0%float |};
                  Breakdown := Some breakdown;
                  Trends := Some (fst (analyzeTrends sortSlice traces));
                  Hotspots := map hotspot_of (firstn 5 (ranked sortSlice traces));
                  Suggestions := [] |}, None), w') /\
    w_calls w' = w_calls w ++
                 [CallTraceGetBySessionID (In_SessionID input); CallSum costs;
                  CallAvg costs; CallMax costs; CallMin costs] ++ calls /\
    Forall is_step_read calls.
Proof.
  intros Hf Hne Hfil.
  assert (El : (Go.len (fetched (In_SessionID input) w) =? 0) = false).
  { destruct (fetched (In_SessionID input) w); [congruence | reflexivity]. }
  intros traces costs totalTokens.
  assert (Hc : costs <> []).
  { unfold costs. intros E. apply map_eq_nil in E. contradiction. }
  destruct (Max_spec Hc) as (mx & Hmx & _). destruct (Min_spec Hc) as (mn & Hmn & _).
  exists mx, mn.
  destruct w as [tr st se ms ck uu fl cl]. cbn [w_faults] in Hf.
  unfold Analyze, calculateSummary, calculateBreakdown, calculator.Sum, calculator.Avg,
    calculator.Max, calculator.Min, calculator.record.
  run_M. world_cbn. rewrite Hf. world_cbn.
  match goal with
  | |- context [Go.insertion_sort ?f ?l] =>
      change (Go.insertion_sort f l) with traces
  end.
  fold traces in El. clear Hne. clearbody traces. rewrite El, Hfil. fold costs. rewrite Hmx, Hmn. world_cbn.
  match goal with |- context [stepTypeCosts traces [] ?w0] =>
    destruct (stepTypeCosts_run traces [] w0) as (r & w' & calls & Hrun & Hcalls & Hall)
  end.
  rewrite Hrun.
  destruct (analyzeTrends sortSlice traces) as [trends traces1] eqn:Et.
  pose proof (analyzeTrends_snd traces) as Hsnd. rewrite Et in Hsnd. cbn in Hsnd.
  subst traces1.
  destruct (IdentifyHotspots sortSlice _ 5) as [hot traces2] eqn:Eh.
  pose proof (IdentifyHotspots_fst
                (sortSlice (fun a b => Time.Before (StartedAt a) (StartedAt b)) traces) 5)
    as Hfst.
  rewrite Eh in Hfst. cbn [fst] in Hfst. subst hot.
  do 3 eexists. split; [reflexivity|]. split; [reflexivity|].
  split; [reflexivity|].
  cbn in Hcalls. rewrite Hcalls, <- !app_assoc. split; [reflexivity | exact Hall].
Qed.

End AnalyzeFacts.

Section CostAnalysis.
Import model CostAnalyzerImpl.

Variable sortSlice : forall A : Type, (A -> A -> bool) -> list A -> list A.

Lemma impact_of_cases (costAPI : float) :
  (Go.fgt costAPI 1.0 = true -> impact_of costAPI = "high") /\
  (Go.fgt costAPI 1.0 = false -> Go.fgt costAPI 0.1 = true ->
   impact_of costAPI = "medium") /\
  (Go.fgt costAPI 1.0 = false -> Go.fgt costAPI 0.1 = false ->
   impact_of costAPI = "low").
Proof.
  unfold impact_of. repeat split; intros; repeat match goal with
    | H : _ = _ |- _ => rewrite H end; reflexivity.
Qed.

Lemma hotspot_of_fields (l : list Trace) :
  Forall2 (fun t h => Hot_TraceID h = Trace_ID t /\ Hot_Cost h = Trace_CostAPI t /\
                      Hot_Tokens h = Trace_CostTokens t)
          l (map hotspot_of l).
Proof.
  induction l as [|t l IH]; cbn [map]; constructor; [repeat split | exact IH].
Qed.

Lemma by_cost_desc_ordering (traces : list Trace) :
  (forall t, In t traces -> Go.is_nan (Trace_CostAPI t) = false) ->
  Spec.ordering_on by_cost_desc traces.
Proof.
  intros Hnan. unfold by_cost_desc, Go.fgt. repeat split.
  - intros a _. apply ltb_irrefl.
  - intros a b c _ _ _ Hab Hbc. exact (ltb_trans Hbc Hab).
  - intros a b c Ha Hb Hc Hab Hbc.
    exact (ltb_negtrans (Hnan c Hc) (Hnan b Hb) (Hnan a Ha) Hbc Hab).
Qed.

(** C7. [Analyze] on a session that has traces, called without filters
    (as the handler does), with a store that answers the first query, a
    [sort.Slice] that meets its contract and costs that are numbers: it
    returns a result whose summary holds the left-to-right sum of the
    traces' [costAPI], that sum divided by the number of traces, a largest
    and a smallest [costAPI] of the traces, the (64-bit) sum of their
    [costTokens] and the cost per token (zero when there are no tokens);
    and whose hotspots are the first five traces, or all of them when
    there are fewer, of an arrangement of the traces by descending
    [costAPI], each with its trace's identifier, cost and tokens and tagged
    high above 1.0, medium above 0.1 and low otherwise. *)
Theorem cost_analysis_contract (input : CostAnalysisInput) (w : World) :
  Spec.sorts_slices sortSlice ->
  hd false (w_faults w) = false ->
  Filters input = None ->
  fetched (In_SessionID input) w <> [] ->
  (forall t, In t (fetched (In_SessionID input) w) ->
             Go.is_nan (Trace_CostAPI t) = false) ->
  let traces := fetched (In_SessionID input) w in
  let costs := map Trace_CostAPI traces in
  exists result summary w',
    Analyze sortSlice input w = (Returned (Some result, None), w') /\
    Summary result = Some summary /\
    TotalCost summary = Spec.float_sum costs /\
    TraceCount summary = Go.len traces /\
    AvgCost summary = PrimFloat.div (TotalCost summary)
                                    (Go.float64_of_int (TraceCount summary)) /\
    (In (MaxCost summary) costs /\ forall c, In c costs -> Go.fgt c (MaxCost summary) = false) /\
    (In (MinCost summary) costs /\ forall c, In c costs -> Go.flt c (MinCost summary) = false) /\
    TotalTokens summary = Go.wrap (Spec.int_sum (map Trace_CostTokens traces)) /\
    CostPerToken summary =
      (if TotalTokens summary >? 0
       then PrimFloat.div (TotalCost summary) (Go.float64_of_int (TotalTokens summary))
       else 0%float) /\
    exists top rest,
      Permutation traces (top ++ rest) /\
      List.length top = Nat.min 5 (List.length traces) /\
      StronglySorted (fun a b => Go.fgt (Trace_CostAPI b) (Trace_CostAPI a) = false) top /\
      (forall a b, In a top -> In b rest ->
                   Go.fgt (Trace_CostAPI b) (Trace_CostAPI a) = false) /\
      Forall2 (fun t h => Hot_TraceID h = Trace_ID t /\ Hot_Cost h = Trace_CostAPI t /\
                          Hot_Tokens h = Trace_CostTokens t)
              top (Hotspots result) /\
      (forall h, In h (Hotspots result) ->
         (Go.fgt (Hot_Cost h) 1.0 = true -> Impact h = "high") /\
         (Go.fgt (Hot_Cost h) 1.0 = false -> Go.fgt (Hot_Cost h) 0.1 = true ->
          Impact h = "medium") /\
         (Go.fgt (Hot_Cost h) 1.0 = false -> Go.fgt (Hot_Cost h) 0.1 = false ->
          Impact h = "low")).
Proof.
  intros Hsort Hf Hfil Hne Hnan traces costs.
  destruct (@Analyze_run sortSlice input w Hf Hne Hfil)
    as (mx & mn & breakdown & w' & calls & Hmx & Hmn & Hrun & _).
  fold traces in Hmx, Hmn, Hrun. fold costs in Hmx, Hmn, Hrun.
  assert (Hc : costs <> []).
  { unfold costs. intros E. apply map_eq_nil in E. contradiction. }
  destruct (Max_spec Hc) as (mx' & Hmx' & Hmxin & Hmxle).
  destruct (Min_spec Hc) as (mn' & Hmn' & Hmnin & Hmnle).
  rewrite Hmx in Hmx'. rewrite Hmn in Hmn'. inversion Hmx'; inversion Hmn'; subst mx' mn'.
  do 3 eexists. split; [exact Hrun|]. cbn [Summary Hotspots TotalCost AvgCost MaxCost
    MinCost TotalTokens TraceCount CostPerToken].
  split; [reflexivity|].
  split; [apply Sum_is_float_sum|].
  split; [reflexivity|].
  split; [unfold MetricsCalculatorImpl.Avg, costs, Go.len; now rewrite length_map|].
  split; [split; assumption|]. split; [split; assumption|].
  split; [apply totalTokens_is_wrapped_sum|].
  split; [reflexivity|].
  (* hotspots *)
  set (byStart := sortSlice (fun a b => Time.Before (StartedAt a) (StartedAt b)) traces).
  assert (Hp1 : Permutation traces byStart) by apply Hsort.
  assert (Hp2 : Permutation byStart (ranked sortSlice traces)) by apply Hsort.
  assert (Hsorted : StronglySorted (fun a b => by_cost_desc b a = false)
                                   (ranked sortSlice traces)).
  { apply Hsort. apply by_cost_desc_ordering. intros t Ht. apply Hnan.
    eapply Permutation_in; [symmetry; exact Hp1 | exact Ht]. }
  exists (firstn 5 (ranked sortSlice traces)), (skipn 5 (ranked sortSlice traces)).
  rewrite firstn_skipn.
  split; [etransitivity; eassumption|].
  split.
  { rewrite length_firstn. f_equal. symmetry.
    apply Permutation_length. etransitivity; eassumption. }
  rewrite <- (firstn_skipn 5 (ranked sortSlice traces)) in Hsorted.
  apply sorted_app in Hsorted. destruct Hsorted as [Htop Hrest].
  split; [exact Htop|]. split; [exact Hrest|].
  split.
  - apply hotspot_of_fields.
  - intros h Hh. apply in_map_iff in Hh. destruct Hh as (t & <- & _).
    apply impact_of_cases.
Qed.

(** [Max] and [Min] read [values[0]]: on an empty list they panic. *)
Lemma Max_Min_partial (w : World) :
  MetricsCalculatorImpl.Max [] = None /\ MetricsCalculatorImpl.Min [] = None /\
  fst (calculator.Max [] w) = Panicked calculator.index_out_of_range /\
  fst (calculator.Min [] w) = Panicked calculator.index_out_of_range.
Proof. repeat split. Qed.

(** With filter criteria set, the stub [FilterTraces] empties the slice
    and [calculateSummary] panics in [Max]. *)
Lemma Analyze_with_filters_panics :
  fst (Analyze sortSlice
         {| In_SessionID := "sid"; In_TimeRange := None; GroupBy := [];
            Filters := Some Scenario.some_filters |}
         Scenario.world_with_traces)
  = Panicked calculator.index_out_of_range.
Proof. vm_compute. reflexivity. Qed.

(** C10. For a session without traces, [Analyze] -- when the store
    answers the query -- returns the result whose summary is all zero, no
    error, and has called nothing but the query; the handler of
    GET /analysis/cost never panics and never hands an empty list to [Max]
    or [Min], whatever the store holds and however it fails; and the input
    the handler builds carries no filter criteria. *)
Theorem cost_analysis_reads_no_empty_list :
  (forall (input : CostAnalysisInput) (w : World),
      hd false (w_faults w) = false ->
      fetched (In_SessionID input) w = [] ->
      exists w',
        Analyze sortSlice input w
        = (Returned (Some {| SessionID := In_SessionID input;
                             Summary := Some CostSummary_zero; Breakdown := None;
                             Trends := None; Hotspots := []; Suggestions := [] |},
                     None), w') /\
        w_calls w' = w_calls w ++ [CallTraceGetBySessionID (In_SessionID input)]) /\
  (forall (sessionID startTime endTime : string) (w : World),
      exists out w' calls,
        AnalysisHandler.AnalyzeCost sortSlice sessionID startTime endTime w
        = (Returned out, w') /\
        w_calls w' = w_calls w ++ calls /\
        forall values, In (CallMax values) calls \/ In (CallMin values) calls ->
                       values <> []) /\
  (forall sessionID startTime endTime : string,
      Filters (AnalysisHandler.analysisInput sessionID startTime endTime) = None).
Proof.
  split; [|split; [|reflexivity]].
  - intros input w Hf He. destruct w as [tr st se ms ck uu fl cl].
    unfold fetched in He. cbn [w_faults w_traces] in Hf, He.
    unfold Analyze. run_M. world_cbn. rewrite Hf. world_cbn. rewrite He. cbn.
    eexists. split; reflexivity.
  - intros sessionID startTime endTime w.
    unfold AnalysisHandler.AnalyzeCost.
    destruct (String.eqb sessionID "").
    { exists (400, None), w, []. rewrite app_nil_r.
      repeat split. intros values [[]|[]]. }
    set (input := AnalysisHandler.analysisInput sessionID startTime endTime).
    destruct (hd false (w_faults w)) eqn:Hf.
    { destruct w as [tr st se ms ck uu fl cl]. cbn [w_faults] in Hf.
      unfold Analyze. run_M. world_cbn. rewrite Hf. cbn.
      do 3 eexists. split; [reflexivity|]. split; [reflexivity|].
      intros values [[H|[]]|[H|[]]]; discriminate. }
    destruct (fetched (In_SessionID input) w) eqn:He.
    { destruct w as [tr st se ms ck uu fl cl].
      unfold fetched in He. cbn [w_faults w_traces] in Hf, He.
      unfold Analyze. run_M. world_cbn. rewrite Hf. world_cbn. rewrite He. cbn.
      do 3 eexists. split; [reflexivity|]. split; [reflexivity|].
      intros values [[H|[]]|[H|[]]]; discriminate. }
    assert (Hne : fetched (In_SessionID input) w <> []) by (rewrite He; discriminate).
    destruct (@Analyze_run sortSlice input w Hf Hne eq_refl)
      as (mx & mn & breakdown & w' & calls & _ & _ & Hrun & Hcalls & Hall).
    unfold bind. rewrite Hrun. cbn.
    do 3 eexists. split; [reflexivity|]. split; [exact Hcalls|].
    assert (Hc : map Trace_CostAPI (fetched (In_SessionID input) w) <> [])
      by (rewrite He; discriminate).
    rewrite Forall_forall in Hall.
    intros values [H|H]; cbn in H;
      repeat (destruct H as [H|H]; [try discriminate|]);
      try (inversion H; subst; exact Hc);
      try (apply Hall in H; contradiction).
Qed.

End CostAnalysis.

(** The three traces of S6, analysed with the insertion sort. *)
Lemma cost_analysis_contract_witness :
  exists result summary w',
    CostAnalyzerImpl.Analyze (@Go.insertion_sort)
      (AnalysisHandler.analysisInput "sid" "" "") Scenario.world_with_traces
    = (Returned (Some result, None), w') /\
    CostAnalyzerImpl.Summary result = Some summary /\
    CostAnalyzerImpl.TotalCost summary = 1.75%float /\
    CostAnalyzerImpl.MaxCost summary = 1.5%float /\
    CostAnalyzerImpl.MinCost summary = 0.05%float /\
    CostAnalyzerImpl.TotalTokens summary = 600 /\
    map CostAnalyzerImpl.Impact (CostAnalyzerImpl.Hotspots result)
    = ["high"; "medium"; "low"].
Proof.
  destruct (@cost_analysis_contract (@Go.insertion_sort)
              (AnalysisHandler.analysisInput "sid" "" "") Scenario.world_with_traces
              insertion_sort_sorts_slices eq_refl eq_refl)
    as (result & summary & w' & Hrun & Hsum & _).
  - vm_compute. discriminate.
  - intros t Ht. vm_compute in Ht.
    destruct Ht as [<-|[<-|[<-|[]]]]; vm_compute; reflexivity.
  - exists result, summary, w'. split; [exact Hrun|]. split; [exact Hsum|].
    assert (E : fst (CostAnalyzerImpl.Analyze (@Go.insertion_sort)
                       (AnalysisHandler.analysisInput "sid" "" "")
                       Scenario.world_with_traces)
                = Returned (Some result, None)) by (rewrite Hrun; reflexivity).
    vm_compute in E. inversion E; subst result. cbn in Hsum. inversion Hsum; subst summary.
    repeat split; vm_compute; reflexivity.
Defined.

(** A session of another name has no trace in the store of S6. *)
Lemma cost_analysis_reads_no_empty_list_witness :
  exists w',
    CostAnalyzerImpl.Analyze (@Go.insertion_sort)
      (AnalysisHandler.analysisInput "nobody" "" "") Scenario.world_with_traces
    = (Returned (Some {| CostAnalyzerImpl.SessionID := "nobody";
                         CostAnalyzerImpl.Summary := Some CostAnalyzerImpl.CostSummary_zero;
                         CostAnalyzerImpl.Breakdown := None;
                         CostAnalyzerImpl.Trends := None;
                         CostAnalyzerImpl.Hotspots := [];
                         CostAnalyzerImpl.Suggestions := [] |}, None), w') /\
    w_calls w' = [CallTraceGetBySessionID "nobody"].
Proof.
  exact (proj1 (cost_analysis_reads_no_empty_list (@Go.insertion_sort))
               (AnalysisHandler.analysisInput "nobody" "" "")
               Scenario.world_with_traces eq_refl eq_refl).
Defined.

(** A stream that delivers a chunk every 20 s: after 91 chunks the monitor
    cancels, at 1820 s, past the 1800 s of [MaxTotalTimeout]. *)
Lemma supervisor_boundary_witness :
  exists s w',
    ActivityTracker.run Scenario.steady_stream
      (ActivityTracker.StartMonitoring Scenario.tracker) Scenario.world
    = (Returned s, w') /\
    (forall now last, In (now, last) (ActivityTracker.polls s) ->
                      Time.Sub now last <= 30 * Time.Second) /\
    ActivityTracker.firedAt s = Some (1000 + 1820 * Time.Second) /\
    1000 + 1820 * Time.Second > 1000 + 30 * Time.Minute.
Proof.
  destruct (@supervisor_boundary Scenario.tracker Scenario.steady_stream Scenario.world)
    as (s & w' & Hrun & _ & Hbound & _).
  - vm_compute. split; discriminate.
  - assert (E : fst (ActivityTracker.run Scenario.steady_stream
                       (ActivityTracker.StartMonitoring Scenario.tracker) Scenario.world)
                = Returned s) by (rewrite Hrun; reflexivity).
    assert (Hfresh : forall now last, In (now, last) (ActivityTracker.polls s) ->
                                      Time.Sub now last <= 30 * Time.Second).
    { vm_compute in E. inversion E; subst s. clear.
      intros now last Hin.
      assert (Hall : forallb (fun p => Time.Sub (fst p) (snd p) <=? 30 * Time.Second)
                       (ActivityTracker.polls
                          match fst (ActivityTracker.run Scenario.steady_stream
                                       (ActivityTracker.StartMonitoring Scenario.tracker)
                                       Scenario.world) with
                          | Returned s => s
                          | Panicked _ => ActivityTracker.StartMonitoring Scenario.tracker
                          end) = true) by (vm_compute; reflexivity).
      rewrite forallb_forall in Hall. specialize (Hall (now, last)).
      apply Z.leb_le. apply Hall. vm_compute. exact Hin. }
    exists s, w'. split; [exact Hrun|]. split; [exact Hfresh|].
    assert (Hfired : ActivityTracker.firedAt s = Some (1000 + 1820 * Time.Second)).
    { vm_compute in E. inversion E; subst s. vm_compute. reflexivity. }
    split; [exact Hfired|].
    exact (Hbound Hfresh _ Hfired).
Defined.

(** ** The call log of a computation *)

Section Emits.
Variable P : Call -> Prop.

Lemma emits_silent {A : Type} (c : M A) :
  (forall w, w_calls (snd (c w)) = w_calls w) -> emits P c.
Proof.
  intros H w. exists []. rewrite app_nil_r. split; [apply H | constructor].
Qed.

Lemma emits_ret {A : Type} (a : A) : emits P (ret a).
Proof. now apply emits_silent. Qed.

Lemma emits_panic {A : Type} (msg : string) : emits P (@panic A msg).
Proof. now apply emits_silent. Qed.

Lemma emits_get : emits P get.
Proof. now apply emits_silent. Qed.

Lemma emits_time_Now : emits P time_Now.
Proof. now apply emits_silent. Qed.

Lemma emits_uuid_New : emits P uuid_New.
Proof. now apply emits_silent. Qed.

Lemma emits_modify (f : World -> World) :
  (forall w, w_calls (f w) = w_calls w) -> emits P (modify f).
Proof. intros H. apply emits_silent. exact H. Qed.

Lemma emits_issue (c : Call) : P c -> emits P (issue c).
Proof.
  intros H w. exists [c]. split; [reflexivity | now constructor].
Qed.

Lemma emits_record (c : Call) : P c -> emits P (calculator.record c).
Proof.
  intros H w. exists [c]. split; [reflexivity | now constructor].
Qed.

Lemma emits_bind {A B : Type} (c : M A) (k : A -> M B) :
  emits P c -> (forall a, emits P (k a)) -> emits P (bind c k).
Proof.
  intros Hc Hk w. unfold bind. destruct (Hc w) as (l1 & H1 & F1).
  destruct (c w) as [[a|msg] w1]; cbn [snd] in *.
  - destruct (Hk a w1) as (l2 & H2 & F2). exists (l1 ++ l2).
    rewrite H2, H1, app_assoc. split; [reflexivity | now apply Forall_app].
  - exists l1. now split.
Qed.
End Emits.

Ltac emits_unfold :=
progress cbv beta delta
  [Tracer.StartTrace Tracer.RecordStep Tracer.getNextSequence Tracer.RecordSnapshot
   Tracer.EndTrace TraceRepository.Create TraceRepository.UpdateStatus
   TraceRepository.UpdateCost TraceRepository.GetBySessionID
   StepRepository.Create StepRepository.GetByTraceID
   SessionService.Get SessionService.UpdateBudget SessionRepository.Get
   SessionRepository.UpdateBudget MessageService.SaveMessage MessageRepository.Create
   ActivityTracker.NewActivityTracker ActivityTracker.UpdateActivity
   ActivityTracker.shouldTimeout client.elapse
   LLMHandler.recordPreSnapshot LLMHandler.recordPostSnapshot LLMHandler.callback
   LLMHandler.errorMessageOf].

Ltac emits_step :=
lazymatch goal with
| |- emits _ (bind _ _) => apply emits_bind; [|intros]
| |- emits _ (ret _) => apply emits_ret
| |- emits _ (panic _) => apply emits_panic
| |- emits _ get => apply emits_get
| |- emits _ time_Now => apply emits_time_Now
| |- emits _ uuid_New => apply emits_uuid_New
| |- emits _ (modify _) => apply emits_modify; intros; reflexivity
| |- emits _ (issue _) => apply emits_issue; exact I
| |- emits _ (if ?b then _ else _) => destruct b
| |- emits _ (match ?x with _ => _ end) => destruct x
| |- emits _ _ => first [emits_unfold | progress cbv beta zeta]
end.

Ltac emits_auto := repeat emits_step.

Section NeverFailed.
Import model.

Lemma emits_convertMessages (sessionID : string) (msgs : list LLMHandler.MessageRequest) :
  emits not_a_failure (LLMHandler.convertMessages sessionID msgs).
Proof.
  induction msgs as [|m msgs IH]; cbn [LLMHandler.convertMessages]; emits_auto.
  exact IH.
Qed.

Lemma emits_callback (trace : option Trace) (messages : list Message)
      (chunk : client.StreamChunk) (s : LLMHandler.Locals) :
  emits not_a_failure (LLMHandler.callback trace messages chunk s).
Proof. emits_auto. Qed.

Lemma emits_recvLoop (S : Type) (callback : client.StreamChunk -> S -> M (S * Go.error))
      (script : list client.Recv) (s : S) :
  (forall chunk s, emits not_a_failure (callback chunk s)) ->
  emits not_a_failure (client.recvLoop callback script s).
Proof.
  intros Hcb. revert s.
  induction script as [|r script IH]; intros s; cbn [client.recvLoop]; emits_auto.
  - apply Hcb.
  - apply IH.
Qed.

(** Whatever the request, the store and the upstream do, [ChatStream]
    never issues the statement that closes a trace as failed. *)
Lemma ChatStream_never_fails_a_trace (cfg : LLMService.Config) (up : client.Upstream)
        (r : LLMHandler.Request) :
  emits not_a_failure (LLMHandler.ChatStream cfg up r).
Proof.
  unfold LLMHandler.ChatStream. emits_auto.
  all: try apply emits_convertMessages.
  all: unfold client.ExecuteAgentStream; emits_auto.
  all: try (apply emits_recvLoop; intros; apply emits_callback).
Qed.
End NeverFailed.

(** ** Streaming turn *)

Section StreamingTurn.
Import model.

(** Every error [ExecuteAgentStream] returns is one it built itself: it
    is never the bare [context.Canceled], so the branch of [ChatStream]
    that derives the message from the supervisor is never entered. *)
Lemma ExecuteAgentStream_error_is_wrapped
      (S : Type) (callback : client.StreamChunk -> S -> M (S * Go.error))
      (up : client.Upstream) (req : LLMRequest) (s s' : S) (w w' : World)
      (e : Go.error_value) :
  client.ExecuteAgentStream callback up req s w = (Returned (s', Some e), w') ->
  Go.is_context_Canceled e = false.
Proof.
  unfold client.ExecuteAgentStream, client.getConnection.
  destruct (client.closed up); [intros H; inversion H; reflexivity|].
  destruct (client.conn_nil up); [intros H; inversion H; reflexivity|].
  destruct (client.stream_open up); [intros H; inversion H; reflexivity|].
  generalize (client.script up). intros script. revert s w.
  induction script as [|r script IH]; intros s w; cbn [client.recvLoop].
  - intros H; inversion H.
  - destruct r as [after m| |after e0].
    + unfold bind, client.elapse, modify. cbn.
      destruct (callback (client.toChunk m) s _) as [[[s1 [e1|]]|msg] w1].
      * intros H; inversion H; reflexivity.
      * destruct (_ || _); [intros H; inversion H | apply IH].
      * intros H; inversion H.
    + intros H; inversion H.
    + unfold bind, client.elapse, modify. cbn.
      destruct e0 as [| | |code desc| |]; cbn;
        try (intros H; inversion H; reflexivity).
      destruct code; cbn; intros H; inversion H; reflexivity.
Qed.

(** C1. The streaming turn in which the back-end sends one delta and
    then an [error] chunk: the client receives the delta, the error event
    with the back-end's text, and then [{"type":"done"}]; the trace is
    closed as completed. The turn does not end the way the spec
    requires (error event, no done event, trace failed). *)
Theorem stream_error_chunk_ends_as_success :
  let run := LLMHandler.ChatStream Scenario.cfg
               (Scenario.upstream Scenario.error_chunk_script)
               Scenario.request Scenario.world in
  exists rw,
    fst run = Returned rw /\
    LLMHandler.events rw
    = [JObj [("content", JStr "He"); ("type", JStr "content_delta")];
       JObj [("error", JStr "boom"); ("type", JStr "error")];
       JObj [("type", JStr "done")]] /\
    Spec.trace_status (uuid_of 0) (snd run) = Some TraceStatusCompleted /\
    ~ Spec.abnormal_end_reported (uuid_of 0) (LLMHandler.events rw) (snd run).
Proof.
  cbv zeta. eexists. split; [vm_compute; reflexivity|].
  split; [vm_compute; reflexivity|].
  assert (E : Spec.trace_status (uuid_of 0)
                (snd (LLMHandler.ChatStream Scenario.cfg
                        (Scenario.upstream Scenario.error_chunk_script)
                        Scenario.request Scenario.world))
              = Some TraceStatusCompleted) by (vm_compute; reflexivity).
  split; [exact E|].
  intros (_ & _ & Hfailed). rewrite E in Hfailed. discriminate.
Qed.

(** The supervisor (or the client) cancels after one delta: [Recv]
    reports code [Canceled], the client returns nil, and the turn ends
    with [done] and a completed trace, without any [error] event. *)
Lemma stream_cancelled_ends_as_success :
  let run := LLMHandler.ChatStream Scenario.cfg
               (Scenario.upstream Scenario.cancelled_script)
               Scenario.request Scenario.world in
  exists rw,
    fst run = Returned rw /\
    map LLMHandler.event_type (LLMHandler.events rw)
    = [Some "content_delta"; Some "done"] /\
    Spec.trace_status (uuid_of 0) (snd run) = Some TraceStatusCompleted.
Proof.
  cbv zeta. eexists. split; [vm_compute; reflexivity|].
  split; vm_compute; reflexivity.
Qed.

(** The stream breaks after one delta: the client receives an [error]
    event carrying the text of the error and no [done]; the trace is left
    running. *)
Lemma stream_error_leaves_trace_running :
  let run := LLMHandler.ChatStream Scenario.cfg
               (Scenario.upstream Scenario.broken_script)
               Scenario.request Scenario.world in
  exists rw,
    fst run = Returned rw /\
    LLMHandler.events rw
    = [JObj [("content", JStr "He"); ("type", JStr "content_delta")];
       JObj [("error", JStr "stream error: rpc error: transport is closing");
             ("type", JStr "error")]] /\
    Spec.trace_status (uuid_of 0) (snd run) = Some TraceStatusRunning.
Proof.
  cbv zeta. eexists. split; [vm_compute; reflexivity|].
  split; vm_compute; reflexivity.
Qed.

(** The unary handler does close the trace as failed when the back-end
    fails. *)
Lemma unary_error_fails_trace :
  let up := {| client.closed := false; client.conn_nil := false;
               client.unary := (0, inr (Go.status_Error Go.CodeUnavailable "down"));
               client.stream_open := None; client.script := [] |} in
  let run := LLMHandler.Chat Scenario.cfg up Scenario.request Scenario.world in
  exists rw,
    fst run = Returned rw /\ LLMHandler.status rw = Some 500 /\
    Spec.trace_status (uuid_of 0) (snd run) = Some TraceStatusFailed.
Proof.
  cbv zeta. eexists. split; [vm_compute; reflexivity|].
  split; vm_compute; reflexivity.
Qed.

End StreamingTurn.

(** ** Omitted model configuration *)

Section OmittedConfig.
Import model.

Lemma buildConfig_omitted (req : LLMHandler.ChatRequest) :
  LLMHandler.CR_Provider req = "" -> LLMHandler.CR_Model req = "" ->
  LLMHandler.buildConfig req = (None, None).
Proof.
  intros Hp Hm. unfold LLMHandler.buildConfig. rewrite Hp, Hm. reflexivity.
Qed.

(** With a trace open, the snapshot block reads through the nil
    configuration. *)
Lemma recordPreSnapshot_nil_config (trace : Trace) (sessionID : string)
      (messages : list Message) (w : World) :
  LLMHandler.recordPreSnapshot (Some trace) None sessionID messages w
  = (Panicked LLMHandler.nil_dereference, w).
Proof. reflexivity. Qed.

(** The configuration the service uses for a nil request configuration:
    the defaults 0.7 and 2000, with the configured default provider (its
    name mapped by [getProviderFromType]) -- the provider is then never
    empty, and never inferred from the model name. *)
Lemma getEffectiveLLMConfig_nil (c : LLMService.Config) :
  let k := LLMService.getEffectiveLLMConfig c None in
  Temperature k = 0.7%float /\ MaxTokens k = 2000 /\
  Provider k = LLMService.getProviderFromType (LLMService.DefaultProvider c) /\
  Provider k <> "".
Proof.
  cbv zeta.
  assert (Hp : Provider (LLMService.GetDefaultConfig c)
               = LLMService.getProviderFromType (LLMService.DefaultProvider c)).
  { unfold LLMService.GetDefaultConfig.
    destruct (LLMService.getProviderCredentials _ _). reflexivity. }
  assert (Ht : Temperature (LLMService.GetDefaultConfig c) = 0.7%float /\
               MaxTokens (LLMService.GetDefaultConfig c) = 2000).
  { unfold LLMService.GetDefaultConfig.
    destruct (LLMService.getProviderCredentials _ _). split; reflexivity. }
  assert (Hne : LLMService.getProviderFromType (LLMService.DefaultProvider c) <> "").
  { unfold LLMService.getProviderFromType.
    repeat match goal with |- context [if ?b then _ else _] => destruct b end;
      discriminate. }
  assert (He : String.eqb (Provider (LLMService.GetDefaultConfig c)) "" = false).
  { rewrite Hp. now apply String.eqb_neq. }
  unfold LLMService.getEffectiveLLMConfig. rewrite He.
  destruct (String.eqb (APIKey (LLMService.GetDefaultConfig c)) "");
    [destruct (LLMService.GetProviderConfig c _)|];
    cbn [LLMService.set_APIKey Temperature MaxTokens Provider];
    rewrite ?Hp; intuition.
Qed.

(** C5. The request {"messages":[{"role":"user","content":"hi"}]} --
    well-formed, neither provider nor model -- on a working store with the
    session present: both handlers panic with a nil pointer dereference
    while building the pre_llm snapshot state; no response is produced and
    the trace opened for the turn is left running. *)
Theorem omitted_config_panics :
  LLMHandler.Chat Scenario.cfg (Scenario.upstream []) Scenario.request_without_config
                  Scenario.world
  = (Panicked LLMHandler.nil_dereference,
     snd (LLMHandler.Chat Scenario.cfg (Scenario.upstream [])
                          Scenario.request_without_config Scenario.world)) /\
  LLMHandler.ChatStream Scenario.cfg (Scenario.upstream [])
                        Scenario.request_without_config Scenario.world
  = (Panicked LLMHandler.nil_dereference,
     snd (LLMHandler.ChatStream Scenario.cfg (Scenario.upstream [])
                                Scenario.request_without_config Scenario.world)) /\
  Spec.trace_status (uuid_of 0)
    (snd (LLMHandler.Chat Scenario.cfg (Scenario.upstream [])
                          Scenario.request_without_config Scenario.world))
  = Some TraceStatusRunning.
Proof.
  repeat split; vm_compute; reflexivity.
Qed.

End OmittedConfig.

(** * Further properties of the code *)

(** ** LLM service: the effective configuration *)

Section EffectiveConfig.
Import model LLMService.

Ltac cfg_simpl :=
  cbn [Provider APIKey Model BaseURL Temperature MaxTokens set_Provider set_APIKey
       set_Model set_BaseURL set_Temperature set_MaxTokens negb fst snd].

Ltac cfg_simpl_all :=
  cbn [Provider APIKey Model BaseURL Temperature MaxTokens set_Provider set_APIKey
       set_Model set_BaseURL set_Temperature set_MaxTokens negb fst snd] in *.

Ltac no_branch t :=
  lazymatch t with
  | context [if _ then _ else _] => fail
  | context [match GetProviderConfig _ _ with _ => _ end] => fail
  | _ => idtac
  end.

Ltac cfg_break :=
  match goal with
  | |- context [match GetProviderConfig ?c ?p with _ => _ end] =>
      no_branch p; destruct (GetProviderConfig c p) eqn:?
  | |- context [let '(_, _) := getProviderCredentials ?p ?pc in _] =>
      no_branch p; destruct (getProviderCredentials p pc) eqn:?
  | |- context [if negb ?b then _ else _] => no_branch b; destruct b eqn:?
  | |- context [if ?b then _ else _] => no_branch b; destruct b eqn:?
  end.

Ltac cfg_tidy :=
  repeat match goal with
         | H : negb _ = true |- _ => apply negb_true_iff in H
         | H : negb _ = false |- _ => apply negb_false_iff in H
         end;
  try discriminate; eqb_to_prop.

Lemma getProviderFromType_known (p : string) : getProviderFromType p <> "".
Proof.
  unfold getProviderFromType.
  repeat match goal with
         | |- context [if ?b then _ else _] => destruct b
         end; discriminate.
Qed.

Lemma GetDefaultConfig_fields (c : Config) :
  Provider (GetDefaultConfig c) = getProviderFromType (DefaultProvider c) /\
  Model (GetDefaultConfig c) = getDefaultModelForProvider c (DefaultProvider c) /\
  Temperature (GetDefaultConfig c) = 0.7%float /\
  MaxTokens (GetDefaultConfig c) = 2000.
Proof.
  unfold GetDefaultConfig.
  destruct (getProviderCredentials _ _). repeat split.
Qed.

Lemma effective_Provider (c : Config) (u : option LLMConfig) :
  Provider (getEffectiveLLMConfig c u)
  = match u with
    | Some u' => if String.eqb (Provider u') "" then getProviderFromType (DefaultProvider c)
                 else Provider u'
    | None => getProviderFromType (DefaultProvider c)
    end.
Proof.
  destruct (GetDefaultConfig_fields c) as (Hd & _).
  pose proof (@getProviderFromType_known (DefaultProvider c)) as Hk.
  unfold getEffectiveLLMConfig. cbv zeta.
  destruct u as [u|]; repeat (cfg_simpl; rewrite ?Hd; cfg_break).
  all: cfg_simpl; cfg_tidy; rewrite ?Hd in *; try congruence.
Qed.

Lemma effective_fields (c : Config) (u : LLMConfig) :
  let k := getEffectiveLLMConfig c (Some u) in
  Model k = (if String.eqb (Model u) "" then getDefaultModelForProvider c (DefaultProvider c)
             else Model u) /\
  Temperature k = (if Go.fgt (Temperature u) 0 then Temperature u else 0.7%float) /\
  MaxTokens k = (if MaxTokens u >? 0 then MaxTokens u else 2000).
Proof.
  destruct (GetDefaultConfig_fields c) as (Hd & Hm & Ht & Hx).
  cbv zeta. unfold getEffectiveLLMConfig.
  repeat (cfg_simpl; cfg_break).
  all: cfg_simpl; cfg_tidy; rewrite ?Hm, ?Ht, ?Hx; repeat split; congruence.
Qed.

(** X1. The provider of the effective configuration is the one the
    caller names; when the caller names none it is the configured default
    provider (openai when the default is not one of the six known
    providers). It is never empty, so the branch of [getEffectiveLLMConfig]
    that infers the provider from the model name is never taken. *)
Theorem effective_provider_is_named_or_default (c : Config) (u : option LLMConfig) :
  Provider (getEffectiveLLMConfig c u)
  = match u with
    | Some u' => if String.eqb (Provider u') "" then getProviderFromType (DefaultProvider c)
                 else Provider u'
    | None => getProviderFromType (DefaultProvider c)
    end
  /\ Provider (getEffectiveLLMConfig c u) <> "".
Proof.
  split; [apply effective_Provider|]. rewrite effective_Provider.
  destruct u as [u|]; [|apply getProviderFromType_known].
  destruct (String.eqb_spec (Provider u) ""); [apply getProviderFromType_known | assumption].
Qed.

Lemma int32_small (n : Z) : - 2 ^ 31 <= n < 2 ^ 31 -> client.int32 n = n.
Proof. unfold client.int32. intros H. rewrite Z.mod_small; lia. Qed.

(** X2. What goes on the wire for a configuration that [ValidateConfig]
    accepts: the session, provider, model and max_tokens of the caller
    unchanged, and the caller's temperature when it is positive. A
    temperature of 0 (valid, and what an absent temperature reads as) is
    replaced by 0.7. *)
Theorem validated_request_on_the_wire (c : Config) (sessionID : string)
        (messages : list Message) (k : LLMConfig) :
  ValidateConfig k = None ->
  let req := client.toProto (buildRequest c sessionID messages (Some k)) in
  client.R_SessionId req = sessionID /\
  client.R_Messages req = map (fun m => (Role m, Content m)) messages /\
  client.R_Provider req = Provider k /\
  client.R_Model req = Model k /\
  client.R_MaxTokens req = MaxTokens k /\
  client.R_Temperature req
  = (if Go.fgt (Temperature k) 0 then Temperature k else 0.7%float).
Proof.
  intros Hv. cbv zeta.
  unfold ValidateConfig in Hv.
  destruct (String.eqb_spec (Provider k) "") as [|Hp]; [discriminate|].
  destruct (String.eqb_spec (Model k) "") as [|Hm]; [discriminate|].
  destruct (Go.flt (Temperature k) 0 || Go.fgt (Temperature k) 2); [discriminate|].
  destruct ((MaxTokens k <=? 0) || (MaxTokens k >? 32000)) eqn:Hx; [discriminate|].
  apply orb_false_iff in Hx. destruct Hx as [Hlo Hhi].
  apply Z.leb_gt in Hlo. rewrite Z.gtb_ltb, Z.ltb_ge in Hhi.
  unfold buildRequest, client.toProto.
  cbn [Req_SessionID Req_Messages Req_Provider Req_Model Req_Temperature Req_MaxTokens
       client.R_SessionId client.R_Messages client.R_Provider client.R_Model
       client.R_MaxTokens client.R_Temperature].
  destruct (effective_fields c k) as (Em & Et & Ex). cbv zeta in Em, Et, Ex.
  rewrite effective_Provider, Em, Et, Ex.
  apply String.eqb_neq in Hp, Hm. rewrite Hp, Hm.
  assert (Hpos : (MaxTokens k >? 0) = true) by (apply Z.gtb_lt; lia).
  rewrite Hpos, Hpos.
  repeat split.
  - apply int32_small. lia.
  - destruct (Go.fgt (Temperature k) 0) eqn:E; [rewrite E; reflexivity|].
    reflexivity.
Qed.

(** A request for temperature 0 leaves with temperature 0.7. *)
Lemma validated_request_on_the_wire_witness :
  LLMService.ValidateConfig Examples.cold_config = None /\
  client.R_Temperature
    (client.toProto (buildRequest Examples.cfg_with_keys "sid" [] (Some Examples.cold_config)))
  = 0.7%float.
Proof.
  split; [reflexivity|].
  destruct (@validated_request_on_the_wire Examples.cfg_with_keys "sid" []
              Examples.cold_config eq_refl) as (_ & _ & _ & _ & _ & Ht).
  rewrite Ht. reflexivity.
Defined.

(** X3. The credentials follow the provider only when it is one of the
    six known providers: then the API key is the one the environment holds
    for it. For any other provider name the request keeps the API key of
    the default configuration, and its base URL unless the caller gives
    one. *)
Theorem credentials_follow_known_providers_only (c : Config) (u : LLMConfig) :
  Provider u <> "" ->
  let k := getEffectiveLLMConfig c (Some u) in
  (GetProviderConfig c (Provider u) <> None ->
     APIKey k = fst (env_credentials c (Provider u))) /\
  (GetProviderConfig c (Provider u) = None ->
     Provider k = Provider u /\
     APIKey k = APIKey (GetDefaultConfig c) /\
     BaseURL k = (if String.eqb (BaseURL u) "" then BaseURL (GetDefaultConfig c)
                  else BaseURL u)).
Proof.
  intros Hp. cbv zeta. apply String.eqb_neq in Hp.
  split.
  - intros Hknown.
    destruct (GetProviderConfig c (Provider u)) as [pc|] eqn:Hpc; [|congruence].
    assert (Hc : getProviderCredentials (Provider u) (Some pc)
                 = env_credentials c (Provider u)).
    { unfold GetProviderConfig in Hpc. unfold getProviderCredentials.
      destruct (_ || _) eqn:Hsix; [|discriminate].
      inversion Hpc; subst pc. rewrite String.eqb_refl. reflexivity. }
    unfold getEffectiveLLMConfig. cbv zeta. rewrite Hp, Hpc, Hc. cfg_simpl.
    destruct (env_credentials c (Provider u)) as [apiKey baseURL].
    repeat (cfg_simpl; rewrite ?Hp, ?Hpc, ?Hc; cfg_break).
    all: cfg_simpl_all; cfg_tidy; try congruence.
    all: rewrite Hpc in *.
    all: match goal with H : Some _ = Some _ |- _ => inversion H; subst end.
    all: rewrite Hc; cbn; congruence.
  - intros Hunknown.
    unfold getEffectiveLLMConfig. cbv zeta. rewrite Hp, Hunknown. cfg_simpl.
    repeat (cfg_simpl; rewrite ?Hp, ?Hunknown; cfg_break).
    all: cfg_simpl_all; cfg_tidy; rewrite ?Hunknown in *; try discriminate.
    all: repeat split; try congruence.
Qed.

(** With DeepSeek as the default provider, a request for the provider
    "mistral" carries the DeepSeek key and base URL. *)
Lemma credentials_follow_known_providers_only_witness :
  let k := getEffectiveLLMConfig Examples.cfg_with_keys (Some Examples.mistral_config) in
  Provider k = "mistral" /\ APIKey k = "sk-deepseek" /\
  BaseURL k = "https://api.deepseek.com".
Proof.
  cbv zeta.
  destruct (@credentials_follow_known_providers_only Examples.cfg_with_keys
              Examples.mistral_config ltac:(discriminate)) as [_ H].
  destruct (H eq_refl) as (Hp & Hk & Hb).
  rewrite Hp, Hk, Hb. repeat split.
Defined.

End EffectiveConfig.

(** ** Activity supervisor: when it cancels, and when it is silent *)

Section SupervisorPolls.
Import ActivityTracker.

Variable at0 : ActivityTracker.t.

Lemma step_polls_inv (e : Event) (s : Supervised) (w : World) :
  polls_inv at0 s ->
  exists s' w', step e s w = (Returned s', w') /\ polls_inv at0 s'.
Proof.
  intros (Hc & Hs & Hm & Hn & Hf).
  destruct e; cbn [step].
  - do 2 eexists. split; [reflexivity|]. repeat split; auto.
  - do 2 eexists. split; [reflexivity|]. repeat split; auto.
  - destruct (monitoring s) eqn:Em; cbn [negb].
    2:{ do 2 eexists. split; [reflexivity|]. repeat split; auto; congruence. }
    destruct (done (tracker s) && negb ticker_first) eqn:Ed.
    { do 2 eexists. split; [reflexivity|]. repeat split; auto; cbn; congruence. }
    pose proof (Hn (Hm eq_refl)) as Hall.
    cbv beta iota zeta delta [bind ret time_Now shouldTimeout timeSinceLastActivity
                              totalTime].
    destruct (Time.Sub (w_clock w) (lastActivity (tracker s))
              >? ActivityTimeout (config (tracker s))) eqn:E1;
      [|destruct (Time.Sub (w_clock w) (totalStart (tracker s))
                  >? MaxTotalTimeout (config (tracker s))) eqn:E2];
      do 2 eexists; (split; [reflexivity|]); cbn.
    + repeat split; auto; try discriminate.
      intros now Hn'. inversion Hn'; subst. exists (polls s), (lastActivity (tracker s)).
      repeat split; auto. left. rewrite <- Hc. lia.
    + repeat split; auto; try discriminate.
      intros now Hn'. inversion Hn'; subst. exists (polls s), (lastActivity (tracker s)).
      repeat split; auto. right. rewrite <- Hc, <- Hs. lia.
    + repeat split; auto.
      * intros _. apply Forall_app. split; [exact Hall|]. constructor; [|constructor].
        unfold within_limits, predicate_holds. cbn [fst snd].
        rewrite <- Hc, <- Hs. lia.
      * intros now Hn'. rewrite (Hm eq_refl) in Hn'. discriminate.
  - do 2 eexists. split; [reflexivity|]. repeat split; auto.
Qed.

Lemma run_polls_inv (es : list Event) (s : Supervised) (w : World) :
  polls_inv at0 s ->
  exists s' w', run es s w = (Returned s', w') /\ polls_inv at0 s'.
Proof.
  revert s w. induction es as [|e es IH]; intros s w Hinv; cbn [run].
  - do 2 eexists. split; [reflexivity | exact Hinv].
  - destruct (step_polls_inv e w Hinv) as (s1 & w1 & Hstep & Hinv1).
    destruct (IH s1 w1 Hinv1) as (s2 & w2 & Hrun & Hinv2).
    exists s2, w2. unfold bind. rewrite Hstep, Hrun. split; [reflexivity | exact Hinv2].
Qed.

(** X4. A monitor driven by any sequence of passing time, activity, ticks
    and stops cancels at the first poll at which one of its two
    predicates holds: a poll at which a predicate held is the last poll it
    made, it cancelled at that poll, and every earlier poll was within
    both limits. *)
Theorem monitor_cancels_at_first_timeout (es : list Event) (w : World) :
  exists s w',
    run es (StartMonitoring at0) w = (Returned s, w') /\
    forall now last,
      In (now, last) (polls s) -> predicate_holds at0 now last ->
      firedAt s = Some now /\
      exists ps, polls s = ps ++ [(now, last)] /\ Forall (within_limits at0) ps.
Proof.
  assert (Hinv : polls_inv at0 (StartMonitoring at0)).
  { repeat split; auto; cbn; try constructor; discriminate. }
  destruct (run_polls_inv es w Hinv) as (s & w' & Hrun & (_ & _ & _ & Hn & Hf)).
  exists s, w'. split; [exact Hrun|].
  intros now last Hin Hp.
  destruct (firedAt s) as [now'|] eqn:Ef.
  - destruct (Hf now' eq_refl) as (ps & last' & Hps & Hp' & Hall).
    rewrite Hps in Hin. apply in_app_or in Hin. destruct Hin as [Hin|[Heq|[]]].
    + rewrite Forall_forall in Hall. exfalso. apply (Hall _ Hin). exact Hp.
    + inversion Heq; subst. split; [reflexivity|]. exists ps. split; [exact Hps | exact Hall].
  - specialize (Hn eq_refl). rewrite Forall_forall in Hn.
    exfalso. apply (Hn _ Hin). exact Hp.
Qed.

Lemma step_returns (e : Event) (s : Supervised) (w : World) :
  exists s' w', step e s w = (Returned s', w').
Proof.
  destruct e; cbn [step]; try (do 2 eexists; reflexivity).
  destruct (negb (monitoring s)); [do 2 eexists; reflexivity|].
  destruct (done (tracker s) && negb ticker_first); [do 2 eexists; reflexivity|].
  cbv beta iota zeta delta [bind ret time_Now shouldTimeout].
  repeat match goal with
         | |- context [if ?b then _ else _] => destruct b
         end; do 2 eexists; reflexivity.
Qed.

Lemma run_app (es1 es2 : list Event) (s : Supervised) (w : World) :
  run (es1 ++ es2) s w
  = match run es1 s w with
    | (Returned s1, w1) => run es2 s1 w1
    | (Panicked msg, w1) => (Panicked msg, w1)
    end.
Proof.
  revert s w. induction es1 as [|e es1 IH]; intros s w; cbn [run app].
  - reflexivity.
  - unfold bind. destruct (step e s w) as [[s1|msg] w1]; [apply IH | reflexivity].
Qed.

Lemma run_stopped (es : list Event) (s : Supervised) (w : World) :
  Forall (fun e => e <> Tick true) es ->
  done (tracker s) = true ->
  exists s' w', run es s w = (Returned s', w') /\
                polls s' = polls s /\ firedAt s' = firedAt s.
Proof.
  revert s w. induction es as [|e es IH]; intros s w Hes Hd; cbn [run].
  - do 2 eexists. repeat split.
  - inversion Hes as [|e' es' He Hes']; subst.
    assert (Hstep : exists s1 w1, step e s w = (Returned s1, w1) /\
                      done (tracker s1) = true /\ polls s1 = polls s /\
                      firedAt s1 = firedAt s).
    { destruct e as [d| |[|]|]; cbn [step];
        try (do 2 eexists; repeat split; auto; fail).
      - congruence.
      - destruct (negb (monitoring s)); [do 2 eexists; repeat split; auto|].
        rewrite Hd. do 2 eexists. repeat split; auto. }
    destruct Hstep as (s1 & w1 & Hstep & Hd1 & Hp1 & Hf1).
    destruct (IH s1 w1 Hes' Hd1) as (s2 & w2 & Hrun & Hp2 & Hf2).
    exists s2, w2. unfold bind. rewrite Hstep, Hrun.
    repeat split; congruence.
Qed.

Lemma run_returns (es : list Event) (s : Supervised) (w : World) :
  exists s' w', run es s w = (Returned s', w').
Proof.
  revert s w. induction es as [|e es IH]; intros s w; cbn [run].
  - do 2 eexists. reflexivity.
  - destruct (step_returns e s w) as (s1 & w1 & Hstep).
    destruct (IH s1 w1) as (s2 & w2 & Hrun).
    exists s2, w2. unfold bind. rewrite Hstep, Hrun. reflexivity.
Qed.

(** X5. After [Stop] the monitor polls again only if a tick is pending
    when its [select] runs and the runtime takes the tick rather than the
    done context. In a run in which no tick is taken in that way after
    [Stop], the monitor makes no further poll and does not cancel; a
    monitor still in its loop at [Stop] polls a tick that is taken in that
    way, at the time of the tick and with the last activity it reads. *)
Theorem Stop_silences_unless_tick_is_taken (es1 es2 : list Event) (w : World) :
  Forall (fun e => e <> Tick true) es2 ->
  exists s1 w1 s2 w2,
    run es1 (StartMonitoring at0) w = (Returned s1, w1) /\
    run (es1 ++ Stopped :: es2) (StartMonitoring at0) w = (Returned s2, w2) /\
    polls s2 = polls s1 /\ firedAt s2 = firedAt s1 /\
    (monitoring s1 = true ->
     exists s3 w3,
       run (es1 ++ [Stopped; Tick true]) (StartMonitoring at0) w = (Returned s3, w3) /\
       polls s3 = polls s1 ++ [(w_clock w1, lastActivity (tracker s1))]).
Proof.
  intros Hes.
  destruct (run_returns es1 (StartMonitoring at0) w) as (s1 & w1 & H1).
  destruct (@run_stopped es2
              {| tracker := Stop (tracker s1); monitoring := monitoring s1;
                 polls := polls s1; firedAt := firedAt s1 |} w1 Hes eq_refl)
    as (s2 & w2 & H2 & Hp & Hf).
  exists s1, w1, s2, w2. split; [exact H1|].
  rewrite run_app, H1. cbn [run step]. unfold bind at 1, ret at 1. rewrite H2.
  split; [reflexivity|]. split; [assumption|]. split; [assumption|].
  intros Em. rewrite run_app, H1. unfold run, step, bind at 1 2, ret at 1.
  cbn [tracker monitoring polls firedAt]. rewrite Em.
  cbn [negb Stop cancel done andb lastActivity].
  cbv beta iota zeta delta [bind ret time_Now shouldTimeout].
  repeat match goal with
         | |- context [if ?b then _ else _] => destruct b
         end; do 2 eexists; split; reflexivity.
Qed.

End SupervisorPolls.

(** A monitor that polled once is stopped; a second later its ticker
    fires and the done context is taken: the one poll stays the only one.
    Had the tick been taken, it would have been polled. *)
Lemma Stop_silences_unless_tick_is_taken_witness :
  let at0 := {| ActivityTracker.lastActivity := 0; ActivityTracker.totalStart := 0;
                ActivityTracker.config := ActivityTracker.getDefaultStreamTimeoutConfig;
                ActivityTracker.done := false |} in
  let es1 := [ActivityTracker.Elapse Time.Second; ActivityTracker.Tick false] in
  let es2 := [ActivityTracker.Elapse Time.Second; ActivityTracker.Tick false;
              ActivityTracker.Activity] in
  exists s2 w2 s3 w3,
    ActivityTracker.run (es1 ++ ActivityTracker.Stopped :: es2)
                        (ActivityTracker.StartMonitoring at0) Scenario.world
    = (Returned s2, w2) /\
    ActivityTracker.polls s2 = [(w_clock Scenario.world + Time.Second, 0)] /\
    ActivityTracker.firedAt s2 = None /\
    ActivityTracker.run (es1 ++ [ActivityTracker.Stopped; ActivityTracker.Tick true])
                        (ActivityTracker.StartMonitoring at0) Scenario.world
    = (Returned s3, w3) /\
    ActivityTracker.polls s3 = [(w_clock Scenario.world + Time.Second, 0);
                                (w_clock Scenario.world + Time.Second, 0)].
Proof.
  intros at0 es1 es2.
  destruct (@Stop_silences_unless_tick_is_taken at0 es1 es2 Scenario.world)
    as (s1 & w1 & s2 & w2 & H1 & H2 & Hp & Hf & Hrace).
  - repeat constructor; discriminate.
  - vm_compute in H1. inversion H1; subst s1 w1; clear H1.
    destruct (Hrace eq_refl) as (s3 & w3 & H3 & Hp3).
    exists s2, w2, s3, w3.
    split; [exact H2|]. split; [rewrite Hp; vm_compute; reflexivity|].
    split; [rewrite Hf; reflexivity|]. split; [exact H3|].
    rewrite Hp3. vm_compute. reflexivity.
Defined.

(** ** Upstream client: the stream relay and the closed client *)

Section StreamRelay.
Import client.



End StreamRelay.

Section ClosedClient.
Import GRPCLLMClient.

Lemma close_all_done (results : list Go.error) (c : GRPCLLMClient.t) :
  closeOnce_done c = true -> close_all results c = c.
Proof.
  unfold close_all. induction results as [|r results IH]; intros Hd; cbn [fold_left].
  - reflexivity.
  - unfold Close at 2. rewrite Hd. cbn [fst]. apply IH, Hd.
Qed.

(** X7. [Close] acts once. The first call on a client marks it closed,
    drops the connection and returns the error of closing it, wrapped with
    the target; every later call returns nil and changes nothing. From
    then on the client refuses [ExecuteAgent] and [ExecuteAgentStream]
    with "gRPC client is closed" before anything is sent: no time passes,
    the store is untouched and the callback is not called. *)
Theorem closed_client_refuses (target : string) (result : Go.error)
        (results : list Go.error) (again : Go.error)
        (peer : client.Upstream) (req : model.LLMRequest) (w : World)
        (S : Type) (callback : client.StreamChunk -> S -> M (S * Go.error)) (s : S) :
  let c := close_all (result :: results) (NewGRPCLLMClient target) in
  snd (Close result (NewGRPCLLMClient target))
  = option_map (Go.Errorf_w ("failed to close gRPC connection to " ++ target)) result /\
  c = fst (Close result (NewGRPCLLMClient target)) /\
  IsClosed c = true /\
  Close again c = (c, None) /\
  client.ExecuteAgent (facing c peer) req w
  = (Returned (None, Some (Go.errors_New "gRPC client is closed")), w) /\
  client.ExecuteAgentStream callback (facing c peer) req s w
  = (Returned (s, Some (Go.errors_New "gRPC client is closed")), w).
Proof.
  cbv zeta. unfold close_all. cbn [fold_left].
  fold (close_all results (fst (Close result (NewGRPCLLMClient target)))).
  rewrite close_all_done by reflexivity.
  split; [destruct result; reflexivity|].
  repeat split.
Qed.

End ClosedClient.

(** ** Sessions, messages and traces in the store *)

Ltac run_S :=
  cbv beta iota zeta delta
    [bind ret get put modify panic issue statement time_Now uuid_New
     SessionService.Create SessionService.Get SessionService.Delete
     SessionService.GetSessions SessionRepository.Create SessionRepository.Get
     SessionRepository.Delete SessionRepository.GetSessions
     MessageService.SaveMessage MessageService.GetSessionMessages
     MessageRepository.Create MessageRepository.GetBySessionID
     TraceRepository.GetByID TraceRepository.GetBySessionID TraceRepository.Create
     StepRepository.GetByTraceID Tracer.StartTrace Tracer.GetTrace
     SessionHandler.Create SessionHandler.Get SessionHandler.Delete
     SessionHandler.GetList TraceHandler.Get TraceHandler.GetSessionTraces].

Ltac world_cbv :=
  cbv beta iota delta
    [w_traces w_steps w_sessions w_messages w_clock w_uuid w_faults w_calls
     set_uuid set_calls set_faults set_steps set_traces set_sessions set_messages
     set_clock fst snd].

Tactic Notation "world_cbv" "in" hyp(H) :=
  cbv beta iota delta
    [w_traces w_steps w_sessions w_messages w_clock w_uuid w_faults w_calls
     set_uuid set_calls set_faults set_steps set_traces set_sessions set_messages
     set_clock fst snd] in H.

Section Store.
Import model.

Lemma find_app_new {A : Type} (f : A -> bool) (l : list A) (x : A) :
  existsb f l = false -> f x = true -> find f (l ++ [x]) = Some x.
Proof.
  induction l as [|y l IH]; cbn; intros He Hx.
  - now rewrite Hx.
  - apply orb_false_iff in He. destruct He as [Hy He]. rewrite Hy. now apply IH.
Qed.

Lemma find_filter_out {A : Type} (f : A -> bool) (l : list A) :
  find f (filter (fun x => negb (f x)) l) = None.
Proof.
  induction l as [|y l IH]; cbn; [reflexivity|].
  destruct (f y) eqn:E; cbn; [exact IH | now rewrite E].
Qed.

(** X8. A session created through POST /sessions can be fetched: when
    the store executes the two statements and the identifier drawn is not
    taken, the creation answers 201 with a session that is active, belongs
    to the user of the request, has the configured total budget and used
    counters of zero, and a GET of its identifier answers 200 with the
    same session. *)
Theorem created_session_can_be_fetched (budget : SessionService.BudgetConfig)
        (r : SessionHandler.Request) (u : string) (w : World) :
  SessionHandler.user_id r = Some u -> u <> "" ->
  hd false (w_faults w) = false -> hd false (tl (w_faults w)) = false ->
  existsb (SessionRepository.has_id (uuid_of (w_uuid w))) (w_sessions w) = false ->
  exists resp w1 w2,
    SessionHandler.Create budget r w = (Returned (201, SessionHandler.OneSession resp), w1) /\
    SessionHandler.Get {| SessionHandler.param_id := Some (SessionHandler.R_ID resp);
                          SessionHandler.user_id := None;
                          SessionHandler.bind_error := "" |} w1
    = (Returned (200, SessionHandler.OneSession resp), w2) /\
    SessionHandler.R_ID resp = uuid_of (w_uuid w) /\
    SessionHandler.R_UserID resp = u /\
    SessionHandler.R_Status resp = "active" /\
    SessionHandler.R_Budget resp
    = {| SessionHandler.B_TotalTokens := SessionService.DefaultTotalTokens budget;
         SessionHandler.B_UsedTokens := 0;
         SessionHandler.B_TotalCost := SessionService.DefaultTotalCost budget;
         SessionHandler.B_UsedCost := 0%float |}.
Proof.
  intros Hu Hne Hf1 Hf2 Hfresh.
  destruct w as [tr st se ms ck uu fl cl].
  cbn [w_faults w_uuid w_sessions] in Hf1, Hf2, Hfresh.
  unfold SessionHandler.Create, SessionHandler.Get, SessionHandler.ShouldBindJSON.
  rewrite Hu. apply String.eqb_neq in Hne. rewrite Hne.
  run_S. world_cbn. rewrite Hf1. world_cbn.
  cbn [Session_ID]. rewrite Hfresh.
  do 3 eexists. split; [reflexivity|].
  cbn [SessionHandler.param_id SessionHandler.R_ID SessionHandler.toSessionResponse
       Session_ID].
  world_cbv. rewrite Hf2.
  rewrite find_app_new;
    [| exact Hfresh | unfold SessionRepository.has_id; apply String.eqb_refl].
  split; [reflexivity|]. repeat split.
Qed.

(** POST /sessions {"user_id":"u1"} on the store of the scenarios. *)
Lemma created_session_can_be_fetched_witness :
  exists resp w1 w2,
    SessionHandler.Create {| SessionService.DefaultTotalTokens := 10000;
                             SessionService.DefaultTotalCost := 0%float |}
      {| SessionHandler.param_id := None; SessionHandler.user_id := Some "u1";
         SessionHandler.bind_error := "" |} Scenario.world
    = (Returned (201, SessionHandler.OneSession resp), w1) /\
    SessionHandler.Get {| SessionHandler.param_id := Some (SessionHandler.R_ID resp);
                          SessionHandler.user_id := None;
                          SessionHandler.bind_error := "" |} w1
    = (Returned (200, SessionHandler.OneSession resp), w2) /\
    SessionHandler.R_ID resp = uuid_of 0 /\
    SessionHandler.B_TotalTokens (SessionHandler.R_Budget resp) = 10000.
Proof.
  destruct (@created_session_can_be_fetched
              {| SessionService.DefaultTotalTokens := 10000;
                 SessionService.DefaultTotalCost := 0%float |}
              {| SessionHandler.param_id := None; SessionHandler.user_id := Some "u1";
                 SessionHandler.bind_error := "" |} "u1" Scenario.world
              eq_refl ltac:(discriminate) eq_refl eq_refl eq_refl)
    as (resp & w1 & w2 & H1 & H2 & Hid & _ & _ & Hb).
  exists resp, w1, w2. split; [exact H1|]. split; [exact H2|].
  split; [exact Hid|]. rewrite Hb. reflexivity.
Defined.

(** X9. DELETE /sessions/:id answers 200 whether or not the session
    exists, as soon as the store executes the statement. Afterwards a GET
    of the identifier answers 404; the other sessions are as they were,
    and the messages, traces and steps of the store are left in place:
    nothing of a deleted session is removed with it. *)
Theorem deleted_session_is_gone (r : SessionHandler.Request) (id : string)
        (w : World) :
  SessionHandler.param_id r = Some id ->
  hd false (w_faults w) = false ->
  exists w1 w2,
    SessionHandler.Delete r w = (Returned (200, SessionHandler.H_message "Session deleted"), w1) /\
    SessionHandler.Get r w1
    = (Returned (404, SessionHandler.H_error "SESSION_NOT_FOUND"), w2) /\
    w_sessions w1 = filter (fun s => negb (SessionRepository.has_id id s)) (w_sessions w) /\
    w_messages w1 = w_messages w /\ w_traces w1 = w_traces w /\ w_steps w1 = w_steps w.
Proof.
  intros Hid Hf1.
  destruct w as [tr st se ms ck uu fl cl]. cbn [w_faults] in Hf1.
  unfold SessionHandler.Delete, SessionHandler.Get. rewrite Hid.
  run_S. world_cbv. rewrite Hf1.
  do 2 eexists. split; [reflexivity|].
  world_cbv. destruct (hd false (tl fl)); world_cbv; rewrite ?find_filter_out; repeat split.
Qed.

(** Deleting a session that does not exist. *)
Lemma deleted_session_is_gone_witness :
  exists w1 w2,
    SessionHandler.Delete {| SessionHandler.param_id := Some "nobody";
                             SessionHandler.user_id := None;
                             SessionHandler.bind_error := "" |} Scenario.world
    = (Returned (200, SessionHandler.H_message "Session deleted"), w1) /\
    SessionHandler.Get {| SessionHandler.param_id := Some "nobody";
                          SessionHandler.user_id := None;
                          SessionHandler.bind_error := "" |} w1
    = (Returned (404, SessionHandler.H_error "SESSION_NOT_FOUND"), w2) /\
    w_sessions w1 = [Scenario.session].
Proof.
  destruct (@deleted_session_is_gone
              {| SessionHandler.param_id := Some "nobody";
                 SessionHandler.user_id := None;
                 SessionHandler.bind_error := "" |} "nobody" Scenario.world
              eq_refl eq_refl) as (w1 & w2 & H1 & H2 & Hs & _).
  exists w1, w2. split; [exact H1|]. split; [exact H2|].
  rewrite Hs. reflexivity.
Defined.

Lemma SaveMessages_stores_a_prefix_aux (messages : list Message) (w : World) :
  exists err w' n,
    MessageService.SaveMessages messages w = (Returned err, w') /\
    w_messages w' = w_messages w ++ firstn n messages /\
    (err = None -> n = List.length messages) /\
    (err <> None -> (n < List.length messages)%nat) /\
    w_sessions w' = w_sessions w /\ w_traces w' = w_traces w /\ w_steps w' = w_steps w.
Proof.
  revert w. induction messages as [|m messages IH]; intros w;
    cbn [MessageService.SaveMessages].
  - exists None, w, O. rewrite app_nil_r. repeat split; congruence.
  - destruct w as [tr st se ms ck uu fl cl].
    run_S. world_cbv.
    destruct (hd false fl).
    + do 2 eexists. exists O. split; [reflexivity|]. world_cbv. rewrite app_nil_r.
      repeat split; try discriminate. cbn. lia.
    + destruct (existsb _ ms).
      * do 2 eexists. exists O. split; [reflexivity|]. world_cbv. rewrite app_nil_r.
        repeat split; try discriminate. cbn. lia.
      * match goal with |- context [MessageService.SaveMessages messages ?w0] =>
          destruct (IH w0) as (err & w' & n & Hrun & Hm & Hok & Hko & Hs & Ht & Hst) end.
        exists err, w', (S n). split; [exact Hrun|].
        world_cbv in Hm; world_cbv in Hs; world_cbv in Ht; world_cbv in Hst. world_cbv.
        rewrite Hm, <- app_assoc. cbn [firstn List.length app].
        split; [reflexivity|].
        split; [intros E; now rewrite (Hok E)|].
        split; [intros E; specialize (Hko E); lia|].
        repeat split; assumption.
Qed.


Lemma insertion_sort_by_time (l : list Message) :
  StronglySorted (fun a b => Message_CreatedAt a <= Message_CreatedAt b)
    (Go.insertion_sort (fun a b => Message_CreatedAt a <? Message_CreatedAt b) l).
Proof.
  assert (H : StronglySorted
                (fun a b => (Message_CreatedAt b <? Message_CreatedAt a) = false)
                (Go.insertion_sort (fun a b => Message_CreatedAt a <? Message_CreatedAt b) l)).
  { apply insertion_sort_sorted. repeat split.
    - intros a _. apply Z.ltb_irrefl.
    - intros a b c _ _ _. rewrite !Z.ltb_lt. lia.
    - intros a b c _ _ _. rewrite !Z.ltb_ge. lia. }
  induction H as [|a l' Hs IH Ha]; constructor; [exact IH|].
  eapply Forall_impl; [|exact Ha]. cbv beta. intros b Hb. apply Z.ltb_ge in Hb. exact Hb.
Qed.

(** X11. Messages saved with [SaveMessages] are listed by
    [GetSessionMessages]: after a call that returned no error, the
    messages listed for a session are those the store held for it together
    with those of the call that belong to it, ordered by creation time. *)
Theorem saved_messages_are_listed (messages : list Message) (sessionID : string)
        (w w1 : World) :
  MessageService.SaveMessages messages w = (Returned None, w1) ->
  hd false (w_faults w1) = false ->
  exists l w2,
    MessageService.GetSessionMessages sessionID w1 = (Returned (l, None), w2) /\
    Permutation l
      (filter (fun m => String.eqb (Message_SessionID m) sessionID) (w_messages w) ++
       filter (fun m => String.eqb (Message_SessionID m) sessionID) messages) /\
    StronglySorted (fun a b => Message_CreatedAt a <= Message_CreatedAt b) l.
Proof.
  intros Hsave Hf.
  destruct (SaveMessages_stores_a_prefix_aux messages w)
    as (err & w' & n & Hrun & Hm & Hok & _).
  rewrite Hsave in Hrun. inversion Hrun; subst err w'. clear Hrun.
  rewrite (Hok eq_refl), firstn_all in Hm.
  destruct w1 as [tr st se ms ck uu fl cl]. cbn [w_faults w_messages] in Hf, Hm.
  run_S. world_cbv. rewrite Hf.
  do 2 eexists. split; [reflexivity|]. split.
  - rewrite Hm, filter_app. symmetry. apply insertion_sort_perm.
  - apply insertion_sort_by_time.
Qed.

(** Three messages saved in an empty store, two of them of session
    "sid": the listing of "sid" has these two, the one written first in
    front. *)
Lemma saved_messages_are_listed_witness :
  exists w1 l w2,
    MessageService.SaveMessages Examples.three_messages Scenario.world = (Returned None, w1) /\
    MessageService.GetSessionMessages "sid" w1 = (Returned (l, None), w2) /\
    map Message_ID l = ["m2"; "m1"].
Proof.
  pose (w1 := snd (MessageService.SaveMessages Examples.three_messages Scenario.world)).
  assert (H1 : MessageService.SaveMessages Examples.three_messages Scenario.world
               = (Returned None, w1)) by (vm_compute; reflexivity).
  assert (Hf : hd false (w_faults w1) = false) by (vm_compute; reflexivity).
  destruct (@saved_messages_are_listed Examples.three_messages "sid" Scenario.world w1 H1 Hf)
    as (l & w2 & H2 & _ & _).
  exists w1, l, w2. split; [exact H1|]. split; [exact H2|].
  assert (E : fst (MessageService.GetSessionMessages "sid" w1)
              = Returned (l, None)) by (rewrite H2; reflexivity).
  vm_compute in E. inversion E. reflexivity.
Defined.

Lemma totals_fold (traces : list Trace) (tokens : Z) (cost : float) :
  fold_left (fun '(totalTokens, totalCost) trace =>
               (Go.add totalTokens (Trace_CostTokens trace),
                PrimFloat.add totalCost (Trace_CostAPI trace)))
            traces (tokens, cost)
  = (fold_left (fun acc trace => Go.add acc (Trace_CostTokens trace)) traces tokens,
     Spec.sum_from cost (map Trace_CostAPI traces)).
Proof.
  revert tokens cost. induction traces as [|t traces IH]; intros tokens cost;
    cbn [fold_left map Spec.sum_from]; [reflexivity | apply IH].
Qed.

(** X12. GET /sessions/:id/traces, when the store answers: the traces of
    the session, newest first, their number, and in [total_cost] the
    64-bit sum of their tokens and the sum of their costs taken in that
    order. The field [total_tokens] of the response is never filled in:
    it is 0 whatever the traces hold. *)
Theorem session_traces_totals (sessionID : string) (w : World) :
  sessionID <> "" -> hd false (w_faults w) = false ->
  exists resp w',
    TraceHandler.GetSessionTraces sessionID w = (Returned (200, inr resp), w') /\
    TraceHandler.L_Traces resp = map TraceHandler.toTraceResponse (fetched sessionID w) /\
    TraceHandler.L_Total resp = Go.len (fetched sessionID w) /\
    TraceHandler.L_TotalTokens resp = 0 /\
    TraceHandler.Tokens (TraceHandler.L_TotalCost resp)
    = Go.wrap (Spec.int_sum (map Trace_CostTokens (fetched sessionID w))) /\
    TraceHandler.APICost (TraceHandler.L_TotalCost resp)
    = Spec.float_sum (map Trace_CostAPI (fetched sessionID w)).
Proof.
  intros Hne Hf. apply String.eqb_neq in Hne.
  destruct w as [tr st se ms ck uu fl cl]. cbn [w_faults] in Hf.
  unfold TraceHandler.GetSessionTraces. rewrite Hne.
  run_S. world_cbv. rewrite Hf.
  fold (fetched sessionID {| w_traces := tr; w_steps := st; w_sessions := se;
                             w_messages := ms; w_clock := ck; w_uuid := uu;
                             w_faults := fl; w_calls := cl |}).
  unfold fetched at 1. cbn [w_traces].
  rewrite totals_fold.
  do 2 eexists. split; [reflexivity|].
  cbn [TraceHandler.L_Traces TraceHandler.L_Total TraceHandler.L_TotalTokens
       TraceHandler.L_TotalCost TraceHandler.Tokens TraceHandler.APICost].
  repeat split. apply totalTokens_is_wrapped_sum.
Qed.

(** The three traces of the cost scenario: 600 tokens and a cost of 1.75
    in [total_cost], 0 in [total_tokens]. *)
Lemma session_traces_totals_witness :
  exists resp w',
    TraceHandler.GetSessionTraces "sid" Scenario.world_with_traces
    = (Returned (200, inr resp), w') /\
    TraceHandler.L_Total resp = 3 /\ TraceHandler.L_TotalTokens resp = 0 /\
    TraceHandler.Tokens (TraceHandler.L_TotalCost resp) = 600 /\
    TraceHandler.APICost (TraceHandler.L_TotalCost resp) = 1.75%float.
Proof.
  destruct (@session_traces_totals "sid" Scenario.world_with_traces
              ltac:(discriminate) eq_refl) as (resp & w' & H & _ & Hn & H0 & Ht & Hc).
  exists resp, w'. split; [exact H|].
  rewrite Hn, H0, Ht, Hc. repeat split.
Defined.

(** X13. A trace opened by [StartTrace] is served by GET /trace/:id: when
    the store executes the statements and the identifier drawn is not
    taken, the answer is 200 with the trace as running, without end time,
    with no cost, and with the steps the store holds under its identifier,
    ordered by sequence number. *)
Theorem started_trace_is_served (sessionID agentName : string) (w : World) :
  hd false (w_faults w) = false -> hd false (tl (w_faults w)) = false ->
  hd false (tl (tl (w_faults w))) = false ->
  existsb (TraceRepository.has_id (uuid_of (w_uuid w))) (w_traces w) = false ->
  exists t w1 resp w2,
    Tracer.StartTrace sessionID agentName w = (Returned (Some t, None), w1) /\
    TraceHandler.Get (Trace_ID t) w1 = (Returned (200, inr resp), w2) /\
    TraceHandler.D_Trace resp = TraceHandler.toTraceResponse t /\
    TraceHandler.R_ID (TraceHandler.D_Trace resp) = uuid_of (w_uuid w) /\
    TraceHandler.R_SessionID (TraceHandler.D_Trace resp) = sessionID /\
    TraceHandler.R_Status (TraceHandler.D_Trace resp) = "running" /\
    TraceHandler.R_EndedAt (TraceHandler.D_Trace resp) = None /\
    TraceHandler.R_CostTokens (TraceHandler.D_Trace resp) = 0 /\
    TraceHandler.D_Steps resp
    = Go.insertion_sort (fun a b => Sequence a <? Sequence b)
        (filter (fun s => String.eqb (TraceID s) (uuid_of (w_uuid w))) (w_steps w)).
Proof.
  intros Hf1 Hf2 Hf3 Hfresh.
  destruct w as [tr st se ms ck uu fl cl].
  cbn [w_faults w_uuid w_traces w_steps] in *.
  unfold TraceHandler.Get.
  run_S. world_cbv. rewrite Hf1. world_cbv.
  cbn [Trace_ID]. rewrite Hfresh.
  do 4 eexists. split; [reflexivity|].
  cbn [Trace_ID]. world_cbv. rewrite Hf2.
  rewrite find_app_new;
    [| exact Hfresh | unfold TraceRepository.has_id; apply String.eqb_refl].
  world_cbv. rewrite Hf3.
  split; [reflexivity|]. repeat split.
Qed.

Lemma started_trace_is_served_witness :
  exists t w1 resp w2,
    Tracer.StartTrace "sid" "simple_chat" Scenario.world = (Returned (Some t, None), w1) /\
    TraceHandler.Get (Trace_ID t) w1 = (Returned (200, inr resp), w2) /\
    TraceHandler.R_Status (TraceHandler.D_Trace resp) = "running" /\
    TraceHandler.D_Steps resp = [].
Proof.
  destruct (@started_trace_is_served "sid" "simple_chat" Scenario.world
              eq_refl eq_refl eq_refl eq_refl)
    as (t & w1 & resp & w2 & H1 & H2 & _ & _ & _ & Hs & _ & _ & Hst).
  exists t, w1, resp, w2. split; [exact H1|]. split; [exact H2|].
  split; [exact Hs|]. rewrite Hst. reflexivity.
Defined.

End Store.

(** ** Tracer: numbering and cost of the steps of a trace *)

Ltac step_cbv :=
  cbv beta iota zeta delta
    [hd tl w_traces w_steps w_sessions w_messages w_clock w_uuid w_faults w_calls
     set_uuid set_calls set_faults set_steps set_traces set_sessions set_messages
     set_clock fst snd Z.eqb];
  cbn [Tracer.with_ID Tracer.with_times Tracer.with_Sequence
       model.Step_ID model.TraceID model.Sequence model.CostTokens model.CostAPI
       model.CreatedAt model.UpdatedAt].

Section StepsOfATrace.
Import model.

Variable traceID : string.
Hypothesis traceID_given : traceID <> "".

Lemma existsb_fresh (st : list ExecutionStep) (uu : nat) :
  (forall s n, In s st -> (uu <= n)%nat -> Step_ID s <> uuid_of n) ->
  existsb (fun s => String.eqb (Step_ID s) (uuid_of uu)) st = false.
Proof.
  intros H. apply not_true_is_false. intros He. apply existsb_exists in He.
  destruct He as (s & Hin & He). apply String.eqb_eq in He.
  exact (H s uu Hin (Nat.le_refl _) He).
Qed.

Lemma RecordStep_unnumbered (step : ExecutionStep) (w : World) :
  unnumbered traceID step -> w_faults w = [] -> step_ids_fresh w ->
  Go.len (filter (fun s => String.eqb (TraceID s) traceID) (w_steps w)) + 1 < 2 ^ 63 ->
  exists step' err w',
    Tracer.RecordStep step w = (Returned (step', err), w') /\
    w_steps w' = w_steps w ++ [step'] /\
    TraceID step' = traceID /\
    Sequence step'
    = Go.len (filter (fun s => String.eqb (TraceID s) traceID) (w_steps w)) + 1 /\
    w_traces w' = booked traceID step (w_traces w) /\
    (has_cost step && overflows traceID step (w_traces w) = false -> err = None) /\
    w_faults w' = [] /\ step_ids_fresh w'.
Proof.
  intros (Ht & Hs & Hi) Hf Hfresh Hlen.
  destruct w as [tr st se ms ck uu fl cl].
  cbn [w_faults w_steps w_uuid] in Hf, Hlen. subst fl.
  pose proof (@existsb_fresh st uu Hfresh) as Hex.
  assert (Hfresh' : forall w', w_steps w' = st ++ [Tracer.with_Sequence
                  (Go.len (filter (fun s => String.eqb (TraceID s) traceID) st) + 1)
                  (Tracer.with_times ck ck (Tracer.with_ID (uuid_of uu) step))] ->
               w_uuid w' = S uu -> step_ids_fresh w').
  { intros w' Hst Huu s n Hin Hn. rewrite Hst in Hin. rewrite Huu in Hn.
    apply in_app_or in Hin. destruct Hin as [Hin|[<-|[]]].
    - apply (Hfresh s n Hin). cbn. lia.
    - cbn. intros E. apply uuid_of_inj in E. lia. }
  assert (Hsort : Go.len (Go.insertion_sort (fun a b => Sequence a <? Sequence b)
                    (filter (fun s => String.eqb (TraceID s) traceID) st))
                  = Go.len (filter (fun s => String.eqb (TraceID s) traceID) st)).
  { unfold Go.len. f_equal. symmetry. apply Permutation_length, insertion_sort_perm. }
  assert (Hadd : Go.add (Go.len (filter (fun s => String.eqb (TraceID s) traceID) st)) 1
                 = Go.len (filter (fun s => String.eqb (TraceID s) traceID) st) + 1).
  { unfold Go.add. apply wrap_in_int. unfold Go.in_int, Go.int_min, Go.int_max, Go.len in *.
    lia. }
  apply String.eqb_neq in traceID_given.
  unfold Tracer.RecordStep. rewrite Hi. cbn [String.eqb].
  run_M. step_cbv. rewrite Ht, Hs, traceID_given. step_cbv.
  rewrite Hsort, Hadd. step_cbv. rewrite Hex.
  unfold booked, overflows, has_cost.
  destruct ((CostTokens step >? 0) || Go.fgt (CostAPI step) 0); step_cbv.
  - rewrite Ht.
    destruct (existsb _ tr); do 3 eexists; (split; [reflexivity|]); step_cbv;
      repeat split; auto; try discriminate; apply Hfresh'; reflexivity.
  - do 3 eexists. split; [reflexivity|]. step_cbv.
    repeat split; auto; apply Hfresh'; reflexivity.
Qed.

Lemma recordAll_numbers (steps : list ExecutionStep) (w : World) :
  Forall (unnumbered traceID) steps -> w_faults w = [] -> step_ids_fresh w ->
  Go.len (filter (fun s => String.eqb (TraceID s) traceID) (w_steps w))
  + Z.of_nat (List.length steps) < 2 ^ 63 ->
  exists errs w',
    recordAll steps w = (Returned errs, w') /\
    Spec.sequences_of traceID w'
    = Spec.sequences_of traceID w ++
      map (fun i => Go.len (filter (fun s => String.eqb (TraceID s) traceID) (w_steps w))
                    + Z.of_nat i) (seq 1 (List.length steps)).
Proof.
  revert w. induction steps as [|step steps IH]; intros w Hall Hf Hfresh Hlen;
    cbn [recordAll].
  - exists [], w. split; [reflexivity|]. cbn. now rewrite app_nil_r.
  - inversion Hall as [|? ? Hstep Hrest]; subst.
    cbn [List.length] in Hlen.
    destruct (@RecordStep_unnumbered step w Hstep Hf Hfresh ltac:(lia))
      as (step' & err & w1 & Hrun & Hst & Ht & Hs & _ & _ & Hf1 & Hfresh1).
    assert (Hfil : filter (fun s => String.eqb (TraceID s) traceID) (w_steps w1)
                   = filter (fun s => String.eqb (TraceID s) traceID) (w_steps w)
                     ++ [step']).
    { rewrite Hst, filter_app. cbn [filter]. rewrite Ht, String.eqb_refl. reflexivity. }
    assert (Hlen1 : Go.len (filter (fun s => String.eqb (TraceID s) traceID) (w_steps w1))
                    = Go.len (filter (fun s => String.eqb (TraceID s) traceID) (w_steps w))
                      + 1).
    { rewrite Hfil. unfold Go.len. rewrite length_app. cbn [List.length]. lia. }
    destruct (IH w1 Hrest Hf1 Hfresh1 ltac:(rewrite Hlen1; lia))
      as (errs & w' & Hrun' & Hseq).
    exists (err :: errs), w'. unfold bind, ret. rewrite Hrun, Hrun'.
    split; [reflexivity|].
    rewrite Hlen1 in Hseq.
    rewrite Hseq. unfold Spec.sequences_of at 1. rewrite Hfil, map_app.
    fold (Spec.sequences_of traceID w). rewrite <- app_assoc. f_equal.
    cbn [map app List.length seq]. rewrite Hs. f_equal.
    rewrite <- (seq_shift _ 1), map_map. apply map_ext. intros i. lia.
Qed.

(** X14. Steps left to [RecordStep] for their number are numbered
    densely: recorded one after the other on a trace whose k stored steps
    carry the numbers 1..k, in a store that works, n steps without
    identifier and without sequence number leave the trace with the
    numbers 1..k+n. *)
Theorem auto_numbering_is_dense (steps : list ExecutionStep) (w : World) (k : nat) :
  Forall (unnumbered traceID) steps -> w_faults w = [] -> step_ids_fresh w ->
  Spec.sequences_of traceID w = map Z.of_nat (seq 1 k) ->
  Z.of_nat (k + List.length steps) < 2 ^ 63 ->
  exists errs w',
    recordAll steps w = (Returned errs, w') /\
    Spec.sequences_of traceID w' = map Z.of_nat (seq 1 (k + List.length steps)) /\
    Spec.dense_from_one (Spec.sequences_of traceID w').
Proof.
  intros Hall Hf Hfresh Hk Hlen.
  assert (Hk' : Go.len (filter (fun s => String.eqb (TraceID s) traceID) (w_steps w))
                = Z.of_nat k).
  { apply (f_equal (@List.length Z)) in Hk. unfold Spec.sequences_of in Hk.
    rewrite !length_map, length_seq in Hk. unfold Go.len. now rewrite Hk. }
  destruct (@recordAll_numbers steps w Hall Hf Hfresh ltac:(rewrite Hk'; lia))
    as (errs & w' & Hrun & Hseq).
  assert (E : Spec.sequences_of traceID w' = map Z.of_nat (seq 1 (k + List.length steps))).
  { rewrite Hseq, Hk, Hk', seq_app, map_app. f_equal.
    clear. generalize (List.length steps) as n. intros n. generalize 1%nat as a.
    induction n as [|n IHn]; intros a; cbn [seq map]; [reflexivity|].
    f_equal; [lia | apply (IHn (S a))]. }
  exists errs, w'. split; [exact Hrun|]. split; [exact E|].
  unfold Spec.dense_from_one. rewrite E at 1. rewrite E, length_map, length_seq.
  reflexivity.
Qed.


Lemma with_added_booked (step : ExecutionStep) (tokens : Z) (costs : list float)
      (t : Trace) :
  with_added traceID tokens costs
    (if TraceRepository.has_id traceID t
     then TraceRepository.with_cost (Trace_CostTokens t + CostTokens step)
            (PrimFloat.add (Trace_CostAPI t) (CostAPI step)) t
     else t)
  = with_added traceID (CostTokens step + tokens) (CostAPI step :: costs) t.
Proof.
  unfold with_added. destruct (TraceRepository.has_id traceID t) eqn:E.
  - unfold TraceRepository.has_id in *. cbn. rewrite E. cbn.
    unfold TraceRepository.with_cost. cbn. f_equal. lia.
  - rewrite E. reflexivity.
Qed.

Lemma not_overflows (step : ExecutionStep) (traces : list Trace) :
  (forall t, In t traces -> TraceRepository.has_id traceID t = true ->
             Go.in_int (Trace_CostTokens t + CostTokens step)) ->
  overflows traceID step traces = false.
Proof.
  intros H. unfold overflows. apply not_true_is_false. intros He.
  apply existsb_exists in He. destruct He as (t & Hin & He).
  apply andb_true_iff in He. destruct He as (Hid & He).
  specialize (H t Hin Hid). unfold Go.in_int in H.
  apply negb_true_iff, andb_false_iff in He. destruct He as [He|He]; lia.
Qed.

Lemma int_sum_nonneg (l : list Z) : Forall (fun z => 0 <= z) l -> 0 <= Spec.int_sum l.
Proof.
  induction 1; cbn; [lia|]. unfold Spec.int_sum in *. lia.
Qed.

Lemma existsb_ids (st : list ExecutionStep) (id : string) :
  existsb (fun s => String.eqb (Step_ID s) id) st
  = existsb (fun i => String.eqb i id) (map Step_ID st).
Proof. induction st as [|s st IH]; cbn; congruence. Qed.

(** One call of [RecordStep] in a store that works, for a step of the
    trace that comes under a new identifier. *)
Lemma RecordStep_named (step : ExecutionStep) (w : World) :
  TraceID step = traceID -> w_faults w = [] ->
  existsb (fun i => String.eqb i (inserted_id (w_uuid w) step))
          (map Step_ID (w_steps w)) = false ->
  exists step' err w',
    Tracer.RecordStep step w = (Returned (step', err), w') /\
    w_steps w' = w_steps w ++ [step'] /\
    Step_ID step' = inserted_id (w_uuid w) step /\
    w_uuid w' = (if String.eqb (Step_ID step) "" then S (w_uuid w) else w_uuid w) /\
    w_traces w' = booked traceID step (w_traces w) /\
    (has_cost step && overflows traceID step (w_traces w) = false -> err = None) /\
    w_faults w' = [].
Proof.
  intros Ht Hf Hnew.
  destruct w as [tr st se ms ck uu fl cl].
  cbn [w_faults w_steps w_uuid] in Hf, Hnew. subst fl.
  rewrite <- existsb_ids in Hnew. unfold inserted_id in *.
  apply String.eqb_neq in traceID_given.
  unfold booked, overflows, has_cost.
  unfold Tracer.RecordStep.
  destruct (String.eqb (Step_ID step) "") eqn:Hi;
    run_M; world_cbn; rewrite ?Ht, traceID_given;
    (destruct (Sequence step =? 0) eqn:Hs; step_cbv; rewrite Hnew; step_cbv;
     (destruct ((CostTokens step >? 0) || Go.fgt (CostAPI step) 0); step_cbv;
      [ rewrite ?Ht;
        destruct (existsb _ tr); do 3 eexists; (split; [reflexivity|]); step_cbv;
        repeat split; auto; discriminate
      | do 3 eexists; (split; [reflexivity|]); step_cbv; repeat split; auto ])).
Qed.

(** X15. The cost of a trace is the sum of the costs of its steps:
    recorded one after the other in a store that works, steps that name
    one trace and are each inserted under an identifier the store does not
    hold by then -- the step's own, or the UUID drawn for it -- whether they
    come with a sequence number or not, and whose tokens are not negative,
    add the sum of their tokens to the tokens of that trace (when that sum
    fits the column) and add the API costs of the steps that declare a
    cost, in the order of the calls, to its cost; every call returns
    without error and no other trace changes. *)
Theorem trace_cost_accumulates (steps : list ExecutionStep) (w : World) :
  Forall (fun s => TraceID s = traceID) steps -> w_faults w = [] ->
  ids_new steps (map Step_ID (w_steps w)) (w_uuid w) = true ->
  Forall (fun s => 0 <= CostTokens s) steps ->
  (forall t, In t (w_traces w) -> TraceRepository.has_id traceID t = true ->
     Go.in_int (Trace_CostTokens t) /\
     Go.in_int (Trace_CostTokens t + Spec.int_sum (map CostTokens steps))) ->
  exists errs w',
    recordAll steps w = (Returned errs, w') /\
    Forall (fun err => err = None) errs /\
    w_traces w'
    = map (with_added traceID (Spec.int_sum (map CostTokens steps))
                      (map CostAPI (filter has_cost steps))) (w_traces w).
Proof.
  revert w. induction steps as [|step steps IH];
    intros w Hall Hf Hids Hpos Hrange; cbn [recordAll].
  - exists [], w. split; [reflexivity|]. split; [constructor|].
    cbn. rewrite <- (map_id (w_traces w)) at 1. apply map_ext. intros t.
    unfold with_added. destruct (TraceRepository.has_id traceID t); [|reflexivity].
    destruct t; unfold TraceRepository.with_cost; cbn. f_equal. lia.
  - apply Forall_cons_iff in Hall. destruct Hall as (Hstep & Hrest).
    apply Forall_cons_iff in Hpos. destruct Hpos as (Hp & Hposr).
    cbn [ids_new] in Hids. apply andb_true_iff in Hids. destruct Hids as (Hnew & Hids).
    apply negb_true_iff in Hnew.
    pose proof (int_sum_nonneg (l := map CostTokens steps)
                  ltac:(rewrite Forall_map; exact Hposr)) as Hsum.
    cbn [map] in Hrange.
    change (Spec.int_sum (CostTokens step :: map CostTokens steps))
      with (CostTokens step + Spec.int_sum (map CostTokens steps)) in Hrange.
    destruct (@RecordStep_named step w Hstep Hf Hnew)
      as (step' & err & w1 & Hrun & Hst & Hid & Huu & Htr & Herr & Hf1).
    assert (Hno : overflows traceID step (w_traces w) = false).
    { apply not_overflows. intros t Hin Hidt. destruct (Hrange t Hin Hidt) as (H1 & H2).
      unfold Go.in_int in *. lia. }
    unfold booked in Htr. rewrite Hno in Htr.
    rewrite Hno, andb_false_r in Herr. specialize (Herr eq_refl). subst err.
    assert (Hrange1 : forall t, In t (w_traces w1) ->
              TraceRepository.has_id traceID t = true ->
              Go.in_int (Trace_CostTokens t) /\
              Go.in_int (Trace_CostTokens t + Spec.int_sum (map CostTokens steps))).
    { intros t Hin Hidt. rewrite Htr in Hin.
      destruct (has_cost step) eqn:Hc.
      - apply in_map_iff in Hin. destruct Hin as (t0 & <- & Hin0).
        destruct (TraceRepository.has_id traceID t0) eqn:Hid0.
        + destruct (Hrange t0 Hin0 Hid0) as (H1 & H2). cbn.
          unfold Go.in_int in *. split; lia.
        + rewrite Hid0 in Hidt. discriminate.
      - destruct (Hrange t Hin Hidt) as (H1 & H2).
        unfold Go.in_int in *. split; lia. }
    assert (Hids1 : ids_new steps (map Step_ID (w_steps w1)) (w_uuid w1) = true).
    { rewrite Hst, map_app, Huu. cbn [map]. rewrite Hid. exact Hids. }
    destruct (IH w1 Hrest Hf1 Hids1 Hposr Hrange1)
      as (errs & w' & Hrun' & Herrs & Htr').
    exists (None :: errs), w'. unfold bind, ret. rewrite Hrun, Hrun'.
    split; [reflexivity|]. split; [constructor; auto|].
    rewrite Htr', Htr. cbn [filter map].
    change (Spec.int_sum (CostTokens step :: map CostTokens steps))
      with (CostTokens step + Spec.int_sum (map CostTokens steps)).
    destruct (has_cost step) eqn:Hc; cbn [map].
    + rewrite map_map. apply map_ext. intros t. apply with_added_booked.
    + assert (CostTokens step = 0) as ->.
      { unfold has_cost in Hc. apply orb_false_iff in Hc. destruct Hc as (Hc & _). lia. }
      reflexivity.
Qed.

(** X16. [RecordStep] is not one transaction: for a step that names a
    trace, declares a cost and is inserted under an identifier the store
    does not hold -- its own, or the UUID drawn for it -- whether it comes
    with a sequence number or not, when the store executes the statements
    up to the insert and then refuses the update of the trace's cost, the
    call returns the error "failed to update trace cost" and the step
    stays stored, while the trace keeps the cost it had. *)
Theorem RecordStep_keeps_step_when_cost_fails (step : ExecutionStep) (w : World)
        (rest : list bool) :
  TraceID step = traceID -> has_cost step = true ->
  w_faults w = repeat false (statements_to_insert step) ++ true :: rest ->
  existsb (fun i => String.eqb i (inserted_id (w_uuid w) step))
          (map Step_ID (w_steps w)) = false ->
  exists step' w',
    Tracer.RecordStep step w
    = (Returned (step', Some (Go.Errorf_w "failed to update trace cost" db_failure)), w') /\
    w_steps w' = w_steps w ++ [step'] /\
    w_traces w' = w_traces w.
Proof.
  intros Ht Hc Hf Hnew.
  destruct w as [tr st se ms ck uu fl cl].
  cbn [w_faults w_steps w_uuid] in Hf, Hnew. subst fl.
  rewrite <- existsb_ids in Hnew. unfold inserted_id in *.
  apply String.eqb_neq in traceID_given.
  unfold has_cost in Hc. unfold statements_to_insert.
  unfold Tracer.RecordStep.
  destruct (String.eqb (Step_ID step) "") eqn:Hi;
    run_M; world_cbn; rewrite ?Ht, traceID_given;
    (destruct (Sequence step =? 0) eqn:Hs; cbn [repeat app]; step_cbv;
     rewrite Hnew; step_cbv; rewrite Hc; step_cbv;
     do 2 eexists; (split; [reflexivity|]); split; reflexivity).
Qed.

End StepsOfATrace.

Lemma auto_numbering_is_dense_witness :
  exists errs w',
    recordAll [Scenario.costly_step; Scenario.costly_step]
              Scenario.world_with_running_trace = (Returned errs, w') /\
    Spec.sequences_of "t" w' = [1; 2].
Proof.
  assert (Hgiven : "t"%string <> ""%string) by discriminate.
  assert (Hall : Forall (unnumbered "t")
                        [Scenario.costly_step; Scenario.costly_step])
    by (repeat constructor).
  assert (Hfresh : step_ids_fresh Scenario.world_with_running_trace)
    by (intros s n []).
  destruct (@auto_numbering_is_dense "t" Hgiven
              [Scenario.costly_step; Scenario.costly_step]
              Scenario.world_with_running_trace 0 Hall eq_refl Hfresh eq_refl
              ltac:(vm_compute; reflexivity))
    as (errs & w' & Hrun & Hseq & _).
  exists errs, w'. split; [exact Hrun | exact Hseq].
Defined.

Lemma trace_cost_accumulates_witness :
  exists errs w',
    recordAll [Scenario.numbered_step; Scenario.costly_step]
              Scenario.world_with_running_trace = (Returned errs, w') /\
    map model.Trace_CostTokens (w_traces w') = [20] /\
    map model.Trace_CostAPI (w_traces w')
    = [PrimFloat.add (PrimFloat.add 0 0.0002) 0.0002]%float.
Proof.
  assert (Hgiven : "t"%string <> ""%string) by discriminate.
  assert (Hall : Forall (fun s => model.TraceID s = "t"%string)
                        [Scenario.numbered_step; Scenario.costly_step])
    by (repeat constructor).
  assert (Hpos : Forall (fun s => 0 <= model.CostTokens s)
                        [Scenario.numbered_step; Scenario.costly_step])
    by (repeat constructor; cbn; lia).
  assert (Hrange : forall t, In t (w_traces Scenario.world_with_running_trace) ->
            TraceRepository.has_id "t" t = true ->
            Go.in_int (model.Trace_CostTokens t) /\
            Go.in_int (model.Trace_CostTokens t
                       + Spec.int_sum (map model.CostTokens
                           [Scenario.numbered_step; Scenario.costly_step]))).
  { intros t [<-|[]] _. split; vm_compute; split; discriminate. }
  destruct (@trace_cost_accumulates "t" Hgiven
              [Scenario.numbered_step; Scenario.costly_step]
              Scenario.world_with_running_trace Hall eq_refl eq_refl Hpos Hrange)
    as (errs & w' & Hrun & _ & Htr).
  exists errs, w'. split; [exact Hrun|]. rewrite Htr. split; reflexivity.
Defined.

Lemma RecordStep_keeps_step_when_cost_fails_witness :
  exists step' w',
    Tracer.RecordStep Scenario.numbered_step
      (set_faults [false; true] Scenario.world_with_running_trace)
    = (Returned (step', Some (Go.Errorf_w "failed to update trace cost" db_failure)), w') /\
    w_steps w' = [step'] /\
    w_traces w' = [Scenario.running_trace].
Proof.
  assert (Hgiven : "t"%string <> ""%string) by discriminate.
  exact (@RecordStep_keeps_step_when_cost_fails "t" Hgiven Scenario.numbered_step
           (set_faults [false; true] Scenario.world_with_running_trace) []
           eq_refl eq_refl eq_refl eq_refl).
Defined.

(** ** The analysis engine: the cost of a session *)

Section SessionCost.
Import model AnalysisEngineImpl.

Variable sortSlice : forall A : Type, (A -> A -> bool) -> list A -> list A.

Lemma costByStepLoop_returns (traces : list Trace) (acc : list (string * float))
      (w : World) :
  exists r w', costByStepLoop traces acc w = (Returned r, w').
Proof.
  revert acc w. induction traces as [|t traces IH]; intros acc w; cbn [costByStepLoop].
  - exists acc, w. reflexivity.
  - destruct w as [tr st se ms ck uu fl cl].
    run_M. world_cbn. destruct (hd false fl); world_cbn; apply IH.
Qed.

Lemma calculateCostMetrics_fields (traces : list Trace) :
  total (calculateCostMetrics traces) = Spec.float_sum (map Trace_CostAPI traces) /\
  maximum (calculateCostMetrics traces)
  = fold_left (fun m v => if Go.fgt v m then v else m) (map Trace_CostAPI traces) 0%float /\
  average (calculateCostMetrics traces)
  = PrimFloat.div (Spec.float_sum (map Trace_CostAPI traces))
                  (Go.float64_of_int (Go.len traces)).
Proof.
  unfold calculateCostMetrics, Spec.float_sum.
  assert (H : forall t m,
    fold_left (fun '(total, max) trace =>
                 (PrimFloat.add total (Trace_CostAPI trace),
                  if Go.fgt (Trace_CostAPI trace) max then Trace_CostAPI trace else max))
              traces (t, m)
    = (Spec.sum_from t (map Trace_CostAPI traces),
       fold_left (fun m v => if Go.fgt v m then v else m) (map Trace_CostAPI traces) m)).
  { induction traces as [|x traces IH]; intros t m; cbn [fold_left map Spec.sum_from];
      [reflexivity | apply IH]. }
  rewrite H. cbn. repeat split; reflexivity.
Qed.

(** X17. The analysis engine reports a session's cost whenever the
    trace query succeeds, whether or not the steps can be read: the total
    is the sum of the traces' API costs in the order of the query, and the
    maximum is zero or one of these costs, exceeded neither by zero nor by
    any cost (it is zero when no trace has a positive cost). *)
Theorem session_cost_needs_only_the_traces (sessionID : string)
        (timeRange : option CostAnalyzerImpl.TimeRange)
        (traces : list Trace) (w w1 : World) :
  TraceRepository.GetBySessionID sessionID w = (Returned (traces, None), w1) ->
  exists a w',
    AnalyzeCost sortSlice sessionID timeRange w = (Returned (Some a, None), w') /\
    SessionID a = sessionID /\
    TotalCost a = Spec.float_sum (map Trace_CostAPI traces) /\
    In (MaxCost a) (0%float :: map Trace_CostAPI traces) /\
    (forall v, In v (0%float :: map Trace_CostAPI traces) -> Go.fgt v (MaxCost a) = false) /\
    (traces = [] -> AvgCost a = 0%float) /\
    (traces <> [] ->
     AvgCost a = PrimFloat.div (TotalCost a) (Go.float64_of_int (Go.len traces))).
Proof.
  intros Hq.
  pose proof (@fold_extremum (fun value max => Go.fgt value max)
                (map Trace_CostAPI traces) [0%float] 0%float
                ltb_irrefl
                (fun a b c Hab Hbc => ltb_trans Hab Hbc)
                (or_introl eq_refl)) as Hmax.
  cbn zeta in Hmax.
  specialize (Hmax ltac:(intros v [<-|[]]; apply ltb_irrefl)).
  cbn [app] in Hmax.
  destruct (calculateCostMetrics_fields traces) as (Ht & Hm & Ha).
  unfold AnalyzeCost, bind. rewrite Hq.
  destruct traces as [|t traces].
  - cbn. do 2 eexists. split; [reflexivity|]. cbn.
    repeat split; auto; try congruence.
    intros v [<-|[]]. apply ltb_irrefl.
  - replace (Go.len (t :: traces) =? 0) with false
      by (symmetry; apply Z.eqb_neq; unfold Go.len; cbn [List.length]; lia).
    unfold calculateCostByStepType, bind.
    destruct (costByStepLoop_returns (t :: traces) [] w1) as (r & w' & Hrun).
    rewrite Hrun. unfold ret.
    destruct (generateCostTrend sortSlice (t :: traces)) as [trend sorted] eqn:Hg.
    do 2 eexists. split; [reflexivity|]. cbn [SessionID TotalCost MaxCost AvgCost].
    rewrite Ht, Hm, Ha. repeat split; try apply Hmax; congruence.
Qed.

End SessionCost.

Lemma session_cost_needs_only_the_traces_witness :
  exists a w',
    AnalysisEngineImpl.AnalyzeCost (@Go.insertion_sort) "sid" None
      (set_faults [false; true; true; true] Scenario.world_with_traces)
    = (Returned (Some a, None), w') /\
    AnalysisEngineImpl.TotalCost a = 1.75%float /\
    AnalysisEngineImpl.CostByStep a = [].
Proof.
  destruct (@session_cost_needs_only_the_traces (@Go.insertion_sort) "sid" None _
              (set_faults [false; true; true; true] Scenario.world_with_traces) _
              eq_refl)
    as (a & w' & Hrun & _ & Htot & _).
  exists a, w'. split; [exact Hrun|]. split; [rewrite Htot; vm_compute; reflexivity|].
  assert (E : fst (AnalysisEngineImpl.AnalyzeCost (@Go.insertion_sort) "sid" None
                     (set_faults [false; true; true; true] Scenario.world_with_traces))
              = Returned (Some a, None)) by (rewrite Hrun; reflexivity).
  vm_compute in E. inversion E; subst a. reflexivity.
Defined.

(** ** The handler of GET /analysis/cost *)

Section CostAnalysisStatus.
Import model CostAnalyzerImpl.

Variable sortSlice : forall A : Type, (A -> A -> bool) -> list A -> list A.

Ltac status_done :=
  repeat split; intros;
  try match goal with H : _ /\ _ |- _ => destruct H end;
  try discriminate; try contradiction; try congruence; auto;
  try (eexists; split; reflexivity).

(** X18. GET /analysis/cost answers 400 exactly when session_id is
    empty, 500 exactly when the query for the session's traces fails, and
    200 with a result for that session otherwise, whatever else the store
    does; start_time and end_time never change the answer. *)
Theorem cost_analysis_status (sessionID startTime endTime : string) (w : World) :
  exists status result w',
    AnalysisHandler.AnalyzeCost sortSlice sessionID startTime endTime w
    = (Returned (status, result), w') /\
    (status = 400 <-> sessionID = "") /\
    (status = 500 <-> sessionID <> "" /\ hd false (w_faults w) = true) /\
    (status = 200 <-> sessionID <> "" /\ hd false (w_faults w) = false) /\
    (status = 200 -> exists r, result = Some r /\ SessionID r = sessionID) /\
    (status <> 200 -> result = None) /\
    forall startTime' endTime',
      AnalysisHandler.AnalyzeCost sortSlice sessionID startTime' endTime' w
      = AnalysisHandler.AnalyzeCost sortSlice sessionID startTime endTime w.
Proof.
  enough (Hmain : exists status result w',
    AnalysisHandler.AnalyzeCost sortSlice sessionID startTime endTime w
    = (Returned (status, result), w') /\
    (status = 400 <-> sessionID = "") /\
    (status = 500 <-> sessionID <> "" /\ hd false (w_faults w) = true) /\
    (status = 200 <-> sessionID <> "" /\ hd false (w_faults w) = false) /\
    (status = 200 -> exists r, result = Some r /\ SessionID r = sessionID) /\
    (status <> 200 -> result = None)).
  { destruct Hmain as (status & result & w' & Hrun & H1 & H2 & H3 & H4 & H5).
    exists status, result, w'. repeat split; try tauto. }
  unfold AnalysisHandler.AnalyzeCost.
  destruct (String.eqb sessionID "") eqn:Eid.
  { apply String.eqb_eq in Eid. exists 400, None, w.
    split; [reflexivity|]. status_done. }
  apply String.eqb_neq in Eid.
  set (input := AnalysisHandler.analysisInput sessionID startTime endTime) in *.
  destruct (hd false (w_faults w)) eqn:Hf.
  { destruct w as [tr st se ms ck uu fl cl]. cbn [w_faults] in Hf.
    unfold Analyze. run_M. world_cbn. rewrite Hf. cbn.
    do 3 eexists. split; [reflexivity|].
    status_done. }
  destruct (fetched (In_SessionID input) w) eqn:He.
  { destruct w as [tr st se ms ck uu fl cl].
    unfold fetched in He. cbn [w_faults w_traces] in Hf, He.
    unfold Analyze. run_M. world_cbn. rewrite Hf. world_cbn. rewrite He. cbn.
    do 3 eexists. split; [reflexivity|].
    status_done. }
  assert (Hne : fetched (In_SessionID input) w <> []) by (rewrite He; discriminate).
  destruct (@Analyze_run sortSlice input w Hf Hne eq_refl)
    as (mx & mn & breakdown & w' & calls & _ & _ & Hrun & _).
  unfold bind. rewrite Hrun. cbn.
  do 3 eexists. split; [reflexivity|].
  status_done.
Qed.

End CostAnalysisStatus.

(** ** The turn handlers: refused turns *)

Ltac run_H :=
  cbv beta iota zeta delta
    [bind ret get put modify panic issue statement time_Now uuid_New
     ActivityTracker.NewActivityTracker
     SessionService.Get SessionRepository.Get
     TraceRepository.Create Tracer.StartTrace].

Section RefusedTurns.
Import model LLMHandler.

Variable cfg : LLMService.Config.
Variable up : client.Upstream.

(** X19. Both turn handlers open the trace before they look for the
    session: a turn for a session the store does not hold is answered 404
    SESSION_NOT_FOUND and leaves a new trace of that session in the store,
    with status running and no end time; nothing else is stored. *)
Theorem unknown_session_leaves_running_trace (r : Request) (sessionID : string)
        (w : World) :
  param_id r = Some sessionID ->
  w_faults w = [] ->
  existsb (TraceRepository.has_id (uuid_of (w_uuid w))) (w_traces w) = false ->
  find (SessionRepository.has_id sessionID) (w_sessions w) = None ->
  exists w1 w2,
    Chat cfg up r w
    = (Returned (c_JSON 404 (gin_H_error "SESSION_NOT_FOUND") (newWriter r)), w1) /\
    ChatStream cfg up r w
    = (Returned (c_JSON 404 (gin_H_error "SESSION_NOT_FOUND") (newWriter r)), w2) /\
    opens_running_trace sessionID "simple_chat" w w1 /\
    opens_running_trace sessionID "stream_chat" w w2 /\
    nothing_else_stored w w1 /\ nothing_else_stored w w2.
Proof.
  intros Hid Hf Hfresh Hnone.
  destruct w as [tr st se ms ck uu fl cl].
  cbn [w_faults w_uuid w_traces w_sessions] in *. subst fl.
  unfold Chat, ChatStream. rewrite Hid.
  run_H. world_cbv. cbn [Trace_ID hd tl]. rewrite Hfresh. world_cbv.
  step_cbv. rewrite Hnone.
  do 2 eexists. split; [reflexivity|]. split; [reflexivity|].
  unfold opens_running_trace, nothing_else_stored. world_cbv.
  repeat split; eexists; (split; [reflexivity|]); repeat split.
Qed.

End RefusedTurns.

Lemma unknown_session_leaves_running_trace_witness :
  exists w1 w2,
    LLMHandler.Chat Scenario.cfg (Scenario.upstream [])
      (LLMHandler.Build_Request (Some "nobody") (LLMHandler.body Scenario.request)
         None false false false) Scenario.world
    = (Returned (LLMHandler.c_JSON 404 (LLMHandler.gin_H_error "SESSION_NOT_FOUND")
                   (LLMHandler.newWriter Scenario.request)), w1) /\
    LLMHandler.ChatStream Scenario.cfg (Scenario.upstream [])
      (LLMHandler.Build_Request (Some "nobody") (LLMHandler.body Scenario.request)
         None false false false) Scenario.world
    = (Returned (LLMHandler.c_JSON 404 (LLMHandler.gin_H_error "SESSION_NOT_FOUND")
                   (LLMHandler.newWriter Scenario.request)), w2) /\
    map model.Status (w_traces w1) = [model.TraceStatusRunning] /\
    map model.Status (w_traces w2) = [model.TraceStatusRunning].
Proof.
  destruct (@unknown_session_leaves_running_trace Scenario.cfg (Scenario.upstream [])
              (LLMHandler.Build_Request (Some "nobody") (LLMHandler.body Scenario.request)
                 None false false false)
              "nobody" Scenario.world eq_refl eq_refl eq_refl eq_refl)
    as (w1 & w2 & H1 & H2 & (t1 & Ht1 & _ & _ & Hs1 & _) & (t2 & Ht2 & _ & _ & Hs2 & _) & _).
  exists w1, w2. split; [exact H1|]. split; [exact H2|].
  rewrite Ht1, Ht2. cbn. rewrite Hs1, Hs2. split; reflexivity.
Defined.

(** ** The turn handlers: what a turn stores *)

Section Turns.
Import model LLMHandler.

Variable cfg : LLMService.Config.
Variable up : client.Upstream.

Lemma uuid_eqb_neq (a b : nat) : a <> b -> String.eqb (uuid_of a) (uuid_of b) = false.
Proof.
  intros H. apply String.eqb_neq. intros E. apply uuid_of_inj in E. contradiction.
Qed.

Lemma uuid_nonempty (n : nat) : String.eqb (uuid_of n) "" = false.
Proof. reflexivity. Qed.

Lemma convertMessages_run (sessionID : string) (msgs : list MessageRequest) (w : World) :
  convertMessages sessionID msgs w
  = (Returned (converted sessionID (w_uuid w) msgs),
     set_uuid (w_uuid w + List.length msgs) w).
Proof.
  revert w. induction msgs as [|m msgs IH]; intros w; cbn [convertMessages converted].
  - destruct w. cbn. rewrite Nat.add_0_r. reflexivity.
  - unfold bind, uuid_New, ret. rewrite IH. destruct w. cbn.
    rewrite Nat.add_succ_r. reflexivity.
Qed.

Lemma saveUserMessages_run (sessionID : string) (msgs : list MessageRequest) (a : nat)
      tr st se ms ck uu cl :
  (forall n, (a <= n)%nat ->
     existsb (fun m => String.eqb (Message_ID m) (uuid_of n)) ms = false) ->
  saveUserMessages (converted sessionID a msgs)
    {| w_traces := tr; w_steps := st; w_sessions := se; w_messages := ms;
       w_clock := ck; w_uuid := uu; w_faults := []; w_calls := cl |}
  = (Returned tt,
     {| w_traces := tr; w_steps := st; w_sessions := se;
        w_messages := ms ++ map (stamped ck) (converted sessionID a msgs);
        w_clock := ck; w_uuid := uu; w_faults := [];
        w_calls := cl ++ map CallMessageCreate
                           (map (stamped ck) (converted sessionID a msgs)) |}).
Proof.
  revert a ms cl. induction msgs as [|m msgs IH]; intros a ms cl Hfresh;
    cbn [saveUserMessages converted map].
  - rewrite !app_nil_r. reflexivity.
  - cbv beta iota zeta delta
      [bind ret get modify issue time_Now MessageService.SaveMessage
       MessageRepository.Create].
    step_cbv. cbn [Message_ID]. rewrite (Hfresh a (Nat.le_refl a)).
    step_cbv. rewrite IH.
    + unfold stamped at 1 3. cbn [Message_ID Message_SessionID Role Content Tokens].
      rewrite <- !app_assoc. reflexivity.
    + intros n Hn. rewrite existsb_app, (Hfresh n ltac:(lia)). cbn [existsb Message_ID].
      rewrite uuid_eqb_neq by lia. reflexivity.
Qed.

Lemma existsb_guard_false {A : Type} (f g : A -> bool) (l : list A) :
  existsb f l = false -> existsb (fun x => f x && g x) l = false.
Proof.
  induction l as [|x l IH]; cbn; [reflexivity|]. intros H.
  apply orb_false_iff in H. destruct H as (Hx & Hl). now rewrite Hx, IH.
Qed.

Lemma map_guard_id {A : Type} (f : A -> bool) (h : A -> A) (l : list A) :
  existsb f l = false -> map (fun x => if f x then h x else x) l = l.
Proof.
  induction l as [|x l IH]; cbn; [reflexivity|]. intros H.
  apply orb_false_iff in H. destruct H as (Hx & Hl). now rewrite Hx, IH.
Qed.

Lemma converted_ids (sessionID : string) (msgs : list MessageRequest) (a b : nat)
      (now : Time) :
  (b < a)%nat \/ (a + List.length msgs <= b)%nat ->
  existsb (fun m => String.eqb (Message_ID m) (uuid_of b))
          (map (stamped now) (converted sessionID a msgs)) = false.
Proof.
  revert a. induction msgs as [|m msgs IH]; intros a H; cbn [converted map existsb];
    [reflexivity|].
  cbn [stamped Message_ID List.length] in *.
  rewrite uuid_eqb_neq by lia. rewrite IH by lia. reflexivity.
Qed.

Lemma said_converted (sessionID : string) (msgs : list MessageRequest) (a : nat)
      (now : Time) :
  map said (map (stamped now) (converted sessionID a msgs))
  = map (fun m => (sessionID, MR_Role m, MR_Content m)) msgs.
Proof.
  revert a. induction msgs as [|m msgs IH]; intros a; cbn [converted map];
    [reflexivity|].
  rewrite IH. reflexivity.
Qed.

Lemma budget_fits (sessionID : string) (tokens : Z) (se : list Session) :
  (forall s, In s se -> SessionRepository.has_id sessionID s = true ->
     Go.in_int (UsedTokens (Session_Budget s) + tokens)) ->
  existsb (fun s => SessionRepository.has_id sessionID s &&
             negb ((Go.int_min <=? UsedTokens (Session_Budget s) + tokens) &&
                   (UsedTokens (Session_Budget s) + tokens <=? Go.int_max))) se = false.
Proof.
  intros H. apply not_true_is_false. intros He. apply existsb_exists in He.
  destruct He as (s & Hin & He). apply andb_true_iff in He. destruct He as (Hid & He).
  specialize (H s Hin Hid). unfold Go.in_int in H.
  apply negb_true_iff, andb_false_iff in He. destruct He as [He|He]; lia.
Qed.

Ltac run_T :=
  cbv beta iota zeta delta
    [bind ret get put modify panic issue statement time_Now uuid_New
     ActivityTracker.NewActivityTracker
     SessionService.Get SessionRepository.Get
     SessionService.UpdateBudget SessionRepository.UpdateBudget
     MessageService.SaveMessage MessageRepository.Create
     TraceRepository.Create TraceRepository.UpdateStatus TraceRepository.UpdateCost
     StepRepository.Create
     Tracer.StartTrace Tracer.RecordStep Tracer.RecordSnapshot Tracer.EndTrace
     recordPreSnapshot recordPostSnapshot
     client.ExecuteAgent client.elapse].

Ltac turn_cbv :=
  cbv beta iota zeta delta
    [hd tl w_traces w_steps w_sessions w_messages w_clock w_uuid w_faults w_calls
     set_uuid set_calls set_faults set_steps set_traces set_sessions set_messages
     set_clock fst snd Z.eqb];
  cbn [Tracer.with_ID Tracer.with_times Tracer.with_Sequence
       Step_ID TraceID Sequence CostTokens CostAPI CreatedAt UpdatedAt
       Trace_ID Message_ID].

Ltac turn_ids Hst Hms :=
  repeat
    (turn_cbv;
     try rewrite !uuid_nonempty;
     try rewrite !existsb_app;
     repeat match goal with
       | |- context [existsb (fun s => String.eqb (Step_ID s) (uuid_of ?a)) ?l] =>
           rewrite (Hst a) by lia
       | |- context [existsb (fun m => String.eqb (Message_ID m) (uuid_of ?a)) ?l] =>
           first [rewrite (Hms a) by lia | rewrite converted_ids by lia]
       end;
     cbn [existsb Step_ID Message_ID stamped];
     repeat match goal with
       | |- context [String.eqb (uuid_of ?a) (uuid_of ?b)] =>
           rewrite (@uuid_eqb_neq a b) by lia
       end;
     cbn [orb andb]).

(** The snapshots' marshalling: the state before the call holds no
    float and is always written; the state after the call holds the cost,
    and the two outcomes are followed separately. *)
Ltac marshal_pre :=
  repeat match goal with
    | |- context [json_Marshal (JObj (("messages_count", ?a) :: ?l))] =>
        change (json_Marshal (JObj (("messages_count", a) :: l)))
          with (@None Go.error_value)
    end.

Ltac marshal_split :=
  marshal_pre;
  repeat match goal with
    | |- context [json_Marshal ?j] => destruct (json_Marshal j)
    end.

Ltac unary_turn_charged Hst Hms Hguard Htr Hin Hfit uu tr sessionID :=
  turn_ids Hst Hms; rewrite Hguard;
  rewrite !map_app, !(@map_guard_id _ (TraceRepository.has_id (uuid_of uu)) _ tr Htr);
  unfold TraceRepository.has_id; cbn [map Trace_ID Trace_CostTokens Trace_CostAPI];
  rewrite !String.eqb_refl, Hin; cbn [negb andb orb];
  turn_ids Hst Hms;
  rewrite saveUserMessages_run by (intros; apply Hms; lia);
  turn_ids Hst Hms; rewrite Hfit; turn_ids Hst Hms;
  do 4 eexists; split; [reflexivity|]; split; [reflexivity|];
  split; [rewrite <- app_assoc; reflexivity|];
  split; [rewrite map_app, said_converted; reflexivity|];
  split;
    [cbn [w_sessions]; rewrite map_map; apply map_ext; intros s; unfold charged;
     destruct (SessionRepository.has_id sessionID s); reflexivity|];
  split;
    [rewrite map_app;
     rewrite (@map_guard_id _ (fun t0 => String.eqb (Trace_ID t0) (uuid_of uu)) _ tr Htr);
     cbn [map TraceRepository.with_cost Trace_ID]; rewrite String.eqb_refl;
     reflexivity|];
  repeat split; cbn; lia.

Ltac unary_turn_free Hst Hms Hcost Htr Hfit uu tr sessionID response :=
  apply orb_false_iff in Hcost; destruct Hcost as (Hzero & _);
  assert (Hnone : Usage_total (Usage response) = 0) by lia;
  turn_ids Hst Hms;
  rewrite !map_app;
  unfold TraceRepository.has_id; cbn [map Trace_ID];
  rewrite !String.eqb_refl;
  turn_ids Hst Hms;
  rewrite saveUserMessages_run by (intros; apply Hms; lia);
  turn_ids Hst Hms; rewrite Hfit; turn_ids Hst Hms;
  do 4 eexists; split; [reflexivity|]; split; [reflexivity|];
  split; [rewrite <- app_assoc; reflexivity|];
  split; [rewrite map_app, said_converted; reflexivity|];
  split;
    [cbn [w_sessions]; rewrite map_map; apply map_ext; intros s; unfold charged;
     destruct (SessionRepository.has_id sessionID s); reflexivity|];
  split;
    [rewrite (@map_guard_id _ (fun t0 => String.eqb (Trace_ID t0) (uuid_of uu)) _ tr Htr);
     reflexivity|];
  repeat split; cbn; lia.

(** X20. A unary turn that succeeds stores the exchange and charges the
    session: with a valid configuration, a session the store holds, an
    upstream that answers and a store that works, POST /sessions/:id/chat
    answers 200, appends to the stored messages every message of the
    request, in order, and then the reply, all under the session's
    identifier; adds the reply's tokens and cost to the used budget of that
    session and of no other; and leaves one new trace of the session,
    completed, carrying the reply's tokens. *)
Theorem unary_turn_stores_the_exchange (r : Request) (sessionID : string)
        (req : ChatRequest) (k : LLMConfig) (session : Session)
        (response : LLMResponse) (w : World) :
  param_id r = Some sessionID -> body r = Some req ->
  buildConfig req = (Some k, None) ->
  client.getConnection up = None -> snd (client.unary up) = inl response ->
  w_faults w = [] -> ids_fresh w ->
  find (SessionRepository.has_id sessionID) (w_sessions w) = Some session ->
  0 <= Usage_total (Usage response) <= Go.int_max ->
  (forall s, In s (w_sessions w) -> SessionRepository.has_id sessionID s = true ->
     Go.in_int (UsedTokens (Session_Budget s) + Usage_total (Usage response))) ->
  exists rw w' new t,
    Chat cfg up r w = (Returned rw, w') /\
    status rw = Some 200 /\
    w_messages w' = w_messages w ++ new /\
    map said new
    = map (fun m => (sessionID, MR_Role m, MR_Content m)) (CR_Messages req)
      ++ [(sessionID, Role (Resp_Message response), Content (Resp_Message response))] /\
    map Session_Budget (w_sessions w')
    = map (charged sessionID (Usage_total (Usage response)) (Cost response))
          (w_sessions w) /\
    w_traces w' = w_traces w ++ [t] /\
    Trace_SessionID t = sessionID /\ Status t = TraceStatusCompleted /\
    Trace_CostTokens t = Usage_total (Usage response).
Proof.
  intros Hid Hbody Hcfg Hconn Hun Hf Hfresh Hs Htok Hrange.
  destruct w as [tr st se ms ck uu fl cl].
  cbn [w_faults w_uuid w_traces w_sessions w_messages] in *. subst fl.
  unfold ids_fresh in Hfresh. cbn [w_uuid w_traces w_steps w_messages] in Hfresh.
  assert (Htr : existsb (TraceRepository.has_id (uuid_of uu)) tr = false)
    by (apply (Hfresh uu); lia).
  assert (Hst : forall n, (uu <= n)%nat ->
            existsb (fun s => String.eqb (Step_ID s) (uuid_of n)) st = false)
    by (intros n Hn; apply (Hfresh n Hn)).
  assert (Hms : forall n, (uu <= n)%nat ->
            existsb (fun m => String.eqb (Message_ID m) (uuid_of n)) ms = false)
    by (intros n Hn; apply (Hfresh n Hn)).
  pose proof (@budget_fits sessionID _ _ Hrange) as Hfit.
  clear Hfresh Hrange.
  remember (List.length (CR_Messages req)) as n eqn:Hn.
  unfold Chat. rewrite Hid, Hbody, Hcfg.
  destruct (client.unary up) as [d res] eqn:Hu. cbn [snd] in Hun. subst res.
  assert (Hin : ((Go.int_min <=? 0 + Usage_total (Usage response)) &&
                 (0 + Usage_total (Usage response) <=? Go.int_max)) = true).
  { unfold Go.int_min, Go.int_max in *. apply andb_true_iff. split; lia. }
  pose proof (@existsb_guard_false _ (TraceRepository.has_id (uuid_of uu))
                (fun t0 => negb ((Go.int_min <=? Trace_CostTokens t0
                                                 + Usage_total (Usage response)) &&
                                 (Trace_CostTokens t0 + Usage_total (Usage response)
                                  <=? Go.int_max))) tr Htr) as Hguard.
  cbv beta in Hguard.
  run_T. rewrite Hconn, Hu. turn_cbv.
  rewrite Htr. turn_cbv. rewrite Hs.
  rewrite convertMessages_run. turn_cbv. rewrite <- Hn.
  marshal_split.
  all: turn_ids Hst Hms.
  all: destruct ((Usage_total (Usage response) >? 0) || Go.fgt (Cost response) 0)
         eqn:Hcost.
  1, 3: unary_turn_charged Hst Hms Hguard Htr Hin Hfit uu tr sessionID.
  all: unary_turn_free Hst Hms Hcost Htr Hfit uu tr sessionID response.
Qed.

Lemma ExecuteAgent_frame (request : LLMRequest) (w : World) :
  exists d, snd (client.ExecuteAgent up request w) = set_clock (w_clock w + d) w.
Proof.
  unfold client.ExecuteAgent, client.elapse, bind, modify, ret.
  destruct (client.getConnection up).
  - exists 0. destruct w. cbn. now rewrite Z.add_0_r.
  - destruct (snd (client.unary up)); eexists; reflexivity.
Qed.

(** X21. A unary turn whose upstream call fails stores nothing of the
    exchange: with a valid configuration, a session the store holds and a
    store that works, POST /sessions/:id/chat answers 500
    CHAT_EXECUTION_FAILED with the client's error text, stores no message,
    leaves every session as it was, and leaves one new trace of the
    session, closed as failed, without cost. *)
Theorem failed_turn_stores_nothing (r : Request) (sessionID : string)
        (req : ChatRequest) (k : LLMConfig) (session : Session)
        (e : Go.error_value) (w : World) :
  param_id r = Some sessionID -> body r = Some req ->
  buildConfig req = (Some k, None) ->
  (forall request w0,
     fst (client.ExecuteAgent up request w0) = Returned (None, Some e)) ->
  w_faults w = [] -> ids_fresh w ->
  find (SessionRepository.has_id sessionID) (w_sessions w) = Some session ->
  exists w' t,
    Chat cfg up r w
    = (Returned (c_JSON 500 (gin_H_error_message "CHAT_EXECUTION_FAILED" (Go.Error e))
                        (newWriter r)), w') /\
    w_messages w' = w_messages w /\
    w_sessions w' = w_sessions w /\
    w_traces w' = w_traces w ++ [t] /\
    Trace_SessionID t = sessionID /\ Status t = TraceStatusFailed /\
    Trace_CostTokens t = 0.
Proof.
  intros Hid Hbody Hcfg Hup Hf Hfresh Hs.
  destruct w as [tr st se ms ck uu fl cl].
  cbn [w_faults w_uuid w_traces w_sessions w_messages] in *. subst fl.
  unfold ids_fresh in Hfresh. cbn [w_uuid w_traces w_steps w_messages] in Hfresh.
  assert (Htr : existsb (TraceRepository.has_id (uuid_of uu)) tr = false)
    by (apply (Hfresh uu); lia).
  assert (Hst : forall n, (uu <= n)%nat ->
            existsb (fun s => String.eqb (Step_ID s) (uuid_of n)) st = false)
    by (intros n Hn; apply (Hfresh n Hn)).
  assert (Hms : forall n, (uu <= n)%nat ->
            existsb (fun m => String.eqb (Message_ID m) (uuid_of n)) ms = false)
    by (intros n Hn; apply (Hfresh n Hn)).
  clear Hfresh.
  remember (List.length (CR_Messages req)) as n eqn:Hn.
  unfold Chat. rewrite Hid, Hbody, Hcfg.
  cbv beta iota zeta delta
    [bind ret get put modify panic issue statement time_Now uuid_New
     ActivityTracker.NewActivityTracker
     SessionService.Get SessionRepository.Get
     TraceRepository.Create TraceRepository.UpdateStatus StepRepository.Create
     Tracer.StartTrace Tracer.RecordSnapshot Tracer.EndTrace recordPreSnapshot].
  turn_cbv.
  rewrite Htr. turn_cbv. rewrite Hs.
  rewrite convertMessages_run. turn_cbv. rewrite <- Hn.
  marshal_split.
  turn_ids Hst Hms.
  match goal with
  | |- context [client.ExecuteAgent up ?q ?w0] =>
      destruct (ExecuteAgent_frame q w0) as (d & Hd);
      rewrite (surjective_pairing (client.ExecuteAgent up q w0)), Hup, Hd
  end.
  turn_ids Hst Hms.
  rewrite map_app, (@map_guard_id _ (TraceRepository.has_id (uuid_of uu)) _ tr Htr).
  unfold TraceRepository.has_id. cbn [map Trace_ID]. rewrite String.eqb_refl.
  do 2 eexists. split; [reflexivity|]. repeat split.
Qed.








End Turns.

Lemma unary_turn_stores_the_exchange_witness :
  exists rw w',
    LLMHandler.Chat Scenario.cfg (Scenario.upstream []) Scenario.request Scenario.world
    = (Returned rw, w') /\
    LLMHandler.status rw = Some 200 /\
    map said (w_messages w') = [("sid", "user", "hi"); ("sid", "assistant", "hello")] /\
    map (fun s => model.UsedTokens (model.Session_Budget s)) (w_sessions w') = [10].
Proof.
  assert (Hfresh : ids_fresh Scenario.world) by (intros n _; repeat split).
  assert (Hrange : forall s, In s (w_sessions Scenario.world) ->
            SessionRepository.has_id "sid" s = true ->
            Go.in_int (model.UsedTokens (model.Session_Budget s)
                       + LLMHandler.Usage_total (model.Usage Scenario.hello))).
  { intros s [<-|[]] _. vm_compute. split; discriminate. }
  destruct (@unary_turn_stores_the_exchange Scenario.cfg (Scenario.upstream [])
              Scenario.request "sid" _ _ Scenario.session Scenario.hello Scenario.world
              eq_refl eq_refl eq_refl eq_refl eq_refl eq_refl Hfresh eq_refl
              ltac:(vm_compute; split; discriminate) Hrange)
    as (rw & w' & new & t & Hrun & Hst & Hm & Hsaid & Hse & _).
  exists rw, w'. split; [exact Hrun|]. split; [exact Hst|].
  split; [rewrite Hm; cbn [w_messages Scenario.world app]; rewrite Hsaid; reflexivity|].
  change (fun s => model.UsedTokens (model.Session_Budget s))
    with (fun s => model.UsedTokens ((fun s0 => model.Session_Budget s0) s)).
  rewrite <- (map_map (fun s0 => model.Session_Budget s0) model.UsedTokens).
  change (fun s0 => model.Session_Budget s0) with model.Session_Budget.
  rewrite Hse. reflexivity.
Defined.

Lemma failed_turn_stores_nothing_witness :
  exists w',
    LLMHandler.Chat Scenario.cfg
      {| client.closed := true; client.conn_nil := false;
         client.unary := (0, inl Scenario.hello); client.stream_open := None;
         client.script := [] |}
      Scenario.request Scenario.world
    = (Returned (LLMHandler.c_JSON 500
                   (LLMHandler.gin_H_error_message "CHAT_EXECUTION_FAILED"
                      "gRPC client is closed")
                   (LLMHandler.newWriter Scenario.request)), w') /\
    w_messages w' = [] /\
    map model.Status (w_traces w') = [model.TraceStatusFailed].
Proof.
  assert (Hfresh : ids_fresh Scenario.world) by (intros n _; repeat split).
  destruct (@failed_turn_stores_nothing Scenario.cfg
              {| client.closed := true; client.conn_nil := false;
                 client.unary := (0, inl Scenario.hello); client.stream_open := None;
                 client.script := [] |}
              Scenario.request "sid" _ _ Scenario.session
              (Go.errors_New "gRPC client is closed") Scenario.world
              eq_refl eq_refl eq_refl (fun _ _ => eq_refl) eq_refl Hfresh eq_refl)
    as (w' & t & Hrun & Hm & _ & Ht & _ & Hs & _).
  exists w'. split; [exact Hrun|]. split; [exact Hm|].
  rewrite Ht. cbn. rewrite Hs. reflexivity.
Defined.

(** ** The streaming turn: what it stores of the exchange *)

Section StoresOnly.
Variable P : model.Message -> Prop.

Lemma stores_silent {A : Type} (c : M A) :
  (forall w, w_messages (snd (c w)) = w_messages w) -> stores_only P c.
Proof.
  intros H w. exists []. rewrite app_nil_r. split; [apply H | constructor].
Qed.

Lemma stores_bind {A B : Type} (c : M A) (k : A -> M B) :
  stores_only P c -> (forall a, stores_only P (k a)) -> stores_only P (bind c k).
Proof.
  intros Hc Hk w. unfold bind. destruct (Hc w) as (l1 & H1 & F1).
  destruct (c w) as [[a|msg] w1]; cbn [snd] in *.
  - destruct (Hk a w1) as (l2 & H2 & F2). exists (l1 ++ l2).
    rewrite H2, H1, app_assoc. split; [reflexivity | now apply Forall_app].
  - exists l1. now split.
Qed.

Lemma stores_Create (m : model.Message) : P m -> stores_only P (MessageRepository.Create m).
Proof.
  intros H w. unfold MessageRepository.Create, bind, issue, get, modify, ret.
  cbn [fst snd]. destruct (hd false (w_faults w)).
  - exists []. rewrite app_nil_r. split; [reflexivity | constructor].
  - cbn [fst snd]. destruct (existsb _ _).
    + exists []. rewrite app_nil_r. split; [reflexivity | constructor].
    + exists [m]. split; [reflexivity | now constructor].
Qed.
End StoresOnly.

Ltac stores_unfold :=
progress cbv beta delta
  [Tracer.StartTrace Tracer.RecordStep Tracer.getNextSequence Tracer.RecordSnapshot
   Tracer.EndTrace TraceRepository.Create TraceRepository.UpdateStatus
   TraceRepository.UpdateCost StepRepository.Create StepRepository.GetByTraceID
   SessionService.Get SessionService.UpdateBudget SessionRepository.Get
   SessionRepository.UpdateBudget MessageService.SaveMessage
   ActivityTracker.NewActivityTracker ActivityTracker.UpdateActivity
   ActivityTracker.shouldTimeout client.elapse
   LLMHandler.recordPreSnapshot LLMHandler.recordPostSnapshot LLMHandler.callback
   LLMHandler.errorMessageOf].

Ltac stores_step :=
lazymatch goal with
| |- stores_only _ (bind _ _) => apply stores_bind; [|intros]
| |- stores_only _ (MessageRepository.Create _) => apply stores_Create; reflexivity
| |- stores_only _ (ret _) => apply stores_silent; reflexivity
| |- stores_only _ (panic _) => apply stores_silent; reflexivity
| |- stores_only _ get => apply stores_silent; reflexivity
| |- stores_only _ time_Now => apply stores_silent; reflexivity
| |- stores_only _ uuid_New => apply stores_silent; reflexivity
| |- stores_only _ (modify _) => apply stores_silent; reflexivity
| |- stores_only _ (issue _) => apply stores_silent; reflexivity
| |- stores_only _ (if ?b then _ else _) => destruct b
| |- stores_only _ (match ?x with _ => _ end) => destruct x
| |- stores_only _ _ => first [stores_unfold | progress cbv beta zeta]
end.

Ltac stores_auto := repeat stores_step.

Section StreamStores.
Import model.

Lemma stores_convertMessages (P : Message -> Prop) (sessionID : string)
      (msgs : list LLMHandler.MessageRequest) :
  stores_only P (LLMHandler.convertMessages sessionID msgs).
Proof.
  induction msgs as [|m msgs IH]; cbn [LLMHandler.convertMessages]; stores_auto.
  exact IH.
Qed.

Lemma stores_callback (P : Message -> Prop) (trace : option Trace)
      (messages : list Message) (chunk : client.StreamChunk) (s : LLMHandler.Locals) :
  stores_only P (LLMHandler.callback trace messages chunk s).
Proof. stores_auto. Qed.

Lemma stores_recvLoop (P : Message -> Prop) (S : Type)
      (callback : client.StreamChunk -> S -> M (S * Go.error))
      (script : list client.Recv) (s : S) :
  (forall chunk s, stores_only P (callback chunk s)) ->
  stores_only P (client.recvLoop callback script s).
Proof.
  intros Hcb. revert s.
  induction script as [|r script IH]; intros s; cbn [client.recvLoop]; stores_auto.
  - apply Hcb.
  - apply IH.
Qed.

(** X23. A streaming turn never stores the messages of the request:
    whatever the request, the store and the upstream do, POST
    /sessions/:id/chat/stream leaves the stored messages in place and
    appends only messages of role assistant. *)
Theorem streaming_turn_stores_only_the_reply (cfg : LLMService.Config)
        (up : client.Upstream) (r : LLMHandler.Request) (w : World) :
  exists new,
    w_messages (snd (LLMHandler.ChatStream cfg up r w)) = w_messages w ++ new /\
    Forall (fun m => Role m = "assistant") new.
Proof.
  enough (H : stores_only from_assistant (LLMHandler.ChatStream cfg up r))
    by exact (H w).
  unfold LLMHandler.ChatStream. stores_auto.
  all: try apply stores_convertMessages.
  all: unfold client.ExecuteAgentStream; stores_auto.
  all: try (apply stores_recvLoop; intros; apply stores_callback).
Qed.

End StreamStores.

(** ** The replay engine *)

Section ReplayFacts.
Import model ReplayEngineImpl.

Variable Unmarshal_Snapshot : JSON -> Snapshot + Go.error_value.
Variable Unmarshal_State : JSON -> Go.error.

Lemma findSnapshot_none (steps : list ExecutionStep) (snapshotIndex : Z) :
  Forall (fun s => StepType s = "snapshot" -> Sequence s = 0) steps ->
  snapshotIndex <> 0 ->
  findSnapshot Unmarshal_Snapshot steps snapshotIndex = (None, None).
Proof.
  intros Hall Hidx. induction Hall as [|s steps Hs Hall IH]; cbn [findSnapshot];
    [reflexivity|].
  destruct (String.eqb (StepType s) "snapshot") eqn:E; cbn [andb]; [|exact IH].
  apply String.eqb_eq in E. rewrite (Hs E).
  replace (0 =? snapshotIndex) with false by (symmetry; apply Z.eqb_neq; lia).
  exact IH.
Qed.

(** X24. The replay engine looks for a snapshot by the sequence number of
    its step, and the tracer stores every snapshot with sequence number 0:
    on a trace whose snapshot steps all carry the number 0, a replay from
    any index other than 0 returns the error "snapshot <index> not found"
    and leaves the store as it is. *)
Theorem replay_index_is_a_sequence_number (traceID : string) (snapshotIndex : Z)
        (t : Trace) (w : World) :
  w_faults w = [] ->
  find (TraceRepository.has_id traceID) (w_traces w) = Some t ->
  Forall (fun s => TraceID s = traceID -> StepType s = "snapshot" -> Sequence s = 0)
         (w_steps w) ->
  snapshotIndex <> 0 ->
  exists w',
    ReplayFromSnapshot Unmarshal_Snapshot Unmarshal_State traceID snapshotIndex w
    = (Returned (None, Some (Go.errors_New ("snapshot " ++ LLMHandler.decimal snapshotIndex
                                            ++ " not found")%string)), w') /\
    w_traces w' = w_traces w /\ nothing_else_stored w w'.
Proof.
  intros Hf Ht Hall Hidx.
  destruct w as [tr st se ms ck uu fl cl].
  cbn [w_faults w_traces w_steps] in *. subst fl.
  unfold ReplayFromSnapshot, Tracer.GetTrace.
  cbv beta iota zeta delta
    [bind ret get statement issue TraceRepository.GetByID StepRepository.GetByTraceID].
  step_cbv. rewrite Ht. step_cbv.
  rewrite findSnapshot_none;
    [eexists; split; [reflexivity | repeat split] | | exact Hidx].
  apply (Permutation_Forall (insertion_sort_perm _ _)).
  apply Forall_forall. intros s Hin. apply filter_In in Hin. destruct Hin as (Hin & Hid).
  apply String.eqb_eq in Hid. rewrite Forall_forall in Hall. exact (Hall s Hin Hid).
Qed.

Ltac plain t :=
  lazymatch t with
  | context [if _ then _ else _] => fail
  | context [match _ with _ => _ end] => fail
  | _ => idtac
  end.

Ltac split_cases :=
  repeat (step_cbv; cbn [length map Trace_ID];
          match goal with
          | |- context [if ?b then _ else _] => plain b; destruct b
          | |- context [match ?x with _ => _ end] => plain x; destruct x
          end).

(** X25. A replay executes nothing: whatever the trace, the index, the
    store and the decoder do, [ReplayFromSnapshot] leaves the stored steps,
    messages and sessions as they are and adds at most one trace. *)
Theorem replay_records_no_step (traceID : string) (snapshotIndex : Z) (w : World) :
  let w' := snd (ReplayFromSnapshot Unmarshal_Snapshot Unmarshal_State traceID
                   snapshotIndex w) in
  w_steps w' = w_steps w /\ w_messages w' = w_messages w /\
  w_sessions w' = w_sessions w /\
  (List.length (w_traces w') <= S (List.length (w_traces w)))%nat.
Proof.
  destruct w as [tr st se ms ck uu fl cl].
  cbv zeta.
  unfold ReplayFromSnapshot, Tracer.GetTrace, Tracer.StartTrace, Tracer.EndTrace.
  cbv beta iota zeta delta
    [bind ret get statement issue modify panic time_Now uuid_New
     TraceRepository.GetByID StepRepository.GetByTraceID TraceRepository.Create
     TraceRepository.UpdateStatus].
  split_cases.
  all: repeat split; rewrite ?length_map, ?length_app; cbn [List.length]; lia.
Qed.

End ReplayFacts.

(** The trace of the unary turn of S1 holds the snapshots pre_llm and
    post_llm: a replay from index 1 finds neither. *)
Lemma replay_index_is_a_sequence_number_witness :
  let w := snd (LLMHandler.Chat Scenario.cfg (Scenario.upstream []) Scenario.request
                  Scenario.world) in
  map model.StepType (w_steps w) = ["snapshot"; "llm_call"; "snapshot"] /\
  exists w',
    ReplayEngineImpl.ReplayFromSnapshot (fun _ => inr (Go.errors_New "unused"))
      (fun _ => None) (uuid_of 0) 1 w
    = (Returned (None, Some (Go.errors_New "snapshot 1 not found")), w').
Proof.
  cbv zeta. split; [vm_compute; reflexivity|].
  destruct (@replay_index_is_a_sequence_number
              (fun _ => inr (Go.errors_New "unused")) (fun _ => None) (uuid_of 0) 1
              (hd Scenario.running_trace
                  (w_traces (snd (LLMHandler.Chat Scenario.cfg (Scenario.upstream [])
                                    Scenario.request Scenario.world))))
              (snd (LLMHandler.Chat Scenario.cfg (Scenario.upstream []) Scenario.request
                      Scenario.world)))
    as (w' & Hrun & _).
  - vm_compute. reflexivity.
  - vm_compute. reflexivity.
  - vm_compute. repeat constructor; intros _ H; try reflexivity; discriminate H.
  - discriminate.
  - exists w'. exact Hrun.
Defined.


(** The same stream with a final response whose cost is not a number:
    its record cannot be written as JSON, the callback fails after the
    step was recorded, and the turn ends with an error record. No message
    is stored, the session is not charged and the trace stays running. *)
Lemma streaming_turn_with_unwritable_cost :
  let run := LLMHandler.ChatStream Scenario.cfg
               (Scenario.upstream (delta_script Examples.two_deltas
                                   ++ [client.RecvMsg 100 Examples.unwritable_final]))
               Scenario.request Scenario.world in
  (exists rw,
     fst run = Returned rw /\
     LLMHandler.events rw
     = [JObj [("content", JStr "He"); ("type", JStr "content_delta")];
        JObj [("content", JStr "llo"); ("type", JStr "content_delta")];
        JObj [("error", JStr "callback error: json: unsupported value: NaN");
              ("type", JStr "error")]]) /\
  w_messages (snd run) = [] /\
  map model.Session_Budget (w_sessions (snd run))
  = map model.Session_Budget (w_sessions Scenario.world) /\
  map model.Status (w_traces (snd run)) = [model.TraceStatusRunning] /\
  map model.StepType (w_steps (snd run)) = ["snapshot"; "llm_call_stream"].
Proof.
  cbv zeta. split; [eexists; split; vm_compute; reflexivity|].
  repeat split; vm_compute; reflexivity.
Qed.
